(** * DataFrameProcessor: a shallow embedding and its properties

    The program ([DataFrameProcessor.py]) is one Python class that owns a
    pandas table and filters, aggregates, resamples and extends it.  The
    class is embedded method by method over a small executable model of
    the pandas operations it calls (module [pd]): tables are lists of
    labelled records, Python exceptions are an error type, and a method is
    a function from the object before the call to the outcome of the call
    and the object after it.

    Scope of the model of pandas.
    - Cells hold integers, strings, calendar dates or a missing value;
      numbers are integers (no floating point), and a column of numbers
      is an [int64] column: its sums wrap around.
    - Column names within one table are distinct and the row index has one
      level.
    - Dates in a table are calendar days (midnight timestamps), which is
      what the [%Y%m%d] parsing of the program produces. *)

From Stdlib Require Import ZArith List String Ascii Bool Lia.
From Stdlib Require Import Sorted Permutation OrderedTypeEx DecimalString.
Import ListNotations.

Local Open Scope string_scope.
Local Open Scope Z_scope.

(** ** Python exceptions and results *)

Inductive error : Type :=
| KeyError
| ValueError
| TypeError
| IndexError
| AttributeError.

Inductive result (A : Type) : Type :=
| Ok (a : A)
| Raise (e : error).

Arguments Ok {A} a.
Arguments Raise {A} e.

Definition rbind {A B : Type} (r : result A) (f : A -> result B) : result B :=
  match r with
  | Ok a => f a
  | Raise e => Raise e
  end.

Declare Scope result_scope.
Delimit Scope result_scope with result.
Notation "x <- r ;; k" := (rbind r (fun x => k))
  (at level 61, r at next level, right associativity) : result_scope.

Fixpoint rmap {A B : Type} (f : A -> result B) (l : list A) : result (list B) :=
  match l with
  | [] => Ok []
  | a :: l' =>
      match f a with
      | Ok b => match rmap f l' with
                | Ok bs => Ok (b :: bs)
                | Raise e => Raise e
                end
      | Raise e => Raise e
      end
  end.

(** ** The model of pandas *)

Module pd.

(** *** Cells *)

(** A value a cell can hold; [SDate d] is the calendar day [d] days after
    1970-01-01. *)
Inductive scalar : Type :=
| SInt (z : Z)
| SStr (s : string)
| SDate (d : Z).

(** A cell: a scalar, or the missing value ([None], [NaN], [NaT]). *)
Inductive cell : Type :=
| NA
| Val (a : scalar).

Definition scalar_eqb (a b : scalar) : bool :=
  match a, b with
  | SInt x, SInt y => x =? y
  | SStr x, SStr y => String.eqb x y
  | SDate x, SDate y => x =? y
  | _, _ => false
  end.

Definition cell_eqb (c d : cell) : bool :=
  match c, d with
  | NA, NA => true
  | Val a, Val b => scalar_eqb a b
  | _, _ => false
  end.

(** The order pandas sorts keys by: within one kind the kind's own order;
    across kinds numbers come before strings (pandas' mixed sort), and
    dates are placed last. *)
Definition scalar_compare (a b : scalar) : comparison :=
  match a, b with
  | SInt x, SInt y => x ?= y
  | SInt _, _ => Lt
  | SStr _, SInt _ => Gt
  | SStr x, SStr y => String.compare x y
  | SStr _, SDate _ => Lt
  | SDate x, SDate y => x ?= y
  | SDate _, _ => Gt
  end.

Definition scalar_ltb (a b : scalar) : bool :=
  match scalar_compare a b with Lt => true | _ => false end.

(** *** Tables *)

(** A record of a table: its row label and its cells by column name. *)
Record Row : Type := mkRow {
  row_label : cell;
  cells : list (string * cell)
}.

(** A table: the name of its index (if it has one), its column names in
    order and its rows in order. *)
Record DataFrame : Type := mkDataFrame {
  index_name : option string;
  columns : list string;
  rows : list Row
}.

Definition mem (c : string) (l : list string) : bool :=
  existsb (String.eqb c) l.

Fixpoint lookup (c : string) (r : list (string * cell)) : option cell :=
  match r with
  | [] => None
  | (k, v) :: r' => if String.eqb k c then Some v else lookup c r'
  end.

(** The cell of a record in column [c]; a record without that column
    reads as missing. *)
Definition get (c : string) (r : Row) : cell :=
  match lookup c (cells r) with
  | Some v => v
  | None => NA
  end.

Fixpoint update (c : string) (v : cell) (r : list (string * cell))
  : list (string * cell) :=
  match r with
  | [] => [(c, v)]
  | (k, w) :: r' =>
      if String.eqb k c then (k, v) :: r' else (k, w) :: update c v r'
  end.

(** Writing one cell of a record: an existing column is overwritten in
    place, a new one is added last. *)
Definition set (c : string) (v : cell) (r : Row) : Row :=
  mkRow (row_label r) (update c v (cells r)).

Definition nrows (df : DataFrame) : nat := List.length (rows df).

(** [df.copy()]: tables are values here, a copy is the table itself. *)
Definition copy (df : DataFrame) : DataFrame := df.

(** [df[c]]: the cells of column [c], a [KeyError] when there is no such
    column. *)
Definition getitem (df : DataFrame) (c : string) : result (list cell) :=
  if mem c (columns df) then Ok (map (get c) (rows df)) else Raise KeyError.

Definition add_column (c : string) (cols : list string) : list string :=
  if mem c cols then cols else cols ++ [c].

(** [df[c] = v] for one scalar [v]: every row gets [v]. *)
Definition setitem_scalar (df : DataFrame) (c : string) (v : cell) : DataFrame :=
  mkDataFrame (index_name df) (add_column c (columns df))
              (map (set c v) (rows df)).

Fixpoint set_cells (c : string) (rs : list Row) (vs : list cell) : list Row :=
  match rs, vs with
  | r :: rs', v :: vs' => set c v r :: set_cells c rs' vs'
  | _, _ => rs
  end.

(** [df[c] = s] for a column [s] computed from [df] itself (same index,
    same length): row by row. *)
Definition setitem_aligned (df : DataFrame) (c : string) (vs : list cell)
  : DataFrame :=
  mkDataFrame (index_name df) (add_column c (columns df))
              (set_cells c (rows df) vs).

(** The labels [0 .. n-1] of a fresh [RangeIndex]. *)
Definition range_label (i : nat) : cell := Val (SInt (Z.of_nat i)).

Fixpoint relabel_from (i : nat) (rs : list Row) : list Row :=
  match rs with
  | [] => []
  | r :: rs' => mkRow (range_label i) (cells r) :: relabel_from (S i) rs'
  end.

Definition relabel (rs : list Row) : list Row := relabel_from 0 rs.

(** *** Calendar *)

Definition is_leap (y : Z) : bool :=
  ((y mod 4 =? 0) && negb (y mod 100 =? 0)) || (y mod 400 =? 0).

Definition days_in_month (y m : Z) : Z :=
  if (m =? 2) then (if is_leap y then 29 else 28)
  else if (m =? 4) || (m =? 6) || (m =? 9) || (m =? 11) then 30
  else 31.

(** Day number (days after 1970-01-01) of the civil date [y]-[m]-[d] in
    the proleptic Gregorian calendar. *)
Definition days_from_civil (y m d : Z) : Z :=
  let y' := if m <=? 2 then y - 1 else y in
  let era := y' / 400 in
  let yoe := y' - era * 400 in
  let doy := (153 * (if 2 <? m then m - 3 else m + 9) + 2) / 5 + d - 1 in
  let doe := yoe * 365 + yoe / 4 - yoe / 100 + doy in
  era * 146097 + doe - 719468.

(** Civil date (year, month, day) of a day number. *)
Definition civil_from_days (z : Z) : Z * Z * Z :=
  let z' := z + 719468 in
  let era := z' / 146097 in
  let doe := z' - era * 146097 in
  let yoe := (doe - doe / 1460 + doe / 36524 - doe / 146096) / 365 in
  let doy := doe - (365 * yoe + yoe / 4 - yoe / 100) in
  let mp := (5 * doy + 2) / 153 in
  let d := doy - (153 * mp + 2) / 5 + 1 in
  let m := if mp <? 10 then mp + 3 else mp - 9 in
  ((if m <=? 2 then yoe + era * 400 + 1 else yoe + era * 400), m, d).

(** A [Timestamp]: nanoseconds after 1970-01-01T00:00, a 64-bit count
    whose least value is reserved for [NaT]. *)
Definition Timestamp : Type := Z.

Definition ns_per_day : Z := 86400 * 1000000000.
Definition Timestamp_min : Z := - 9223372036854775807.
Definition Timestamp_max : Z := 9223372036854775807.

(** The timestamp at midnight of a calendar day. *)
Definition midnight (d : Z) : Timestamp := d * ns_per_day.

Definition in_bounds (d : Z) : bool :=
  (Timestamp_min <=? midnight d) && (midnight d <=? Timestamp_max).

(** [Timedelta.days]: whole days of a difference of timestamps, rounded
    towards minus infinity. *)
Definition Timedelta_days (td : Z) : Z := td / ns_per_day.

(** *** Text of a cell and date parsing *)

Definition str_of_Z (z : Z) : string := NilZero.string_of_int (Z.to_int z).

Fixpoint pad_left (n : nat) (s : string) : string :=
  match n with
  | O => s
  | S n' => if (String.length s <=? n')%nat then pad_left n' ("0" ++ s) else s
  end.

Definition iso_of_day (d : Z) : string :=
  let '(y, m, dd) := civil_from_days d in
  pad_left 4 (str_of_Z y) ++ "-" ++ pad_left 2 (str_of_Z m) ++ "-"
    ++ pad_left 2 (str_of_Z dd).

(** [astype(str)] on one cell.  (The one missing value of the model has
    the text of [NaN]; the text of [None] is [None], and a column of
    integers with a missing value is a column of floats, whose texts
    end in [.0]: the statements below on raw dates are about cells that
    are present.) *)
Definition str_of_cell (c : cell) : string :=
  match c with
  | NA => "nan"
  | Val (SInt z) => str_of_Z z
  | Val (SStr s) => s
  | Val (SDate d) => iso_of_day d
  end.

Definition digit_of (a : ascii) : option Z :=
  let n := Z.of_nat (nat_of_ascii a) in
  if (48 <=? n) && (n <=? 57) then Some (n - 48) else None.

Fixpoint digits_value (acc : Z) (l : list ascii) : option Z :=
  match l with
  | [] => Some acc
  | a :: l' =>
      match digit_of a with
      | Some v => digits_value (10 * acc + v) l'
      | None => None
      end
  end.

(** The day a text of the form [YYYY-MM-DD] names, when it names a day
    of the calendar that a timestamp can hold. *)
Definition parse_iso_date (s : string) : option Z :=
  match list_ascii_of_string s with
  | [y1; y2; y3; y4; dash1; m1; m2; dash2; d1; d2] =>
      if Ascii.eqb dash1 "-"%char && Ascii.eqb dash2 "-"%char then
        match digits_value 0 [y1; y2; y3; y4], digits_value 0 [m1; m2],
              digits_value 0 [d1; d2] with
        | Some y, Some m, Some d =>
            if (1 <=? y) && (1 <=? m) && (m <=? 12) && (1 <=? d)
               && (d <=? days_in_month y m) && in_bounds (days_from_civil y m d)
            then Some (days_from_civil y m d)
            else None
        | _, _, _ => None
        end
      else None
  | _ => None
  end.

(** Elementwise [==] of a column with a scalar: a missing cell equals
    nothing, and values of different kinds are unequal, but for a date
    compared with a text: pandas reads the text as a date, and the
    cells of that day are equal to it.  (Of the texts pandas reads as
    dates the model knows the form [YYYY-MM-DD] only; any other text
    is unequal to every date here.) *)
Definition cell_eq (c : cell) (a : scalar) : bool :=
  match c, a with
  | NA, _ => false
  | Val (SDate d), SStr s =>
      match parse_iso_date s with
      | Some d' => d =? d'
      | None => false
      end
  | Val b, _ => scalar_eqb b a
  end.

(** [Series.isin]: membership of the cell in a list of scalars. *)
Definition cell_isin (c : cell) (l : list scalar) : bool :=
  existsb (cell_eq c) l.

(** The strings pandas reads as a missing date. *)
Definition nat_strings : list string :=
  [EmptyString; "NaT"; "nat"; "NAT"; "nan"; "NaN"; "NAN"].

(** [to_datetime(..., format='%Y%m%d')] on one string: eight digits that
    name a day of the calendar within the range of [Timestamp]; a missing
    marker gives [NaT]; anything else is a [ValueError].  (pandas also
    takes apart shorter texts of digits, [2023011] as 2023-01-01, and,
    depending on its version, texts that read as a number: these are
    not modelled, they are refused here, and the statements below on
    what is parsed are about texts of eight digits.) *)
Definition parse_yyyymmdd (s : string) : result cell :=
  if mem s nat_strings then Ok NA
  else if negb (String.length s =? 8)%nat then Raise ValueError
  else
    match digits_value 0 (list_ascii_of_string s) with
    | None => Raise ValueError
    | Some n =>
        let y := n / 10000 in
        let m := (n / 100) mod 100 in
        let d := n mod 100 in
        if (1 <=? y) && (1 <=? m) && (m <=? 12) && (1 <=? d)
           && (d <=? days_in_month y m) && in_bounds (days_from_civil y m d)
        then Ok (Val (SDate (days_from_civil y m d)))
        else Raise ValueError
    end.

Definition astype_str (col : list cell) : list string := map str_of_cell col.

Definition to_datetime (col : list string) : result (list cell) :=
  rmap parse_yyyymmdd col.

(** [pd.to_datetime] on a value that is a timestamp already. *)
Definition to_datetime_scalar (t : Timestamp) : Timestamp := t.

(** *** Index and shape *)

(** [df.reset_index()]: the row labels become the first column, named
    after the index, or [index] when the index has no name ([level_0]
    when a column [index] exists already); a [ValueError] when a column
    of that name exists.  The rows are labelled [0 .. n-1]. *)
Definition reset_index_name (df : DataFrame) : string :=
  match index_name df with
  | Some n => n
  | None => if mem "index" (columns df) then "level_0" else "index"
  end.

Definition reset_index (df : DataFrame) : result DataFrame :=
  let name := reset_index_name df in
  if mem name (columns df) then Raise ValueError
  else Ok (mkDataFrame None (name :: columns df)
             (relabel (map (fun r => mkRow (row_label r) ((name, row_label r) :: cells r))
                           (rows df)))).

(** [df.reset_index(drop=True)]: the labels are dropped. *)
Definition reset_index_drop (df : DataFrame) : DataFrame :=
  mkDataFrame None (columns df) (relabel (rows df)).

(** Bound of a Python slice [[:pos]] / [[pos:]] over [n] items: a
    negative bound counts from the end, and the bound is clipped to
    [0 .. n]; slicing never raises. *)
Definition slice_bound (n : nat) (pos : Z) : nat :=
  Z.to_nat (if pos <? 0 then Z.max 0 (Z.of_nat n + pos)
            else Z.min pos (Z.of_nat n)).

Definition with_rows (df : DataFrame) (rs : list Row) : DataFrame :=
  mkDataFrame (index_name df) (columns df) rs.

(** [df.iloc[:pos]] and [df.iloc[pos:]]. *)
Definition iloc_to (pos : Z) (df : DataFrame) : DataFrame :=
  with_rows df (firstn (slice_bound (nrows df) pos) (rows df)).

Definition iloc_from (pos : Z) (df : DataFrame) : DataFrame :=
  with_rows df (skipn (slice_bound (nrows df) pos) (rows df)).

(** [df.tail(n)]. *)
Definition tail (n : Z) (df : DataFrame) : DataFrame :=
  if n =? 0 then with_rows df [] else iloc_from (- n) df.

(** [pd.DataFrame(records)] from a list of dicts: the columns are the
    keys in order of first appearance. *)
Definition union_columns (a b : list string) : list string :=
  fold_left (fun acc c => add_column c acc) b a.

Definition project (cols : list string) (r : Row) : Row :=
  mkRow (row_label r) (map (fun c => (c, get c r)) cols).

Definition DataFrame_of_records (recs : list (list (string * cell))) : DataFrame :=
  let cols := fold_left union_columns (map (map fst) recs) [] in
  mkDataFrame None cols (relabel (map (fun r => project cols (mkRow NA r)) recs)).

(** [pd.concat(dfs, ignore_index=True)]: the columns of the parts in
    order of first appearance, the rows of the parts in order (a cell of
    a column the part has not is missing), labelled [0 .. n-1]. *)
Definition concat (dfs : list DataFrame) : DataFrame :=
  let cols := fold_left union_columns (map columns dfs) [] in
  mkDataFrame None cols (relabel (map (project cols) (flat_map rows dfs))).

(** [df[mask]] for a boolean column [mask] over the rows of [df]. *)
Fixpoint select (mask : list bool) (rs : list Row) : list Row :=
  match mask, rs with
  | b :: mask', r :: rs' => if b then r :: select mask' rs' else select mask' rs'
  | _, _ => []
  end.

Definition getitem_mask (df : DataFrame) (mask : list bool) : DataFrame :=
  with_rows df (select mask (rows df)).

(** [mask &= other] on boolean columns of one table. *)
Fixpoint mask_and (a b : list bool) : list bool :=
  match a, b with
  | x :: a', y :: b' => (x && y) :: mask_and a' b'
  | _, _ => []
  end.

(** *** Reductions *)

Definition scalar_min (a b : scalar) : scalar :=
  if scalar_ltb b a then b else a.

Definition scalar_max (a b : scalar) : scalar :=
  if scalar_ltb a b then b else a.

Definition reduce (f : scalar -> scalar -> scalar) (col : list cell) : cell :=
  fold_left (fun acc c =>
               match acc, c with
               | _, NA => acc
               | NA, Val a => Val a
               | Val b, Val a => Val (f b a)
               end) col NA.

(** [Series.min()] and [Series.max()]: missing cells are skipped, and the
    result is missing when nothing is left. *)
Definition series_min (col : list cell) : cell := reduce scalar_min col.
Definition series_max (col : list cell) : cell := reduce scalar_max col.

(** The number in a cell of a numeric column; a missing cell counts as
    0 in a sum.  A column that holds a string or a date is not numeric:
    summing it is reported as a [TypeError] (pandas does so for dates; its
    concatenation of string columns is not modelled, and no statement
    below is about the sum of a column of strings). *)
Definition numeric (c : cell) : result Z :=
  match c with
  | NA => Ok 0
  | Val (SInt z) => Ok z
  | Val _ => Raise TypeError
  end.

(** *** Sums of 64-bit integers *)

Definition int64_min : Z := - 2 ^ 63.
Definition int64_max : Z := 2 ^ 63 - 1.

(** The value of an integer kept in 64 bits (two's complement). *)
Definition wrap_int64 (z : Z) : Z := (z + 2 ^ 63) mod 2 ^ 64 - 2 ^ 63.

(** Addition in an [int64] column: it wraps around. *)
Definition int64_add (a b : Z) : Z := wrap_int64 (a + b).

(** *** Grouping by key *)

(** The groups met so far, in ascending key order, each with the sum of
    its values: a sum starts at 0 and is an [int64]. *)
Fixpoint add_group (k : scalar) (v : Z) (acc : list (scalar * Z))
  : list (scalar * Z) :=
  match acc with
  | [] => [(k, int64_add 0 v)]
  | (k', s) :: acc' =>
      match scalar_compare k k' with
      | Lt => (k, int64_add 0 v) :: (k', s) :: acc'
      | Eq => (k', int64_add s v) :: acc'
      | Gt => (k', s) :: add_group k v acc'
      end
  end.

Fixpoint group_sums (kvs : list (cell * Z)) (acc : list (scalar * Z))
  : list (scalar * Z) :=
  match kvs with
  | [] => acc
  | (NA, _) :: kvs' => group_sums kvs' acc
  | (Val k, v) :: kvs' => group_sums kvs' (add_group k v acc)
  end.

Definition frame_of_sums (key target : string) (sums : list (scalar * Z))
  : DataFrame :=
  mkDataFrame None [key; target]
    (relabel (map (fun kv => mkRow NA [(key, Val (fst kv));
                                       (target, Val (SInt (snd kv)))]) sums)).

(** [df.groupby([key], as_index=False)[target].sum()]: one row per key
    in ascending key order (groupby sorts its keys), with the [int64]
    sum of its values; rows whose key is missing are dropped; the result
    has the columns [key] and [target] and fresh labels.  A key or a
    target that is no column is a [KeyError].  Two cases are not
    modelled, and no statement below is about them: for a table of
    exactly one row pandas takes a key list of one name that is no
    column for the labels of the rows, and returns; and what selecting
    the key column itself as the column to sum gives depends on the
    version of pandas (it is a [ValueError] here). *)
Definition groupby_sum (df : DataFrame) (key target : string) : result DataFrame :=
  (keys <- getitem df key ;;
   col <- getitem df target ;;
   vals <- rmap numeric col ;;
   if String.eqb key target then Raise ValueError
   else Ok (frame_of_sums key target (group_sums (combine keys vals) [])))%result.

(** *** Resampling *)

(** The offsets the program names: month end, week (ending on Sunday),
    calendar day. *)
Inductive freq : Type :=
| MonthEnd
| Week
| Day.

Definition to_offset (rule : string) : result freq :=
  if String.eqb rule "M" then Ok MonthEnd
  else if String.eqb rule "W" then Ok Week
  else if String.eqb rule "D" then Ok Day
  else Raise ValueError.

(** The number of the bucket a day falls in, and the day that labels a
    bucket: a day labels itself; a week is labelled by the Sunday that
    ends it (day 3, 1970-01-04, is a Sunday); a month by its last day. *)
Definition bin_of (f : freq) (d : Z) : Z :=
  match f with
  | Day => d
  | Week => (d + 3) / 7
  | MonthEnd => let '(y, m, _) := civil_from_days d in y * 12 + (m - 1)
  end.

Definition bin_label (f : freq) (k : Z) : Z :=
  match f with
  | Day => k
  | Week => 7 * k + 3
  | MonthEnd =>
      let y := k / 12 in
      let m := k mod 12 + 1 in
      days_from_civil y m (days_in_month y m)
  end.

Definition day_of (c : cell) : result (option Z) :=
  match c with
  | NA => Ok None
  | Val (SDate d) => Ok (Some d)
  | Val _ => Raise TypeError
  end.

Fixpoint dated (ds : list (option Z)) (vs : list Z) : list (Z * Z) :=
  match ds, vs with
  | Some d :: ds', v :: vs' => (d, v) :: dated ds' vs'
  | None :: ds', _ :: vs' => dated ds' vs'
  | _, _ => []
  end.

Definition sum_bin (f : freq) (k : Z) (dvs : list (Z * Z)) : Z :=
  fold_left (fun acc dv => if bin_of f (fst dv) =? k
                           then int64_add acc (snd dv) else acc)
            dvs 0.

Definition bins_between (lo hi : Z) : list Z :=
  map (fun i => lo + Z.of_nat i) (seq 0 (Z.to_nat (hi - lo + 1))).

Definition min_list (l : list Z) : option Z :=
  match l with
  | [] => None
  | x :: l' => Some (fold_left Z.min l' x)
  end.

Definition max_list (l : list Z) : option Z :=
  match l with
  | [] => None
  | x :: l' => Some (fold_left Z.max l' x)
  end.

Definition bucket_sums (f : freq) (dvs : list (Z * Z)) : list (scalar * Z) :=
  let ks := map (fun dv => bin_of f (fst dv)) dvs in
  match min_list ks, max_list ks with
  | Some lo, Some hi =>
      map (fun k => (SDate (bin_label f k), sum_bin f k dvs)) (bins_between lo hi)
  | _, _ => []
  end.

(** The bucket edges are computed from the least and the greatest date:
    when there are rows and none of them has a date, both are [NaT],
    which has not what the computation asks of a timestamp
    ([AttributeError]). *)
Definition range_edges (days : list (option Z)) : result unit :=
  match days with
  | [] => Ok tt
  | _ :: _ => if forallb (fun d => match d with None => true | Some _ => false end)
                         days
              then Raise AttributeError else Ok tt
  end.

(** [df.resample(rule, on=key)[target].sum().reset_index()]: one row
    for every bucket from the first populated one to the last, in
    ascending order, with the [int64] sum of [target] over the rows in
    the bucket (0 for a bucket without rows); rows without a date are
    left out.  A key column that holds anything but dates is a
    [TypeError]. *)
Definition resample_sum (df : DataFrame) (rule : string) (key target : string)
  : result DataFrame :=
  (f <- to_offset rule ;;
   keys <- getitem df key ;;
   days <- rmap day_of keys ;;
   edges <- range_edges days ;;
   col <- getitem df target ;;
   vals <- rmap numeric col ;;
   if String.eqb key target then Raise ValueError
   else Ok (frame_of_sums key target (bucket_sums f (dated days vals))))%result.

(** *** Assigning a computed column *)

(** What a prediction function hands back: a plain sequence (list,
    array), or a [Series] that carries a label for each value. *)
Inductive prediction : Type :=
| PredList (vs : list cell)
| PredSeries (s : list (cell * cell)).

Fixpoint find_label (l : cell) (s : list (cell * cell)) : option cell :=
  match s with
  | [] => None
  | (k, v) :: s' => if cell_eqb k l then Some v else find_label l s'
  end.

Fixpoint unique_labels (s : list (cell * cell)) : bool :=
  match s with
  | [] => true
  | (k, _) :: s' =>
      match find_label k s' with
      | Some _ => false
      | None => unique_labels s'
      end
  end.

Fixpoint labels_eqb (a b : list cell) : bool :=
  match a, b with
  | [], [] => true
  | x :: a', y :: b' => cell_eqb x y && labels_eqb a' b'
  | _, _ => false
  end.

Definition blank_row (cols : list string) (l : cell) : Row :=
  mkRow l (map (fun c => (c, NA)) cols).

(** [df[c] = value] for the value of a prediction.
    - A table without rows takes its rows from a non-empty value: one
      all-missing row per entry (labelled [0 .. k-1] for a sequence, by
      the series' labels for a series), then the column is written.
    - Otherwise a sequence must have one entry per row, else pandas
      raises a [ValueError] (length of values does not match length of
      index).
    - Otherwise a series is aligned on the row labels: a row whose label
      the series lacks gets a missing cell, surplus entries are dropped;
      a series with repeated labels that is not label-for-label the
      table's index is a [ValueError]. *)
Definition setitem (df : DataFrame) (c : string) (value : prediction)
  : result DataFrame :=
  match value with
  | PredList vs =>
      match rows df, vs with
      | [], _ :: _ =>
          Ok (setitem_aligned
                (with_rows df (relabel (map (fun _ => blank_row (columns df) NA) vs)))
                c vs)
      | _, _ =>
          if (List.length vs =? nrows df)%nat then Ok (setitem_aligned df c vs)
          else Raise ValueError
      end
  | PredSeries s =>
      match rows df, s with
      | [], _ :: _ =>
          Ok (setitem_aligned
                (with_rows df (map (fun kv => blank_row (columns df) (fst kv)) s))
                c (map snd s))
      | _, _ =>
          if labels_eqb (map fst s) (map row_label (rows df))
          then Ok (setitem_aligned df c (map snd s))
          else if unique_labels s
          then Ok (setitem_aligned df c
                     (map (fun r => match find_label (row_label r) s with
                                    | Some v => v
                                    | None => NA
                                    end) (rows df)))
          else Raise ValueError
      end
  end.

End pd.

(** ** The class *)

(** The attributes of a [DataFrameProcessor] object. *)
Record DataFrameProcessor : Type := mkProcessor {
  target : string;
  date_column : string;
  label : string;
  graph : string;
  withGraph : bool;
  df : pd.DataFrame;
  filter_columns : list string;
  min_date : pd.cell;
  max_date : pd.cell
}.

(** A method body: it runs on the object, may replace attributes, and
    ends with a value or a raised exception; the object it leaves behind
    is the one at the point of return or of the raise. *)
Definition M (A : Type) : Type :=
  DataFrameProcessor -> result A * DataFrameProcessor.

Definition ret {A : Type} (a : A) : M A := fun self => (Ok a, self).

Definition bind {A B : Type} (m : M A) (f : A -> M B) : M B :=
  fun self =>
    match m self with
    | (Ok a, self') => f a self'
    | (Raise e, self') => (Raise e, self')
    end.

Definition lift {A : Type} (r : result A) : M A := fun self => (r, self).

Definition get_self : M DataFrameProcessor := fun self => (Ok self, self).

Definition with_df (self : DataFrameProcessor) (frame : pd.DataFrame)
  : DataFrameProcessor :=
  mkProcessor (target self) (date_column self) (label self) (graph self)
              (withGraph self) frame
              (filter_columns self) (min_date self) (max_date self).

Definition with_target (self : DataFrameProcessor) (name : string)
  : DataFrameProcessor :=
  mkProcessor name (date_column self) (label self) (graph self)
              (withGraph self) (df self)
              (filter_columns self) (min_date self) (max_date self).

(** [self.df = frame] *)
Definition set_df (frame : pd.DataFrame) : M unit :=
  fun self => (Ok tt, with_df self frame).

(** [self.target = name] *)
Definition set_target (name : string) : M unit :=
  fun self => (Ok tt, with_target self name).

Declare Scope method_scope.
Delimit Scope method_scope with method.
Notation "x <- m ;; k" := (bind m (fun x => k))
  (at level 61, m at next level, right associativity) : method_scope.
Notation "m ;;; k" := (bind m (fun _ => k))
  (at level 61, right associativity) : method_scope.

(** The value of a filter entry: [None], one scalar, or a list of
    acceptable scalars. *)
Inductive filter_value : Type :=
| PyNone
| PyScalar (a : pd.scalar)
| PyList (l : list pd.scalar).

(** A filter entry may hold another collection instead of a list: a
    value of any kind is one of the above, or a set (given by its
    members). *)
Inductive any_filter_value : Type :=
| Plain (val : filter_value)
| PySet (members : list pd.scalar).

Section Methods.

Import pd.

(** [__init__(self, df, exclude_columns_from_filter, date_column, target,
    label, graph, withGraph)]: the object when construction succeeds. *)
Definition __init__ (df : DataFrame) (exclude_columns_from_filter : list string)
    (date_column target label graph : string) (withGraph : bool)
  : result DataFrameProcessor :=
  (frame <- reset_index (copy df) ;;
   let filter_columns :=
     filter (fun c => negb (mem c exclude_columns_from_filter)) (columns df) in
   raw <- getitem frame date_column ;;
   dates <- to_datetime (astype_str raw) ;;
   let frame := setitem_aligned frame date_column dates in
   let frame :=
     if withGraph then setitem_scalar frame graph (Val (SStr label)) else frame in
   col <- getitem frame date_column ;;
   Ok (mkProcessor target date_column label graph withGraph frame
                   filter_columns (series_min col) (series_max col)))%result.

(** [reset_df(self, df)]: the copy is stored first, then its date
    column is parsed and the series column written; a raise in between
    leaves the copy in place. *)
Definition reset_df (new_df : DataFrame) : M unit :=
  (set_df (copy new_df) ;;;
   self <- get_self ;;
   raw <- lift (getitem (df self) (date_column self)) ;;
   dates <- lift (to_datetime (astype_str raw)) ;;
   set_df (setitem_aligned (df self) (date_column self) dates) ;;;
   self <- get_self ;;
   if withGraph self
   then set_df (setitem_scalar (df self) (graph self) (Val (SStr (label self))))
   else ret tt)%method.

(** [insert_empty_row_at_pos(self, pos)] for an integer [pos]. *)
Definition insert_empty_row_at_pos (pos : Z) : M unit :=
  (self <- get_self ;;
   let empty_row := map (fun col => (col, NA)) (columns (df self)) in
   set_df (concat [iloc_to pos (df self);
                   DataFrame_of_records [empty_row];
                   iloc_from pos (df self)]) ;;;
   self <- get_self ;;
   set_df (reset_index_drop (df self)))%method.

(** [change_target(self, target)] *)
Definition change_target (name : string) : M unit := set_target name.

(** [val in [None, '', []]]: the value is [None], the empty string or
    the empty list. *)
Definition is_blank (val : filter_value) : bool :=
  match val with
  | PyNone => true
  | PyScalar (SStr EmptyString) => true
  | PyList [] => true
  | _ => false
  end.

(** [series == val] for a value that is not a list. *)
Definition series_eq (series : list cell) (val : filter_value) : list bool :=
  map (fun c => match val with
                | PyScalar a => cell_eq c a
                | _ => false
                end) series.

Definition series_isin (series : list cell) (l : list scalar) : list bool :=
  map (fun c => cell_isin c l) series.

(** The loop over [filters.items()], with the mask built so far.  The
    dict is the list of its entries in insertion order (a dict holds a
    key once; the loop does not rely on it). *)
Fixpoint filter_loop (frame : DataFrame) (filters : list (string * filter_value))
    (mask : list bool) : result (list bool) :=
  match filters with
  | [] => Ok mask
  | (col, val) :: rest =>
      if negb (is_blank val) then
        match val with
        | PyList l =>
            (series <- getitem frame col ;;
             filter_loop frame rest (mask_and mask (series_isin series l)))%result
        | _ =>
            (series <- getitem frame col ;;
             filter_loop frame rest (mask_and mask (series_eq series val)))%result
        end
      else filter_loop frame rest mask
  end.

(** [series == val] for a set [val].  A set is not [None], [''] or
    [[]], and it is no list: it is compared with the column.  To a
    column of numbers or strings a set is one object, equal to no cell.
    A column of dates takes it for a sequence of values and asks for as
    many members as it has rows ([ValueError]); a set of that size is
    no sequence of dates, and equal to no cell. *)
Definition holds_date (series : list cell) : bool :=
  existsb (fun c => match c with Val (SDate _) => true | _ => false end) series.

Definition series_eq_set (series : list cell) (members : list scalar)
  : result (list bool) :=
  if holds_date series
     && negb (List.length members =? List.length series)%nat
  then Raise ValueError
  else Ok (map (fun _ => false) series).

(** The loop over [filters.items()] for values of any kind: the entries
    that hold [None], a scalar or a list go as in [filter_loop]. *)
Fixpoint filter_loop_any (frame : DataFrame)
    (filters : list (string * any_filter_value)) (mask : list bool)
  : result (list bool) :=
  match filters with
  | [] => Ok mask
  | (col, Plain val) :: rest =>
      if negb (is_blank val) then
        match val with
        | PyList l =>
            (series <- getitem frame col ;;
             filter_loop_any frame rest
                             (mask_and mask (series_isin series l)))%result
        | _ =>
            (series <- getitem frame col ;;
             filter_loop_any frame rest
                             (mask_and mask (series_eq series val)))%result
        end
      else filter_loop_any frame rest mask
  | (col, PySet members) :: rest =>
      (series <- getitem frame col ;;
       eq <- series_eq_set series members ;;
       filter_loop_any frame rest (mask_and mask eq))%result
  end.

(** [filter_by_specified_columns(self, filters, inplace)]; the mask
    starts as [pd.Series(True, index=self.df.index)]. *)
Definition filter_by_specified_columns (filters : list (string * filter_value))
    (inplace : bool) : M (option DataFrame) :=
  (self <- get_self ;;
   mask <- lift (filter_loop (df self) filters (repeat true (nrows (df self)))) ;;
   let filtered_df := getitem_mask (df self) mask in
   if inplace then set_df filtered_df ;;; ret None
   else ret (Some filtered_df))%method.

(** The same method for a filter map whose values are of any kind. *)
Definition filter_by_specified_columns_any
    (filters : list (string * any_filter_value)) (inplace : bool)
  : M (option DataFrame) :=
  (self <- get_self ;;
   mask <- lift (filter_loop_any (df self) filters
                                 (repeat true (nrows (df self)))) ;;
   let filtered_df := getitem_mask (df self) mask in
   if inplace then set_df filtered_df ;;; ret None
   else ret (Some filtered_df))%method.

(** [aggregate(self, inplace)]; a method that ends without [return]
    gives [None]. *)
Definition aggregate (inplace : bool) : M (option DataFrame) :=
  (self <- get_self ;;
   data <- lift (groupby_sum (df self) (date_column self) (target self)) ;;
   let data := setitem_scalar data (graph self) (Val (SStr (target self))) in
   if inplace then set_df (copy data) ;;; ret None
   else ret (Some data))%method.

(** [aggregate_by_timespan(self, start_date, end_date, inplace)] for
    two timestamps. *)
Definition aggregate_by_timespan (start_date end_date : Timestamp)
    (inplace : bool) : M (option DataFrame) :=
  (let start := to_datetime_scalar start_date in
   let end_ := to_datetime_scalar end_date in
   let days := Timedelta_days (end_ - start) in
   self <- get_self ;;
   data <- lift (if days >? 365
                 then resample_sum (df self) "M" (date_column self) (target self)
                 else if days >? 90
                 then resample_sum (df self) "W" (date_column self) (target self)
                 else resample_sum (df self) "D" (date_column self) (target self)) ;;
   let data := setitem_scalar data (graph self) (Val (SStr (target self))) in
   if inplace then set_df data ;;; ret None
   else ret (Some data))%method.

(** [add_prediction(self, label, last_n_rows, predict, inplace)]; the
    prediction function may itself raise. *)
Definition add_prediction (label : string) (last_n_rows : Z)
    (predict : DataFrame -> result prediction) (inplace : bool)
  : M (option DataFrame) :=
  (self <- get_self ;;
   if negb (withGraph self) then ret (Some (df self))
   else
     series <- lift (getitem (df self) (graph self)) ;;
     let mask := series_eq series (PyScalar (SStr (target self))) in
     let rows := copy (tail last_n_rows (getitem_mask (df self) mask)) in
     value <- lift (predict rows) ;;
     rows <- lift (setitem rows (target self) value) ;;
     let rows := setitem_scalar rows (graph self) (Val (SStr label)) in
     let data := concat [df self; rows] in
     if inplace then set_df data ;;; ret None
     else ret (Some data))%method.

(** [column >= start] and [column <= end] against timestamps: a missing
    cell compares false; a cell that is not a date cannot be compared
    ([TypeError]). *)
Definition date_between (start_date end_date : Timestamp) (c : cell) : result bool :=
  match c with
  | NA => Ok false
  | Val (SDate d) => Ok ((start_date <=? midnight d) && (midnight d <=? end_date))
  | Val _ => Raise TypeError
  end.

(** [filter_by_date(self, start_date, end_date, inplace)] *)
Definition filter_by_date (start_date end_date : Timestamp) (inplace : bool)
  : M (option DataFrame) :=
  (self <- get_self ;;
   series <- lift (getitem (df self) (date_column self)) ;;
   mask <- lift (rmap (date_between start_date end_date) series) ;;
   if inplace then set_df (getitem_mask (df self) mask) ;;; ret None
   else ret (Some (getitem_mask (df self) mask)))%method.

End Methods.

(** ** Vocabulary of the statements *)

Section Vocabulary.

Import pd.

(** A well-formed table: its column names are distinct and every record
    has exactly the table's columns, in the table's order. *)
Definition well_formed (frame : DataFrame) : Prop :=
  NoDup (columns frame)
  /\ Forall (fun r => map fst (cells r) = columns frame) (rows frame).

(** [aggregate_by_timespan] with the resampling rule fixed: what the
    method does once it has chosen [rule]. *)
Definition resample_with (rule : string) (inplace : bool) : M (option DataFrame) :=
  (self <- get_self ;;
   data <- lift (resample_sum (df self) rule (date_column self) (target self)) ;;
   let data := setitem_scalar data (graph self) (Val (SStr (target self))) in
   if inplace then set_df data ;;; ret None
   else ret (Some data))%method.

(** Following the spec's words: the inclusive span length in days
    between the start date and the end date, the day of the start and
    the day of the end both counted. *)
Definition inclusive_span_days (start_date end_date : Timestamp) : Z :=
  end_date / ns_per_day - start_date / ns_per_day + 1.

(** Following the spec's words: the bucket rule for a span length. *)
Definition spec_rule (span : Z) : string :=
  if span >? 365 then "M" else if span >? 90 then "W" else "D".

(** The rows [add_prediction] selects: the last [last_n_rows] rows whose
    series cell is the name of the target column. *)
Definition selected_rows (self : DataFrameProcessor) (last_n_rows : Z)
  : result DataFrame :=
  (series <- getitem (df self) (graph self) ;;
   Ok (tail last_n_rows
         (getitem_mask (df self)
            (series_eq series (PyScalar (SStr (target self)))))))%result.

(** Following the claim's words: a filter entry that is empty (null,
    empty string, empty collection). *)
Definition empty_entry (val : filter_value) : Prop :=
  val = PyNone \/ val = PyScalar (SStr EmptyString) \/ val = PyList [].

(** An entry of a filter map without sets, among the entries of any
    kind. *)
Definition plain_entry (entry : string * filter_value)
  : string * any_filter_value :=
  (fst entry, Plain (snd entry)).

(** Following the claim's words: an empty collection is an empty
    entry, whatever the collection is. *)
Definition empty_collection (val : any_filter_value) : Prop :=
  val = Plain (PyList []) \/ val = PySet [].

(** What a filter entry requires of a record: an empty entry requires
    nothing; a scalar requires the cell to be equal to it, where a date
    is equal to the text [YYYY-MM-DD] of its day as well; a list
    requires the cell to be one of its members. *)
Definition entry_holds (r : Row) (entry : string * filter_value) : Prop :=
  match snd entry with
  | PyNone => True
  | PyScalar a =>
      a = SStr EmptyString
      \/ get (fst entry) r = Val a
      \/ exists s d, a = SStr s /\ parse_iso_date s = Some d
                      /\ get (fst entry) r = Val (SDate d)
  | PyList l => l = [] \/ exists a, In a l /\ get (fst entry) r = Val a
  end.

(** A cell of a column of numbers or of strings. *)
Definition number_or_text (c : cell) : Prop :=
  (exists z, c = Val (SInt z)) \/ (exists s, c = Val (SStr s)).

(** The texts the entries compare with the dates of the table are of
    the form [YYYY-MM-DD], and a list that is tested against dates
    holds no text.  (What pandas makes of other texts against a column
    of dates depends on the text and on the version of pandas.) *)
Definition date_texts_are_iso (frame : DataFrame)
    (filters : list (string * filter_value)) : Prop :=
  forall col val r d,
    In (col, val) filters -> In r (rows frame) ->
    get col r = Val (SDate d) ->
    match val with
    | PyScalar (SStr s) => s = EmptyString \/ parse_iso_date s <> None
    | PyList l => forall s, ~ In (SStr s) l
    | _ => True
    end.

(** The same requirement as a test: what the loop of
    [filter_by_specified_columns] adds to the mask for one entry. *)
Definition entry_passes (r : Row) (entry : string * filter_value) : bool :=
  match snd entry with
  | PyNone => true
  | PyScalar a => scalar_eqb a (SStr EmptyString) || cell_eq (get (fst entry) r) a
  | PyList [] => true
  | PyList l => cell_isin (get (fst entry) r) l
  end.

(** The columns the non-empty entries of a filter map name are columns
    of the table. *)
Definition entries_defined (frame : DataFrame)
    (filters : list (string * filter_value)) : Prop :=
  forall col val, In (col, val) filters -> ~ empty_entry val ->
                  In col (columns frame).

(** The sum of the target over the rows whose date cell is [k]. *)
Definition numeric_or_zero (c : cell) : Z :=
  match c with
  | Val (SInt z) => z
  | _ => 0
  end.

Definition total_at (key target : string) (k : scalar) (rs : list Row) : Z :=
  fold_right Z.add 0
    (map (fun r => numeric_or_zero (get target r))
         (filter (fun r => cell_eqb (get key r) (Val k)) rs)).

Definition scalar_lt (a b : scalar) : Prop := scalar_compare a b = Lt.

(** An [int64] cell: an integer that fits 64 bits. *)
Definition int64_cell (c : cell) : Prop :=
  exists z, c = Val (SInt z) /\ int64_min <= z <= int64_max.

(** The groups of [pd.add_group] and [pd.group_sums] with their sums in
    unbounded integers. *)
Fixpoint exact_add_group (k : scalar) (v : Z) (acc : list (scalar * Z))
  : list (scalar * Z) :=
  match acc with
  | [] => [(k, v)]
  | (k', s) :: acc' =>
      match scalar_compare k k' with
      | Lt => (k, v) :: (k', s) :: acc'
      | Eq => (k', s + v) :: acc'
      | Gt => (k', s) :: exact_add_group k v acc'
      end
  end.

Fixpoint exact_group_sums (kvs : list (cell * Z)) (acc : list (scalar * Z))
  : list (scalar * Z) :=
  match kvs with
  | [] => acc
  | (NA, _) :: kvs' => exact_group_sums kvs' acc
  | (Val k, v) :: kvs' => exact_group_sums kvs' (exact_add_group k v acc)
  end.

(** Sums kept in 64 bits. *)
Definition wrapped (sums : list (scalar * Z)) : list (scalar * Z) :=
  map (fun kv => (fst kv, wrap_int64 (snd kv))) sums.

(** The total of the values recorded under key [k] in a list of
    (key, value) pairs. *)
Definition weight (k : scalar) (acc : list (scalar * Z)) : Z :=
  fold_right Z.add 0
    (map snd (filter (fun kv => scalar_eqb (fst kv) k) acc)).

Definition weight_of_cells (k : scalar) (kvs : list (cell * Z)) : Z :=
  fold_right Z.add 0
    (map snd (filter (fun kv => cell_eqb (fst kv) (Val k)) kvs)).

(** A numeric column: every cell is an integer or missing. *)
Definition numeric_cell (c : cell) : Prop :=
  match c with
  | NA | Val (SInt _) => True
  | Val _ => False
  end.

(** The text [YYYYMMDD] of a day: four digits of the year, two of the
    month and two of the day. *)
Definition digit_char (n : Z) : ascii := ascii_of_nat (48 + Z.to_nat n).

Definition yyyymmdd (y m d : Z) : string :=
  String (digit_char (y / 1000))
    (String (digit_char (y / 100 mod 10))
       (String (digit_char (y / 10 mod 10))
          (String (digit_char (y mod 10))
             (String (digit_char (m / 10))
                (String (digit_char (m mod 10))
                   (String (digit_char (d / 10))
                      (String (digit_char (d mod 10)) EmptyString))))))).

(** A day of the calendar, with a year of four digits, that a timestamp
    can hold. *)
Definition calendar_day (y m d : Z) : Prop :=
  1000 <= y <= 9999 /\ 1 <= m <= 12 /\ 1 <= d <= days_in_month y m
  /\ in_bounds (days_from_civil y m d) = true.

(** The cell is a raw date: its text is the [YYYYMMDD] of the day. *)
Definition raw_date (c : cell) (y m d : Z) : Prop :=
  calendar_day y m d /\ str_of_cell c = yyyymmdd y m d.

(** A normalized date cell: a calendar date, or missing. *)
Definition date_or_missing (c : cell) : Prop :=
  c = NA \/ exists day, c = Val (SDate day).

(** The date in the cell lies between two timestamps, both bounds
    included. *)
Definition in_date_range (start_date end_date : Timestamp) (c : cell) : bool :=
  match c with
  | Val (SDate d) => (start_date <=? midnight d) && (midnight d <=? end_date)
  | _ => false
  end.

(** The rows of an aggregate as (key, sum) pairs. *)
Definition sums_of (key target : string) (frame : DataFrame)
  : list (cell * cell) :=
  map (fun r => (get key r, get target r)) (rows frame).

End Vocabulary.

(** ** Sample objects *)

Module Samples.

Import pd.

Definition row (i : Z) (cs : list (string * cell)) : Row := mkRow (Val (SInt i)) cs.

(** A raw input table: two days of January 2023. *)
Definition raw : DataFrame :=
  mkDataFrame None ["date"; "v"]
    [ row 0 [("date", Val (SStr "20230101")); ("v", Val (SInt 10))];
      row 1 [("date", Val (SInt 20230102)); ("v", Val (SInt 20))] ].

(** The object constructed from [raw] with target [v], label [actual]
    and series column [series]. *)
Definition actual : DataFrameProcessor :=
  mkProcessor "v" "date" "actual" "series" true
    (mkDataFrame None ["index"; "date"; "v"; "series"]
       [ row 0 [("index", Val (SInt 0)); ("date", Val (SDate 19358));
                ("v", Val (SInt 10)); ("series", Val (SStr "actual"))];
         row 1 [("index", Val (SInt 1)); ("date", Val (SDate 19359));
                ("v", Val (SInt 20)); ("series", Val (SStr "actual"))] ])
    ["date"; "v"] (Val (SDate 19358)) (Val (SDate 19359)).

(** An object without a series dimension. *)
Definition plain : DataFrameProcessor :=
  mkProcessor "v" "date" "actual" "series" false
    (mkDataFrame None ["index"; "date"; "v"]
       [ row 0 [("index", Val (SInt 0)); ("date", Val (SDate 19358));
                ("v", Val (SInt 5))];
         row 1 [("index", Val (SInt 1)); ("date", Val (SDate 19358));
                ("v", Val (SInt 3))];
         row 2 [("index", Val (SInt 2)); ("date", Val (SDate 19390));
                ("v", Val (SInt 2))] ])
    ["date"; "v"] (Val (SDate 19358)) (Val (SDate 19390)).

(** An object whose table has been aggregated: its rows carry the name
    of the target as series. *)
Definition totals : DataFrameProcessor :=
  mkProcessor "v" "date" "actual" "series" true
    (mkDataFrame None ["date"; "v"; "series"]
       [ row 0 [("date", Val (SDate 19358)); ("v", Val (SInt 8));
                ("series", Val (SStr "v"))];
         row 1 [("date", Val (SDate 19390)); ("v", Val (SInt 2));
                ("series", Val (SStr "v"))] ])
    ["date"; "v"] (Val (SDate 19358)) (Val (SDate 19390)).

(** An object whose table has a row without a date. *)
Definition partly_dated : DataFrameProcessor :=
  mkProcessor "v" "date" "actual" "series" false
    (mkDataFrame None ["index"; "date"; "v"]
       [ row 0 [("index", Val (SInt 0)); ("date", Val (SDate 19358));
                ("v", Val (SInt 4))];
         row 1 [("index", Val (SInt 1)); ("date", NA);
                ("v", Val (SInt 2))] ])
    ["date"; "v"] (Val (SDate 19358)) (Val (SDate 19358)).

(** An object whose table has rows, none of them with a date. *)
Definition undated : DataFrameProcessor :=
  mkProcessor "v" "date" "actual" "series" false
    (mkDataFrame None ["index"; "date"; "v"]
       [ row 0 [("index", Val (SInt 0)); ("date", NA); ("v", Val (SInt 4))];
         row 1 [("index", Val (SInt 1)); ("date", NA); ("v", Val (SInt 2))] ])
    ["date"; "v"] NA NA.

(** A raw table that has a column called [index] of its own. *)
Definition raw_with_index_column : DataFrame :=
  mkDataFrame None ["index"; "date"]
    [ row 0 [("index", Val (SStr "a")); ("date", Val (SInt 20230101))] ].

(** Filter maps over the table of [plain]: the first day only; the
    same with an empty entry and an entry without value added. *)
Definition first_day : list (string * filter_value) :=
  [("date", PyScalar (SDate 19358))].

Definition first_day_padded : list (string * filter_value) :=
  [("date", PyScalar (SDate 19358)); ("v", PyList []); ("region", PyNone)].

Definition five_or_two : string * filter_value :=
  ("v", PyList [SInt 5; SInt 2]).

(** 2023-01-01 and 2024-01-01 at midnight. *)
Definition new_year_2023 : Timestamp := midnight 19358.
Definition new_year_2024 : Timestamp := midnight 19723.

End Samples.


(** ** Steps of a method *)

Ltac run := unfold bind, lift, ret, get_self, set_df, set_target; simpl.

(** ** Vocabulary of the further properties *)

Section FurtherVocabulary.

Import pd.

(** Every non-empty entry of a filter map names a column of the table
    (as a test). *)
Definition entries_definedb (frame : DataFrame)
    (filters : list (string * filter_value)) : bool :=
  forallb (fun entry => is_blank (snd entry) || mem (fst entry) (columns frame))
          filters.

(** The rows a filter map keeps. *)
Definition kept_rows (filters : list (string * filter_value)) (rs : list Row)
  : list Row :=
  filter (fun r => forallb (entry_passes r) filters) rs.

(** The total of a numeric column over some rows. *)
Definition column_total (c : string) (rs : list Row) : Z :=
  fold_right Z.add 0 (map (fun r => numeric_or_zero (get c r)) rs).

(** The rows that carry a date. *)
Definition has_value (c : cell) : bool :=
  match c with
  | NA => false
  | Val _ => true
  end.

Definition dated_rows (date : string) (rs : list Row) : list Row :=
  filter (fun r => has_value (get date r)) rs.

(** The rows whose date lies between two timestamps, bounds included. *)
Definition rows_between (start_date end_date : Timestamp) (date : string)
    (rs : list Row) : list Row :=
  filter (fun r => in_date_range start_date end_date (get date r)) rs.

(** The calendar days [first], [first + 1], ... ([n] of them) as cells. *)
Definition consecutive_days (first : Z) (n : nat) : list cell :=
  map (fun i => Val (SDate (first + Z.of_nat i))) (seq 0 n).

(** The text of the cell parses as a date of the form [%Y%m%d] (or as a
    missing date). *)
Definition parses (c : cell) : Prop :=
  exists d, parse_yyyymmdd (str_of_cell c) = Ok d.

(** A text of exactly eight decimal digits. *)
Definition eight_digits (s : string) : Prop :=
  String.length s = 8%nat
  /\ digits_value 0 (list_ascii_of_string s) <> None.

(** The (day, amount) pairs of the rows that carry a date. *)
Definition dated_values (date target : string) (rs : list Row) : list (Z * Z) :=
  flat_map (fun r => match get date r with
                     | Val (SDate d) => [(d, numeric_or_zero (get target r))]
                     | _ => []
                     end) rs.

(** The offset [aggregate_by_timespan] chooses. *)
Definition chosen_offset (start_date end_date : Timestamp) : freq :=
  let days := Timedelta_days (to_datetime_scalar end_date
                              - to_datetime_scalar start_date) in
  if days >? 365 then MonthEnd else if days >? 90 then Week else Day.

(** The sum of a bucket, and the buckets, of [pd.sum_bin] and
    [pd.bucket_sums] in unbounded integers. *)
Definition exact_sum_bin (f : freq) (k : Z) (dvs : list (Z * Z)) : Z :=
  fold_right Z.add 0
    (map (fun dv => if bin_of f (fst dv) =? k then snd dv else 0) dvs).

Definition exact_bucket_sums (f : freq) (dvs : list (Z * Z))
  : list (scalar * Z) :=
  let ks := map (fun dv => bin_of f (fst dv)) dvs in
  match min_list ks, max_list ks with
  | Some lo, Some hi =>
      map (fun k => (SDate (bin_label f k), exact_sum_bin f k dvs))
          (bins_between lo hi)
  | _, _ => []
  end.

(** The amounts of a column added up without their signs. *)
Definition magnitude (c : string) (rs : list Row) : Z :=
  fold_right Z.add 0 (map (fun r => Z.abs (numeric_or_zero (get c r))) rs).

(** The total of the sums of a list of groups. *)
Definition sums_total (sums : list (scalar * Z)) : Z :=
  fold_right Z.add 0 (map snd sums).

(** A call is all-or-nothing on an object: it changes at most the
    table; when it raises, and when [inplace] is false, it leaves the
    object exactly as it was. *)
Definition all_or_nothing {A : Type} (call : bool -> M A)
    (self : DataFrameProcessor) : Prop :=
  forall inplace : bool,
    (exists frame, snd (call inplace self) = with_df self frame)
    /\ (forall e, fst (call inplace self) = Raise e ->
                  snd (call inplace self) = self)
    /\ (inplace = false -> snd (call inplace self) = self).

End FurtherVocabulary.
(** ** Properties of the model of pandas *)

Module pd_facts.

Import pd.

Lemma mem_In (c : string) (l : list string) : mem c l = true <-> In c l.
Proof.
  unfold mem. rewrite existsb_exists. split.
  - intros [x [Hx Heq]]. apply String.eqb_eq in Heq. now subst.
  - intros H. exists c. split; [assumption | apply String.eqb_refl].
Qed.

Lemma mem_not_In (c : string) (l : list string) : mem c l = false <-> ~ In c l.
Proof.
  rewrite <- mem_In. destruct (mem c l); split; congruence.
Qed.

Lemma scalar_eqb_eq (a b : scalar) : scalar_eqb a b = true <-> a = b.
Proof.
  destruct a, b; simpl; try (split; [discriminate | congruence]).
  - rewrite Z.eqb_eq. split; congruence.
  - rewrite String.eqb_eq. split; congruence.
  - rewrite Z.eqb_eq. split; congruence.
Qed.

(** A cell equals a scalar when it holds that scalar, or holds the day
    that the scalar names as a text. *)
Lemma cell_eq_Val (c : cell) (a : scalar) :
  cell_eq c a = true
  <-> c = Val a
      \/ exists s d, a = SStr s /\ parse_iso_date s = Some d
                      /\ c = Val (SDate d).
Proof.
  destruct c as [|[z|x|d]]; unfold cell_eq.
  - split; [discriminate | intros [H|[s [d [_ [_ H]]]]]; discriminate].
  - rewrite scalar_eqb_eq. split; [intros ->; now left|].
    intros [H|[s [d [_ [_ H]]]]]; congruence.
  - rewrite scalar_eqb_eq. split; [intros ->; now left|].
    intros [H|[s [d [_ [_ H]]]]]; congruence.
  - destruct a as [z|s|d'].
    + split; [discriminate | intros [H|[s [d0 [H _]]]]; discriminate].
    + destruct (parse_iso_date s) as [d'|] eqn:E.
      * rewrite Z.eqb_eq. split.
        -- intros ->. right. now exists s, d'.
        -- intros [H|[s0 [d0 [H1 [H2 H3]]]]]; [discriminate|].
           injection H1 as <-. congruence.
      * split; [discriminate|].
        intros [H|[s0 [d0 [H1 [H2 H3]]]]]; [discriminate|].
        injection H1 as <-. congruence.
    + rewrite scalar_eqb_eq. split; [intros ->; now left|].
      intros [H|[s [d0 [H _]]]]; congruence.
Qed.

(** Cells and scalars of kinds other than a date against a text are
    equal only when they are the same. *)
Lemma cell_eq_same_kind (c : cell) (a : scalar) :
  (forall d s, c = Val (SDate d) -> a <> SStr s) ->
  cell_eq c a = true <-> c = Val a.
Proof.
  intros Hkind. rewrite cell_eq_Val. split; [|now left].
  intros [H|[s [d [-> [_ ->]]]]]; [assumption|].
  now elim (Hkind d s).
Qed.

Lemma cell_isin_In (c : cell) (l : list scalar) :
  cell_isin c l = true <-> exists a, In a l /\ cell_eq c a = true.
Proof. unfold cell_isin. apply existsb_exists. Qed.

(** Reading a cell after a write. *)
Lemma lookup_update_same (c : string) (v : cell) (r : list (string * cell)) :
  lookup c (update c v r) = Some v.
Proof.
  induction r as [|[k w] r IH]; simpl.
  - now rewrite String.eqb_refl.
  - destruct (String.eqb k c) eqn:E; simpl; rewrite E; auto.
Qed.

Lemma lookup_update_other (c c' : string) (v : cell) (r : list (string * cell)) :
  c <> c' -> lookup c (update c' v r) = lookup c r.
Proof.
  intros Hne. induction r as [|[k w] r IH]; simpl.
  - destruct (String.eqb c' c) eqn:E; [|reflexivity].
    apply String.eqb_eq in E. congruence.
  - destruct (String.eqb k c') eqn:E; simpl.
    + apply String.eqb_eq in E. subst k.
      destruct (String.eqb c' c) eqn:E'; [|reflexivity].
      apply String.eqb_eq in E'. congruence.
    + now rewrite IH.
Qed.

Lemma get_set_same (c : string) (v : cell) (r : Row) : get c (set c v r) = v.
Proof. unfold get, set. simpl. now rewrite lookup_update_same. Qed.

Lemma get_set_other (c c' : string) (v : cell) (r : Row) :
  c <> c' -> get c (set c' v r) = get c r.
Proof. intros H. unfold get, set. simpl. now rewrite lookup_update_other. Qed.

Lemma row_label_set (c : string) (v : cell) (r : Row) :
  row_label (set c v r) = row_label r.
Proof. reflexivity. Qed.

Lemma In_add_column (c x : string) (cols : list string) :
  In x (add_column c cols) <-> x = c \/ In x cols.
Proof.
  unfold add_column. destruct (mem c cols) eqn:E.
  - apply mem_In in E. split; [auto | intros [->|H]; assumption].
  - rewrite in_app_iff. simpl. intuition congruence.
Qed.

(** Relabelling keeps the cells and the number of rows. *)
Lemma relabel_from_cells (i : nat) (rs : list Row) :
  map cells (relabel_from i rs) = map cells rs.
Proof.
  revert i. induction rs as [|r rs IH]; intros i; simpl; [reflexivity|].
  now rewrite IH.
Qed.

Lemma relabel_from_length (i : nat) (rs : list Row) :
  List.length (relabel_from i rs) = List.length rs.
Proof.
  revert i. induction rs as [|r rs IH]; intros i; simpl; [reflexivity|].
  now rewrite IH.
Qed.

Lemma relabel_from_labels (i : nat) (rs : list Row) :
  map row_label (relabel_from i rs)
  = map range_label (seq i (List.length rs)).
Proof.
  revert i. induction rs as [|r rs IH]; intros i; simpl; [reflexivity|].
  now rewrite IH.
Qed.

Lemma get_relabel_from (c : string) (i : nat) (rs : list Row) :
  map (get c) (relabel_from i rs) = map (get c) rs.
Proof.
  revert i. induction rs as [|r rs IH]; intros i; simpl; [reflexivity|].
  now rewrite IH.
Qed.

Lemma In_relabel_from (r : Row) (i : nat) (rs : list Row) :
  In r (relabel_from i rs) -> exists r0, In r0 rs /\ cells r = cells r0.
Proof.
  revert i. induction rs as [|r1 rs IH]; intros i; simpl; [tauto|].
  intros [<-|H].
  - exists r1. auto.
  - destruct (IH _ H) as [r0 [H0 H1]]. exists r0. auto.
Qed.

Lemma relabel_from_ext (i : nat) (l1 l2 : list Row) :
  map cells l1 = map cells l2 -> relabel_from i l1 = relabel_from i l2.
Proof.
  revert i l2. induction l1 as [|r l1 IH]; intros i [|r2 l2] H; simpl in *;
    try discriminate; [reflexivity|].
  injection H as H1 H2. rewrite H1. f_equal. now apply IH.
Qed.

Lemma relabel_relabel (rs : list Row) : relabel (relabel rs) = relabel rs.
Proof. apply relabel_from_ext, relabel_from_cells. Qed.

(** Columns of a union. *)
Lemma add_column_member (c : string) (cols : list string) :
  In c cols -> add_column c cols = cols.
Proof. intros H. unfold add_column. apply mem_In in H. now rewrite H. Qed.

Lemma union_columns_incl (a b : list string) :
  incl b a -> union_columns a b = a.
Proof.
  unfold union_columns. revert a. induction b as [|c b IH]; intros a H; simpl.
  - reflexivity.
  - rewrite add_column_member by (apply H; now left).
    apply IH. intros x Hx. apply H. now right.
Qed.

Lemma union_columns_fresh (a b : list string) :
  NoDup (a ++ b) -> union_columns a b = (a ++ b)%list.
Proof.
  unfold union_columns. revert a. induction b as [|c b IH]; intros a H; simpl.
  - now rewrite app_nil_r.
  - assert (Hc : ~ In c a).
    { intros Hin. apply NoDup_remove_2 in H. apply H.
      apply in_or_app. now left. }
    unfold add_column at 2. apply mem_not_In in Hc. rewrite Hc.
    replace (a ++ c :: b)%list with ((a ++ [c]) ++ b)%list in *
      by now rewrite <- app_assoc.
    now apply IH.
Qed.

(** Projecting a record on its own columns gives the record. *)
Lemma project_cells (l : list (string * cell)) :
  NoDup (map fst l) ->
  map (fun c => (c, match lookup c l with Some v => v | None => NA end))
      (map fst l) = l.
Proof.
  induction l as [|[k v] l IH]; intros H; simpl; [reflexivity|].
  rewrite String.eqb_refl. f_equal.
  inversion H as [|? ? Hk Hnd]; subst.
  rewrite <- (IH Hnd) at 2.
  apply map_ext_in. intros c Hc.
  destruct (String.eqb k c) eqn:E; [|reflexivity].
  apply String.eqb_eq in E. subst c. contradiction.
Qed.

Lemma project_own_columns (cols : list string) (r : Row) :
  NoDup cols -> map fst (cells r) = cols -> cells (project cols r) = cells r.
Proof.
  intros Hnd Hk. unfold project, get. simpl. subst cols.
  now apply project_cells.
Qed.

Lemma lookup_blank (c : string) (cols : list string) :
  match lookup c (map (fun c0 => (c0, NA)) cols) with
  | Some v => v
  | None => NA
  end = NA.
Proof.
  induction cols as [|k cols IH]; simpl; [reflexivity|].
  now destruct (String.eqb k c).
Qed.

Lemma blank_cells (cols cols' : list string) (l : cell) :
  map (fun c => (c, get c (mkRow l (map (fun c0 => (c0, NA)) cols')))) cols
  = map (fun c => (c, NA)) cols.
Proof.
  apply map_ext. intros c. unfold get. simpl. now rewrite lookup_blank.
Qed.

End pd_facts.

(** ** Bucket selection of [aggregate_by_timespan] *)

Section BucketSelection.

Import pd.

Lemma Timedelta_days_of_dates (a b : Z) :
  Timedelta_days (midnight b - midnight a) = b - a.
Proof.
  unfold Timedelta_days, midnight.
  rewrite <- Z.mul_sub_distr_r.
  apply Z.div_mul. unfold ns_per_day. lia.
Qed.

Lemma inclusive_span_of_dates (a b : Z) :
  inclusive_span_days (midnight a) (midnight b) = b - a + 1.
Proof.
  unfold inclusive_span_days, midnight.
  rewrite !Z.div_mul by (unfold ns_per_day; lia). reflexivity.
Qed.

(** For two calendar dates the day difference the method computes is the
    inclusive span less one. *)
Lemma day_difference_is_span_less_one (a b : Z) :
  Timedelta_days (to_datetime_scalar (midnight b) - to_datetime_scalar (midnight a))
  = inclusive_span_days (midnight a) (midnight b) - 1.
Proof.
  unfold to_datetime_scalar.
  rewrite Timedelta_days_of_dates, inclusive_span_of_dates. lia.
Qed.




End BucketSelection.

(** ** [add_prediction] *)

Section Prediction.

Import pd.

(** C8: without a series dimension ([withGraph] false) [add_prediction]
    returns the object's table as it is and changes nothing, whatever the
    prediction function is (it is not called: one that always raises
    makes no difference). *)
Theorem add_prediction_without_graph :
  forall (self : DataFrameProcessor) (new_label : string) (last_n_rows : Z)
         (predict : DataFrame -> result prediction) (inplace : bool),
    withGraph self = false ->
    add_prediction new_label last_n_rows predict inplace self
    = (Ok (Some (df self)), self).
Proof.
  intros self new_label last_n_rows predict inplace H.
  unfold add_prediction. run. now rewrite H.
Qed.

Lemma add_prediction_without_graph_witness :
  add_prediction "forecast" 2 (fun _ => Raise TypeError) true Samples.plain
  = (Ok (Some (df Samples.plain)), Samples.plain).
Proof.
  apply (add_prediction_without_graph Samples.plain). reflexivity.
Defined.

(** The method selects its rows before it calls the prediction
    function. *)
Lemma add_prediction_steps :
  forall (self : DataFrameProcessor) (new_label : string) (last_n_rows : Z)
         (predict : DataFrame -> result prediction) (inplace : bool)
         (selected : DataFrame),
    withGraph self = true ->
    selected_rows self last_n_rows = Ok selected ->
    add_prediction new_label last_n_rows predict inplace self
    = match predict selected with
      | Raise e => (Raise e, self)
      | Ok value =>
          match setitem selected (target self) value with
          | Raise e => (Raise e, self)
          | Ok written =>
              let data :=
                concat [df self;
                        setitem_scalar written (graph self) (Val (SStr new_label))] in
              if inplace then (Ok None, with_df self data)
              else (Ok (Some data), self)
          end
      end.
Proof.
  intros self new_label last_n_rows predict inplace selected Hg Hsel.
  unfold add_prediction, selected_rows in *. run.
  rewrite Hg. simpl.
  destruct (getitem (df self) (graph self)) as [series|e]; simpl in *;
    [|discriminate].
  injection Hsel as <-. unfold copy.
  destruct (predict _) as [value|e]; [|reflexivity].
  destruct (setitem _ _ value) as [written|e]; [|reflexivity].
  now destruct inplace.
Qed.

(** C2 (amended): when at least one row is selected and the prediction
    function returns a plain sequence whose length is not the number of
    selected rows, the call fails with the [ValueError] of the column
    assignment, and the object is unchanged, also when [inplace] is
    true. *)
Theorem wrong_length_sequence_raises :
  forall (self : DataFrameProcessor) (new_label : string) (last_n_rows : Z)
         (predict : DataFrame -> result prediction) (inplace : bool)
         (selected : DataFrame) (vs : list cell),
    withGraph self = true ->
    selected_rows self last_n_rows = Ok selected ->
    predict selected = Ok (PredList vs) ->
    nrows selected <> 0%nat ->
    List.length vs <> nrows selected ->
    add_prediction new_label last_n_rows predict inplace self
    = (Raise ValueError, self).
Proof.
  intros self new_label last_n_rows predict inplace selected vs
         Hg Hsel Hp Hrows Hlen.
  rewrite (add_prediction_steps _ _ _ _ _ _ Hg Hsel), Hp.
  unfold setitem, nrows in *.
  destruct (rows selected) as [|r rs] eqn:E; [now elim Hrows|].
  apply Nat.eqb_neq in Hlen. now rewrite Hlen.
Qed.

Lemma wrong_length_sequence_raises_witness :
  add_prediction "forecast" 2 (fun _ => Ok (PredList [Val (SInt 7)])) true
                 Samples.totals
  = (Raise ValueError, Samples.totals).
Proof.
  apply (wrong_length_sequence_raises Samples.totals "forecast" 2 _ true
           (df Samples.totals) [Val (SInt 7)]).
  - reflexivity.
  - reflexivity.
  - reflexivity.
  - vm_compute. discriminate.
  - vm_compute. discriminate.
Defined.

(** The claim as stated fails: on a freshly constructed object no row
    carries the target's name, so no row is selected; a prediction of
    one value (not zero values) is accepted, and with [inplace] true the
    object's table gets a new row. *)
Lemma wrong_length_accepted_on_empty_selection :
  let predict := fun _ : DataFrame => Ok (PredList [Val (SInt 7)]) in
  withGraph Samples.actual = true
  /\ (exists selected,
        selected_rows Samples.actual 2 = Ok selected
        /\ nrows selected = 0%nat
        /\ predict selected = Ok (PredList [Val (SInt 7)]))
  /\ (exists self',
        add_prediction "forecast" 2 predict true Samples.actual = (Ok None, self')
        /\ nrows (df self') = 3%nat
        /\ df self' <> df Samples.actual).
Proof.
  split; [reflexivity|]. split.
  - exists (with_rows (df Samples.actual) []).
    split; [reflexivity|]. split; reflexivity.
  - exists (snd (add_prediction "forecast" 2
                   (fun _ => Ok (PredList [Val (SInt 7)])) true Samples.actual)).
    split; [reflexivity|]. split; [reflexivity|].
    vm_compute. discriminate.
Qed.

End Prediction.

(** ** [insert_empty_row_at_pos] *)

Section RowEditing.

Import pd pd_facts.

Lemma map_project_own (cols : list string) (rs : list Row) :
  NoDup cols ->
  Forall (fun r => map fst (cells r) = cols) rs ->
  map cells (map (project cols) rs) = map cells rs.
Proof.
  intros Hnd H. induction H as [|r rs Hr _ IH]; simpl; [reflexivity|].
  rewrite IH. f_equal. now apply project_own_columns.
Qed.

Lemma insert_empty_row_returns (self : DataFrameProcessor) (pos : Z) :
  fst (insert_empty_row_at_pos pos self) = Ok tt.
Proof. reflexivity. Qed.

(** The table after an insertion into a well-formed table. *)
Lemma insert_empty_row_table (self : DataFrameProcessor) (pos : Z) :
  well_formed (df self) ->
  let k := slice_bound (nrows (df self)) pos in
  insert_empty_row_at_pos pos self
  = (Ok tt,
     with_df self
       (mkDataFrame None (columns (df self))
          (relabel (firstn k (rows (df self))
                    ++ blank_row (columns (df self)) NA
                    :: skipn k (rows (df self)))))).
Proof.
  intros [Hnd Hrows] k.
  unfold insert_empty_row_at_pos. run.
  unfold with_df. simpl. do 2 f_equal.
  unfold reset_index_drop, concat, DataFrame_of_records. simpl.
  rewrite map_map. simpl. rewrite map_id.
  assert (E0 : union_columns [] (columns (df self)) = columns (df self))
    by now apply union_columns_fresh.
  assert (E1 : union_columns (columns (df self)) (columns (df self))
               = columns (df self))
    by apply union_columns_incl, incl_refl.
  rewrite !E0, !E1. f_equal.
  fold k. rewrite relabel_relabel.
  apply relabel_from_ext.
  rewrite app_nil_r, !map_app, !map_cons.
  assert (Hsplit := Hrows).
  rewrite <- (firstn_skipn k (rows (df self))) in Hsplit.
  apply Forall_app in Hsplit as [Hfirst Hrest].
  f_equal; [now apply map_project_own|].
  f_equal; [|now apply map_project_own].
  rewrite blank_cells. unfold project, blank_row. simpl.
  apply blank_cells.
Qed.

(** C3 (amended): [insert_empty_row_at_pos] never raises, whatever the
    position.  The position is used as the bound of two Python slices,
    so every integer is accepted: one record with every column missing
    is inserted at the clipped bound [k] and the rows are relabelled
    [0 .. n].  For [0 <= pos <= n] the bound is [pos] itself (the rows
    from [pos] on move down by one); a position above [n] appends the
    record; a negative position counts from the end. *)
Theorem insert_empty_row_any_position :
  forall (self : DataFrameProcessor) (pos : Z),
    let n := nrows (df self) in
    let k := slice_bound n pos in
    fst (insert_empty_row_at_pos pos self) = Ok tt
    /\ (well_formed (df self) ->
        insert_empty_row_at_pos pos self
        = (Ok tt,
           with_df self
             (mkDataFrame None (columns (df self))
                (relabel (firstn k (rows (df self))
                          ++ blank_row (columns (df self)) NA
                          :: skipn k (rows (df self)))))))
    /\ (0 <= pos <= Z.of_nat n -> k = Z.to_nat pos)
    /\ (Z.of_nat n < pos -> k = n)
    /\ (pos < 0 -> k = Z.to_nat (Z.max 0 (Z.of_nat n + pos))).
Proof.
  intros self pos n k.
  split; [apply insert_empty_row_returns|].
  split; [apply insert_empty_row_table
         |unfold k, slice_bound; split; [|split]; intros H].
  - destruct (pos <? 0) eqn:E; [apply Z.ltb_lt in E; lia|].
    f_equal. lia.
  - destruct (pos <? 0) eqn:E; [apply Z.ltb_lt in E; lia|].
    rewrite Z.min_r by lia. apply Nat2Z.id.
  - apply Z.ltb_lt in H. now rewrite H.
Qed.

Lemma well_formed_actual : well_formed (df Samples.actual).
Proof.
  split.
  - repeat constructor; simpl; intuition discriminate.
  - repeat constructor.
Qed.

Lemma insert_empty_row_any_position_witness :
  insert_empty_row_at_pos 1 Samples.actual
  = (Ok tt,
     with_df Samples.actual
       (mkDataFrame None (columns (df Samples.actual))
          (relabel (firstn 1 (rows (df Samples.actual))
                    ++ blank_row (columns (df Samples.actual)) NA
                    :: skipn 1 (rows (df Samples.actual)))))).
Proof.
  apply (insert_empty_row_any_position Samples.actual 1), well_formed_actual.
Defined.

(** The claim as stated fails: position 5 is outside [0 .. 2], yet the
    call returns normally and the table has a third row. *)
Lemma insert_out_of_range_appends :
  ~ (0 <= 5 <= Z.of_nat (nrows (df Samples.actual)))
  /\ fst (insert_empty_row_at_pos 5 Samples.actual) = Ok tt
  /\ fst (insert_empty_row_at_pos 5 Samples.actual) <> Raise IndexError
  /\ nrows (df (snd (insert_empty_row_at_pos 5 Samples.actual))) = 3%nat
  /\ df (snd (insert_empty_row_at_pos 5 Samples.actual)) <> df Samples.actual.
Proof.
  split; [vm_compute; intros [_ H]; now apply H|].
  split; [reflexivity|]. split; [discriminate|]. split; [reflexivity|].
  vm_compute. discriminate.
Qed.

(** P5 of the specification: inserting a blank row into a well-formed
    table leaves the columns as they are and adds exactly one row, at
    any position. *)
Theorem insertion_preserves_schema :
  forall (self : DataFrameProcessor) (pos : Z),
    well_formed (df self) ->
    let self' := snd (insert_empty_row_at_pos pos self) in
    columns (df self') = columns (df self)
    /\ nrows (df self') = S (nrows (df self))
    /\ well_formed (df self').
Proof.
  intros self pos Hwf self'. unfold self'.
  rewrite (insert_empty_row_table self pos Hwf). simpl.
  destruct Hwf as [Hnd Hrows].
  split; [reflexivity|]. split.
  - unfold nrows. simpl. unfold relabel.
    rewrite relabel_from_length, length_app. simpl.
    assert (Hlen : List.length (rows (df self))
                   = (List.length (firstn (slice_bound (List.length (rows (df self))) pos)
                                          (rows (df self)))
                      + List.length (skipn (slice_bound (List.length (rows (df self))) pos)
                                           (rows (df self))))%nat)
      by now rewrite <- length_app, firstn_skipn.
    lia.
  - split; [exact Hnd|]. simpl.
    apply Forall_forall. intros r Hr.
    apply In_relabel_from in Hr as [r0 [Hr0 ->]].
    apply in_app_iff in Hr0 as [Hr0|[<-|Hr0]].
    + rewrite Forall_forall in Hrows. apply Hrows.
      rewrite <- (firstn_skipn (slice_bound (nrows (df self)) pos)).
      apply in_app_iff. now left.
    + simpl. rewrite map_map. simpl. apply map_id.
    + rewrite Forall_forall in Hrows. apply Hrows.
      rewrite <- (firstn_skipn (slice_bound (nrows (df self)) pos)).
      apply in_app_iff. now right.
Qed.

Lemma insertion_preserves_schema_witness :
  columns (df (snd (insert_empty_row_at_pos (-1) Samples.actual)))
  = columns (df Samples.actual)
  /\ nrows (df (snd (insert_empty_row_at_pos (-1) Samples.actual))) = 3%nat.
Proof.
  destruct (insertion_preserves_schema Samples.actual (-1) well_formed_actual)
    as [Hcols [Hrows _]].
  split; [exact Hcols | exact Hrows].
Defined.

End RowEditing.

(** ** [filter_by_specified_columns] *)

Section Filtering.

Import pd pd_facts.

Lemma is_blank_empty_entry (val : filter_value) :
  is_blank val = true <-> empty_entry val.
Proof.
  unfold empty_entry.
  destruct val as [|[z|[|a s]|d]|[|a l]]; simpl;
    (split; [intros H; try discriminate; auto | intros [H|[H|H]]; congruence]).
Qed.

(** The test of the loop is the requirement of the entry, when a list
    that is tested against a date holds no text. *)
Lemma entry_passes_holds (r : Row) (entry : string * filter_value) :
  (forall d l, get (fst entry) r = Val (SDate d) -> snd entry = PyList l ->
               forall s, ~ In (SStr s) l) ->
  entry_passes r entry = true <-> entry_holds r entry.
Proof.
  destruct entry as [col val]. unfold entry_passes, entry_holds. simpl.
  intros Hlist. destruct val as [|a|l].
  - tauto.
  - rewrite orb_true_iff, scalar_eqb_eq, cell_eq_Val. tauto.
  - destruct l as [|a l]; [tauto|].
    rewrite cell_isin_In. split.
    + intros [b [Hb Heq]]. right. exists b. split; [assumption|].
      apply cell_eq_same_kind; [|assumption].
      intros d s Hd ->. exact (Hlist d _ Hd eq_refl s Hb).
    + intros [H|[b [Hb Heq]]]; [discriminate|].
      exists b. split; [assumption|]. apply cell_eq_Val. now left.
Qed.

Lemma mask_and_length (a b : list bool) :
  List.length a = List.length b ->
  List.length (mask_and a b) = List.length a.
Proof.
  revert b. induction a as [|x a IH]; intros [|y b] H; simpl in *;
    try discriminate; auto.
Qed.

Lemma mask_and_map {A : Type} (p q : A -> bool) (mask : list bool) (l : list A) :
  mask_and (mask_and mask (map p l)) (map q l)
  = mask_and mask (map (fun x => p x && q x) l).
Proof.
  revert mask. induction l as [|x l IH]; intros [|b mask]; simpl;
    try reflexivity.
  now rewrite IH, andb_assoc.
Qed.

Lemma mask_and_true {A : Type} (l : list A) (mask : list bool) :
  List.length mask = List.length l ->
  mask_and mask (map (fun _ => true) l) = mask.
Proof.
  revert mask. induction l as [|x l IH]; intros [|b mask] H; simpl in *;
    try discriminate; [reflexivity|].
  rewrite andb_true_r, IH; auto.
Qed.

Lemma mask_and_all_true (l : list bool) :
  mask_and (repeat true (List.length l)) l = l.
Proof. induction l as [|x l IH]; simpl; [reflexivity | now rewrite IH]. Qed.

Lemma select_map (p : Row -> bool) (rs : list Row) :
  select (map p rs) rs = filter p rs.
Proof.
  induction rs as [|r rs IH]; simpl; [reflexivity|].
  destruct (p r); now rewrite IH.
Qed.

(** The mask the loop computes: a row is kept when it is kept so far and
    passes every entry. *)
Lemma filter_loop_mask (frame : DataFrame) :
  forall (filters : list (string * filter_value)) (mask m : list bool),
    List.length mask = nrows frame ->
    filter_loop frame filters mask = Ok m ->
    m = mask_and mask
          (map (fun r => forallb (entry_passes r) filters) (rows frame)).
Proof.
  induction filters as [|[col val] filters IH]; intros mask m Hlen H;
    simpl in *.
  - injection H as <-. symmetry. now apply mask_and_true.
  - destruct (is_blank val) eqn:Hb; simpl in H.
    + rewrite (IH _ _ Hlen H). f_equal. apply map_ext. intros r.
      replace (entry_passes r (col, val)) with true; [reflexivity|].
      unfold entry_passes. simpl.
      destruct val as [|[z|[|a s]|d]|[|a l]]; simpl in *;
        try discriminate; reflexivity.
    + assert (Hstep : forall p : cell -> bool,
                 (forall r, entry_passes r (col, val) = p (get col r)) ->
                 (series <- getitem frame col ;;
                  filter_loop frame filters (mask_and mask (map p series)))%result
                 = Ok m ->
                 m = mask_and mask
                       (map (fun r => entry_passes r (col, val)
                                      && forallb (entry_passes r) filters)
                            (rows frame))).
      { intros p Hp Hrun. unfold getitem in Hrun.
        destruct (mem col (columns frame)); simpl in Hrun; [|discriminate].
        rewrite map_map in Hrun.
        apply IH in Hrun.
        - rewrite Hrun, mask_and_map. f_equal. apply map_ext. intros r.
          now rewrite Hp.
        - rewrite mask_and_length; [assumption|].
          now rewrite length_map. }
      destruct val as [|a|l].
      * discriminate.
      * apply (Hstep (fun c => cell_eq c a)); [|exact H].
        intros r. unfold entry_passes. simpl.
        destruct a as [z|[|x s]|d]; simpl in *; try reflexivity; discriminate.
      * apply (Hstep (fun c => cell_isin c l)); [|exact H].
        intros r. unfold entry_passes. simpl.
        destruct l as [|a l]; [discriminate | reflexivity].
Qed.

(** An empty entry does not take part in the loop. *)
Lemma filter_loop_skips_blank (frame : DataFrame) (col : string)
    (val : filter_value) (filters2 : list (string * filter_value)) :
  is_blank val = true ->
  forall (filters1 : list (string * filter_value)) (mask : list bool),
    filter_loop frame (filters1 ++ (col, val) :: filters2) mask
    = filter_loop frame (filters1 ++ filters2) mask.
Proof.
  intros Hb. induction filters1 as [|[c v] filters1 IH]; intros mask; simpl.
  - now rewrite Hb.
  - destruct (negb (is_blank v)); [|apply IH].
    destruct v; destruct (getitem frame c); simpl; auto.
Qed.

(** The loop cannot fail when the columns it reads exist. *)
Lemma filter_loop_defined (frame : DataFrame) :
  forall (filters : list (string * filter_value)) (mask : list bool),
    entries_defined frame filters ->
    exists m, filter_loop frame filters mask = Ok m.
Proof.
  induction filters as [|[col val] filters IH]; intros mask Hdef; simpl.
  - now exists mask.
  - assert (Hrest : entries_defined frame filters).
    { intros c v Hin. apply Hdef. now right. }
    destruct (is_blank val) eqn:Hb; simpl; [now apply IH|].
    assert (Hcol : mem col (columns frame) = true).
    { apply mem_In, (Hdef col val); [now left|].
      rewrite <- is_blank_empty_entry. congruence. }
    unfold getitem. rewrite Hcol.
    destruct val; simpl; now apply IH.
Qed.

(** Whether the loop fails does not depend on the mask it starts
    from. *)
Lemma filter_loop_defined_any (frame : DataFrame) :
  forall (filters : list (string * filter_value)) (mask1 mask2 m : list bool),
    filter_loop frame filters mask1 = Ok m ->
    exists m', filter_loop frame filters mask2 = Ok m'.
Proof.
  induction filters as [|[c v] filters IH]; intros mask1 mask2 m; simpl.
  - intros _. now exists mask2.
  - destruct (negb (is_blank v)); [|apply IH].
    destruct v; destruct (getitem frame c); simpl; try discriminate;
      apply IH.
Qed.

Lemma filter_by_specified_columns_steps :
  forall (self : DataFrameProcessor) (filters : list (string * filter_value))
         (inplace : bool),
    filter_by_specified_columns filters inplace self
    = match filter_loop (df self) filters (repeat true (nrows (df self))) with
      | Raise e => (Raise e, self)
      | Ok mask =>
          if inplace
          then (Ok None, with_df self (getitem_mask (df self) mask))
          else (Ok (Some (getitem_mask (df self) mask)), self)
      end.
Proof.
  intros self filters inplace. unfold filter_by_specified_columns. run.
  destruct (filter_loop _ _ _); [|reflexivity]. now destruct inplace.
Qed.

Lemma filter_loop_rows (frame : DataFrame)
    (filters : list (string * filter_value)) (mask : list bool) :
  filter_loop frame filters (repeat true (nrows frame)) = Ok mask ->
  select mask (rows frame)
  = filter (fun r => forallb (entry_passes r) filters) (rows frame).
Proof.
  intros H. apply filter_loop_mask in H; [|apply repeat_length].
  subst mask. unfold nrows.
  rewrite <- (length_map (fun r => forallb (entry_passes r) filters)).
  rewrite mask_and_all_true. apply select_map.
Qed.

(** *** Filter maps that hold sets *)

(** On the entries that hold [None], a scalar or a list the loop for
    values of any kind is [filter_loop]. *)
Lemma filter_loop_any_plain (frame : DataFrame) :
  forall (filters : list (string * filter_value)) (mask : list bool),
    filter_loop_any frame (map plain_entry filters) mask
    = filter_loop frame filters mask.
Proof.
  induction filters as [|[col val] filters IH]; intros mask; simpl;
    [reflexivity|].
  destruct (negb (is_blank val)); [|apply IH].
  destruct val; destruct (getitem frame col); simpl; auto.
Qed.

Lemma filter_by_specified_columns_any_plain
    (filters : list (string * filter_value)) (inplace : bool)
    (self : DataFrameProcessor) :
  filter_by_specified_columns_any (map plain_entry filters) inplace self
  = filter_by_specified_columns filters inplace self.
Proof.
  unfold filter_by_specified_columns_any, filter_by_specified_columns. run.
  now rewrite filter_loop_any_plain.
Qed.

(** A set is never skipped: it is compared with its column, and no cell
    is equal to it, so the mask of a loop that has met a set and has
    not raised is false throughout. *)
Lemma filter_loop_any_set (frame : DataFrame) :
  forall (filters : list (string * any_filter_value)) (mask m : list bool),
    List.length mask = nrows frame ->
    (exists col members, In (col, PySet members) filters) ->
    filter_loop_any frame filters mask = Ok m ->
    Forall (fun b => b = false) m /\ List.length m = nrows frame.
Proof.
  assert (Hlen : forall (filters : list (string * any_filter_value))
                        (mask m : list bool),
             List.length mask = nrows frame ->
             filter_loop_any frame filters mask = Ok m ->
             List.length m = nrows frame).
  { induction filters as [|[col [val|members]] filters IH];
      intros mask m Hm H; simpl in H.
    - now injection H as <-.
    - destruct (negb (is_blank val)); [|now apply (IH mask)].
      unfold getitem in H.
      destruct val; destruct (mem col (columns frame)); simpl in H;
        try discriminate;
        (apply (IH _ _) in H; [assumption|];
         rewrite mask_and_length; [assumption|];
         unfold series_eq, series_isin; now rewrite !length_map).
    - unfold getitem, series_eq_set in H.
      destruct (mem col (columns frame)); simpl in H; [|discriminate].
      destruct (_ && _); simpl in H; [discriminate|].
      apply (IH _ _) in H; [assumption|].
      rewrite mask_and_length; [assumption|]. now rewrite !length_map. }
  assert (Hfalse : forall (filters : list (string * any_filter_value))
                          (mask m : list bool),
             Forall (fun b => b = false) mask ->
             filter_loop_any frame filters mask = Ok m ->
             Forall (fun b => b = false) m).
  { assert (Hand : forall a b : list bool,
               Forall (fun x => x = false) a ->
               Forall (fun x => x = false) (mask_and a b)).
    { induction a as [|x a IHa]; intros [|y b] Ha; simpl; try constructor.
      - inversion Ha; subst. reflexivity.
      - inversion Ha; subst. now apply IHa. }
    induction filters as [|[col [val|members]] filters IH];
      intros mask m Hm H; simpl in H.
    - now injection H as <-.
    - destruct (negb (is_blank val)); [|now apply (IH mask)].
      destruct val; destruct (getitem frame col); simpl in H;
        try discriminate; apply (IH _ _ (Hand _ _ Hm) H).
    - destruct (getitem frame col); simpl in H; [|discriminate].
      destruct (series_eq_set _ _); simpl in H; [|discriminate].
      apply (IH _ _ (Hand _ _ Hm) H). }
  induction filters as [|[col [val|members]] filters IH];
    intros mask m Hm [c [l Hin]] H.
  - contradiction.
  - destruct Hin as [Hin|Hin]; [discriminate|].
    split; [|now apply (Hlen _ _ _ Hm H)].
    simpl in H.
    destruct (negb (is_blank val)); [|now apply (IH mask m Hm); eauto].
    unfold getitem in H.
    destruct val; destruct (mem col (columns frame)); simpl in H;
      try discriminate;
      (apply (IH _ m) in H; [tauto| |eauto];
       rewrite mask_and_length; [assumption|];
       unfold series_eq, series_isin; now rewrite !length_map).
  - split; [|now apply (Hlen _ _ _ Hm H)].
    simpl in H. unfold getitem, series_eq_set in H.
    destruct (mem col (columns frame)); simpl in H; [|discriminate].
    destruct (_ && _); simpl in H; [discriminate|].
    apply Hfalse in H; [assumption|].
    clear. rewrite map_map. revert mask.
    induction (rows frame) as [|r rs IHr]; intros [|b mask]; simpl;
      try constructor; [apply andb_false_r | apply IHr].
Qed.

Lemma select_none_false (rs : list Row) (mask : list bool) :
  Forall (fun b => b = false) mask -> select mask rs = [].
Proof.
  revert rs. induction mask as [|b mask IH]; intros rs H; [reflexivity|].
  inversion H as [|? ? Hb Hrest]; subst.
  destruct rs as [|r rs]; simpl; auto.
Qed.

(** C5 (amended): an entry whose value is [None], the empty string or
    the empty list imposes no constraint: the call behaves as with the
    entry left out.  Every other entry constrains: when the columns the
    entries name exist the call returns the rows that meet every entry,
    in their order, where a scalar requires equality (a date being
    equal to the text [YYYY-MM-DD] of its day as well) and a list
    requires membership.  A set, the empty set included, is not
    skipped: a call that meets one on a column of numbers or strings
    returns no row. *)
Theorem empty_entries_impose_no_constraint :
  forall (self : DataFrameProcessor) (filters : list (string * filter_value))
         (inplace : bool),
    (forall filters1 col val filters2,
        filters = (filters1 ++ (col, val) :: filters2)%list ->
        empty_entry val ->
        filter_by_specified_columns filters inplace self
        = filter_by_specified_columns (filters1 ++ filters2) inplace self)
    /\ (entries_defined (df self) filters ->
        date_texts_are_iso (df self) filters ->
        exists out,
          filter_by_specified_columns filters false self = (Ok (Some out), self)
          /\ filter_by_specified_columns filters true self
             = (Ok None, with_df self out)
          /\ columns out = columns (df self)
          /\ rows out
             = filter (fun r => forallb (entry_passes r) filters)
                      (rows (df self))
          /\ (forall r, In r (rows out)
                        <-> In r (rows (df self))
                            /\ Forall (entry_holds r) filters))
    /\ (forall (col : string) (members : list scalar)
               (before after : list (string * any_filter_value)),
           In col (columns (df self)) ->
           (forall r, In r (rows (df self)) -> number_or_text (get col r)) ->
           forall out,
             filter_by_specified_columns_any
               (before ++ (col, PySet members) :: after) false self
             = (Ok (Some out), self) ->
             rows out = []).
Proof.
  intros self filters inplace. split; [|split].
  - intros filters1 col val filters2 -> Hval.
    rewrite !filter_by_specified_columns_steps.
    rewrite filter_loop_skips_blank; [reflexivity|].
    now apply is_blank_empty_entry.
  - intros Hdef Hiso.
    destruct (filter_loop_defined (df self) filters
                (repeat true (nrows (df self))) Hdef) as [mask Hmask].
    exists (getitem_mask (df self) mask).
    rewrite !filter_by_specified_columns_steps, Hmask.
    split; [reflexivity|]. split; [reflexivity|]. split; [reflexivity|].
    assert (Hrows := filter_loop_rows _ _ _ Hmask).
    split; [exact Hrows|].
    intros r. simpl. rewrite Hrows, filter_In, forallb_forall, Forall_forall.
    split; intros [Hin Hall]; (split; [assumption|]);
      intros [col val] He; apply entry_passes_holds;
        try (now apply Hall);
        intros d l Hd Hl; simpl in Hd, Hl; subst val;
          exact (Hiso col (PyList l) r d He Hin Hd).
  - intros col members before after _ _ out H.
    unfold filter_by_specified_columns_any in H. revert H. run.
    destruct (filter_loop_any _ _ _) as [mask|e] eqn:Hmask; simpl;
      [|discriminate].
    intros H. injection H as <-. simpl.
    apply select_none_false.
    apply (filter_loop_any_set _ _ _ _ (repeat_length _ _)) in Hmask;
      [tauto|].
    exists col, members. apply in_or_app. right. now left.
Qed.

Lemma entries_defined_first_day_padded :
  entries_defined (df Samples.plain) Samples.first_day_padded.
Proof.
  intros col val [H|[H|[H|[]]]] Hne; injection H as <- <-.
  - simpl. auto.
  - elim Hne. unfold empty_entry. auto.
  - elim Hne. unfold empty_entry. auto.
Qed.

Lemma date_texts_first_day_padded :
  date_texts_are_iso (df Samples.plain) Samples.first_day_padded.
Proof.
  intros col val r d [H|[H|[H|[]]]] _ _; injection H as <- <-;
    try exact I.
  intros s [].
Qed.

Lemma empty_entries_impose_no_constraint_witness :
  filter_by_specified_columns Samples.first_day_padded false Samples.plain
  = filter_by_specified_columns
      [("date", PyScalar (SDate 19358)); ("region", PyNone)] false Samples.plain
  /\ exists out,
       filter_by_specified_columns Samples.first_day_padded false Samples.plain
       = (Ok (Some out), Samples.plain)
       /\ nrows out = 2%nat.
Proof.
  destruct (empty_entries_impose_no_constraint
              Samples.plain Samples.first_day_padded false)
    as [Hskip [Hrows _]].
  split.
  - apply (Hskip [("date", PyScalar (SDate 19358))] "v" (PyList [])
                 [("region", PyNone)]).
    + reflexivity.
    + unfold empty_entry. auto.
  - destruct (Hrows entries_defined_first_day_padded
                    date_texts_first_day_padded)
      as [out [Hout [_ [_ [Hr _]]]]].
    exists out. split; [exact Hout|].
    unfold nrows. rewrite Hr. reflexivity.
Defined.

(** The claim as stated fails for the empty set: it is an empty
    collection, yet it is not skipped, and with it no row is left,
    where the call without the entry keeps every row. *)
Lemma empty_set_excludes_every_row :
  empty_collection (PySet [])
  /\ exists none all,
       filter_by_specified_columns_any [("v", PySet [])] false Samples.plain
       = (Ok (Some none), Samples.plain)
       /\ filter_by_specified_columns_any [] false Samples.plain
          = (Ok (Some all), Samples.plain)
       /\ nrows none = 0%nat
       /\ nrows all = 3%nat.
Proof.
  split; [now right|].
  eexists. eexists. split; [reflexivity|]. split; [reflexivity|].
  split; reflexivity.
Qed.

(** A date is equal to the text of its day: the first day of
    [Samples.plain] named as a text selects its two rows. *)
Lemma date_text_selects_its_day :
  exists out,
    filter_by_specified_columns [("date", PyScalar (SStr "2023-01-01"))] false
                                Samples.plain
    = (Ok (Some out), Samples.plain)
    /\ map (get "v") (rows out) = [Val (SInt 5); Val (SInt 3)].
Proof. eexists. split; reflexivity. Qed.

(** C6: predicates conjoin, so a filter map with one more entry never
    yields more rows: when the call with the entry returns a table, the
    call without it returns one too, and every row of the first is a row
    of the second. *)
Theorem adding_a_predicate_never_adds_rows :
  forall (self : DataFrameProcessor)
         (filters1 filters2 : list (string * filter_value))
         (entry : string * filter_value) (more : DataFrame),
    filter_by_specified_columns (filters1 ++ entry :: filters2) false self
    = (Ok (Some more), self) ->
    exists fewer,
      filter_by_specified_columns (filters1 ++ filters2) false self
      = (Ok (Some fewer), self)
      /\ (nrows more <= nrows fewer)%nat
      /\ (forall r, In r (rows more) -> In r (rows fewer))
      /\ filter_by_specified_columns (filters1 ++ entry :: filters2) true self
         = (Ok None, with_df self more)
      /\ filter_by_specified_columns (filters1 ++ filters2) true self
         = (Ok None, with_df self fewer).
Proof.
  intros self filters1 filters2 entry more H.
  rewrite !filter_by_specified_columns_steps in *.
  destruct (filter_loop (df self) (filters1 ++ entry :: filters2) _)
    as [mask|e] eqn:Hmore; [|discriminate].
  injection H as <-.
  assert (Hdef : exists mask', filter_loop (df self) (filters1 ++ filters2)
                                 (repeat true (nrows (df self))) = Ok mask').
  { clear - Hmore. revert Hmore.
    generalize (repeat true (nrows (df self))). revert mask.
    induction filters1 as [|[c v] filters1 IH]; intros mask m0; simpl.
    - destruct entry as [c v].
      destruct (negb (is_blank v)); [|intros H; now exists mask].
      destruct v; destruct (getitem (df self) c); simpl; try discriminate;
        apply filter_loop_defined_any.
    - destruct (negb (is_blank v)); [|apply IH].
      destruct v; destruct (getitem (df self) c); simpl; try discriminate;
        apply IH. }
  destruct Hdef as [mask' Hfewer]. rewrite Hfewer.
  exists (getitem_mask (df self) mask').
  split; [reflexivity|].
  apply filter_loop_rows in Hmore. apply filter_loop_rows in Hfewer.
  assert (Hsub : forall r, In r (rows (getitem_mask (df self) mask)) ->
                           In r (rows (getitem_mask (df self) mask'))).
  { intros r. simpl. rewrite Hmore, Hfewer, !filter_In, !forallb_forall.
    intros [Hin Hall]. split; [assumption|].
    intros e He. apply Hall. apply in_app_iff.
    apply in_app_iff in He as [He|He]; [now left | right; now right]. }
  split; [|split; [exact Hsub | split; reflexivity]].
  unfold nrows. simpl. rewrite Hmore, Hfewer.
  clear. induction (rows (df self)) as [|r rs IH]; simpl; [lia|].
  destruct (forallb (entry_passes r) (filters1 ++ entry :: filters2)) eqn:E1.
  - assert (E2 : forallb (entry_passes r) (filters1 ++ filters2) = true).
    { rewrite forallb_app in *. simpl in E1.
      apply andb_true_iff in E1 as [Ha Hb].
      apply andb_true_iff in Hb as [_ Hb]. now rewrite Ha, Hb. }
    rewrite E2. simpl. lia.
  - destruct (forallb (entry_passes r) (filters1 ++ filters2)); simpl; lia.
Qed.

Lemma adding_a_predicate_never_adds_rows_witness :
  exists more fewer,
    filter_by_specified_columns (Samples.first_day ++ [Samples.five_or_two])
                                false Samples.plain
    = (Ok (Some more), Samples.plain)
    /\ filter_by_specified_columns Samples.first_day false Samples.plain
       = (Ok (Some fewer), Samples.plain)
    /\ nrows more = 1%nat
    /\ (nrows more <= nrows fewer)%nat.
Proof.
  pose (more := with_rows (df Samples.plain)
                  [hd (mkRow NA []) (rows (df Samples.plain))]).
  destruct (adding_a_predicate_never_adds_rows
              Samples.plain Samples.first_day [] Samples.five_or_two
              more eq_refl)
    as [fewer [Hfewer [Hle _]]].
  exists more, fewer. rewrite app_nil_r in Hfewer.
  split; [reflexivity|]. split; [exact Hfewer|].
  split; [reflexivity | exact Hle].
Defined.

End Filtering.

(** ** [aggregate] *)

Section Aggregation.

Import pd pd_facts.

(** The order of keys is a strict total order. *)
Lemma scalar_compare_eq (a b : scalar) : scalar_compare a b = Eq <-> a = b.
Proof.
  destruct a, b; simpl; try (split; [discriminate | congruence]).
  - rewrite Z.compare_eq_iff. split; congruence.
  - rewrite String_as_OT.cmp_eq. split; congruence.
  - rewrite Z.compare_eq_iff. split; congruence.
Qed.

Lemma scalar_compare_antisym (a b : scalar) :
  scalar_compare b a = CompOpp (scalar_compare a b).
Proof.
  destruct a, b; simpl; try reflexivity.
  - apply Z.compare_antisym.
  - apply String.compare_antisym.
  - apply Z.compare_antisym.
Qed.

Lemma scalar_lt_trans (a b c : scalar) :
  scalar_lt a b -> scalar_lt b c -> scalar_lt a c.
Proof.
  unfold scalar_lt.
  destruct a, b, c; simpl; try congruence.
  - rewrite !Z.compare_lt_iff. lia.
  - intros H1 H2. apply String_as_OT.cmp_lt in H1, H2.
    apply String_as_OT.cmp_lt. eapply String_as_OT.lt_trans; eassumption.
  - rewrite !Z.compare_lt_iff. lia.
Qed.

Lemma scalar_lt_irrefl (a : scalar) : ~ scalar_lt a a.
Proof.
  unfold scalar_lt. intros H.
  assert (E : scalar_compare a a = Eq) by now apply scalar_compare_eq.
  congruence.
Qed.

Lemma scalar_lt_dates (a b : Z) : scalar_lt (SDate a) (SDate b) <-> a < b.
Proof. unfold scalar_lt. simpl. apply Z.compare_lt_iff. Qed.

Lemma scalar_eqb_refl (a : scalar) : scalar_eqb a a = true.
Proof. now apply scalar_eqb_eq. Qed.

Lemma scalar_eqb_neq (a b : scalar) : scalar_eqb a b = false <-> a <> b.
Proof.
  rewrite <- scalar_eqb_eq. destruct (scalar_eqb a b); split; congruence.
Qed.

(** Keys after recording one more value. *)
Lemma exact_add_group_keys (k : scalar) (v : Z) (acc : list (scalar * Z)) (x : scalar) :
  In x (map fst (exact_add_group k v acc)) <-> x = k \/ In x (map fst acc).
Proof.
  induction acc as [|[k' s] acc IH]; simpl.
  - intuition.
  - destruct (scalar_compare k k') eqn:E; simpl.
    + apply scalar_compare_eq in E. subst k'. intuition.
    + intuition.
    + rewrite IH. intuition.
Qed.

Lemma exact_add_group_sorted (k : scalar) (v : Z) (acc : list (scalar * Z)) :
  StronglySorted scalar_lt (map fst acc) ->
  StronglySorted scalar_lt (map fst (exact_add_group k v acc)).
Proof.
  induction acc as [|[k' s] acc IH]; intros H; simpl.
  - repeat constructor.
  - inversion H as [|? ? Hs Hall]; subst.
    destruct (scalar_compare k k') eqn:E; simpl.
    + now constructor.
    + constructor; [assumption|].
      constructor; [exact E|].
      eapply Forall_impl; [|exact Hall].
      intros x Hx. now apply scalar_lt_trans with k'.
    + constructor; [now apply IH|].
      apply Forall_forall. intros x Hx.
      apply exact_add_group_keys in Hx as [->|Hx].
      * unfold scalar_lt. rewrite scalar_compare_antisym, E. reflexivity.
      * rewrite Forall_forall in Hall. now apply Hall.
Qed.

Lemma weight_cons (k k' : scalar) (s : Z) (acc : list (scalar * Z)) :
  weight k ((k', s) :: acc)
  = (if scalar_eqb k' k then s else 0) + weight k acc.
Proof.
  unfold weight. simpl. destruct (scalar_eqb k' k); reflexivity.
Qed.

(** Recording [v] under [k'] adds [v] to the weight of [k'] and to no
    other. *)
Lemma exact_add_group_weight (k k' : scalar) (v : Z) (acc : list (scalar * Z)) :
  weight k (exact_add_group k' v acc)
  = weight k acc + (if scalar_eqb k' k then v else 0).
Proof.
  induction acc as [|[k0 s] acc IH]; simpl.
  - rewrite weight_cons. unfold weight. simpl. lia.
  - destruct (scalar_compare k' k0) eqn:E.
    + apply scalar_compare_eq in E. subst k0.
      rewrite !weight_cons. destruct (scalar_eqb k' k); lia.
    + rewrite !weight_cons. destruct (scalar_eqb k' k); lia.
    + rewrite !weight_cons, IH. lia.
Qed.

Lemma weight_absent (k : scalar) (acc : list (scalar * Z)) :
  ~ In k (map fst acc) -> weight k acc = 0.
Proof.
  induction acc as [|[k' s] acc IH]; intros H; [reflexivity|].
  rewrite weight_cons. simpl in H.
  assert (E : scalar_eqb k' k = false) by (apply scalar_eqb_neq; tauto).
  rewrite E, IH; tauto.
Qed.

(** In a sorted list of groups the sum recorded for a key is its
    weight. *)
Lemma sorted_weight (acc : list (scalar * Z)) :
  StronglySorted scalar_lt (map fst acc) ->
  forall k s, In (k, s) acc -> weight k acc = s.
Proof.
  induction acc as [|[k' s'] acc IH]; intros H k s Hin; [contradiction|].
  simpl in H. inversion H as [|? ? Hs Hall]; subst.
  rewrite Forall_forall in Hall.
  rewrite weight_cons. destruct Hin as [Heq|Hin].
  - injection Heq as -> ->. rewrite scalar_eqb_refl, weight_absent; [lia|].
    intros Hk. now apply (scalar_lt_irrefl k), Hall.
  - assert (E : scalar_eqb k' k = false).
    { apply scalar_eqb_neq. intros ->.
      apply (scalar_lt_irrefl k), Hall.
      now apply (in_map fst _ (k, s)). }
    rewrite E. now apply IH.
Qed.

Lemma exact_group_sums_keys (kvs : list (cell * Z)) :
  forall (acc : list (scalar * Z)) (x : scalar),
    In x (map fst (exact_group_sums kvs acc))
    <-> In x (map fst acc) \/ exists v, In (Val x, v) kvs.
Proof.
  induction kvs as [|[[|k] v] kvs IH]; intros acc x; simpl.
  - split; [auto | intros [H|[v []]]; assumption].
  - rewrite IH. split; intros [H|[v0 H]]; auto.
    + right. exists v0. now right.
    + destruct H as [H|H]; [discriminate|]. right. now exists v0.
  - rewrite IH, exact_add_group_keys. split.
    + intros [[->|H]|[v0 H]]; auto.
      * right. exists v. now left.
      * right. exists v0. now right.
    + intros [H|[v0 [H|H]]]; auto.
      * injection H as -> ->. auto.
      * right. now exists v0.
Qed.

Lemma exact_group_sums_sorted (kvs : list (cell * Z)) :
  forall acc : list (scalar * Z),
    StronglySorted scalar_lt (map fst acc) ->
    StronglySorted scalar_lt (map fst (exact_group_sums kvs acc)).
Proof.
  induction kvs as [|[[|k] v] kvs IH]; intros acc H; simpl; auto.
  apply IH. now apply exact_add_group_sorted.
Qed.

Lemma exact_group_sums_weight (k : scalar) (kvs : list (cell * Z)) :
  forall acc : list (scalar * Z),
    weight k (exact_group_sums kvs acc) = weight k acc + weight_of_cells k kvs.
Proof.
  induction kvs as [|[[|k'] v] kvs IH]; intros acc; simpl.
  - unfold weight_of_cells. simpl. lia.
  - rewrite IH. unfold weight_of_cells. simpl. lia.
  - rewrite IH, exact_add_group_weight. unfold weight_of_cells. simpl.
    destruct (scalar_eqb k' k); simpl; lia.
Qed.

(** *** Sums in 64 bits *)

Lemma wrap_int64_small (z : Z) :
  int64_min <= z <= int64_max -> wrap_int64 z = z.
Proof.
  unfold int64_min, int64_max, wrap_int64. intros H.
  rewrite Z.mod_small; lia.
Qed.

Lemma wrap_int64_range (z : Z) : int64_min <= wrap_int64 z <= int64_max.
Proof.
  unfold int64_min, int64_max, wrap_int64.
  assert (H := Z.mod_pos_bound (z + 2 ^ 63) (2 ^ 64) eq_refl). lia.
Qed.

Lemma wrap_int64_add_l (a b : Z) :
  wrap_int64 (wrap_int64 a + b) = wrap_int64 (a + b).
Proof.
  unfold wrap_int64. f_equal.
  replace ((a + 2 ^ 63) mod 2 ^ 64 - 2 ^ 63 + b + 2 ^ 63)
    with ((a + 2 ^ 63) mod 2 ^ 64 + b) by lia.
  rewrite Zplus_mod_idemp_l. f_equal. lia.
Qed.

Lemma wrap_int64_idem (z : Z) : wrap_int64 (wrap_int64 z) = wrap_int64 z.
Proof. apply wrap_int64_small, wrap_int64_range. Qed.

Lemma map_fst_wrapped (sums : list (scalar * Z)) :
  map fst (wrapped sums) = map fst sums.
Proof. unfold wrapped. rewrite map_map. reflexivity. Qed.

Lemma In_wrapped (k : scalar) (s : Z) (sums : list (scalar * Z)) :
  In (k, s) (wrapped sums)
  <-> exists s', In (k, s') sums /\ s = wrap_int64 s'.
Proof.
  unfold wrapped. rewrite in_map_iff. split.
  - intros [[k' s'] [Heq Hin]]. simpl in Heq. injection Heq as -> <-.
    now exists s'.
  - intros [s' [Hin ->]]. now exists (k, s').
Qed.

(** The sums the code keeps are the exact sums, kept in 64 bits. *)
Lemma add_group_wrapped (k : scalar) (v : Z) (acc : list (scalar * Z)) :
  add_group k v (wrapped acc) = wrapped (exact_add_group k v acc).
Proof.
  unfold int64_add.
  induction acc as [|[k' s] acc IH]; simpl; [reflexivity|].
  destruct (scalar_compare k k'); simpl.
  - unfold int64_add. now rewrite wrap_int64_add_l.
  - reflexivity.
  - fold (wrapped acc). now rewrite IH.
Qed.

Lemma group_sums_wrapped (kvs : list (cell * Z)) :
  forall acc : list (scalar * Z),
    group_sums kvs (wrapped acc) = wrapped (exact_group_sums kvs acc).
Proof.
  induction kvs as [|[[|k] v] kvs IH]; intros acc; simpl; auto.
  now rewrite add_group_wrapped, IH.
Qed.

Lemma int64_cell_numeric (col : list cell) :
  Forall int64_cell col -> Forall numeric_cell col.
Proof.
  intros H. eapply Forall_impl; [|exact H].
  intros c [z [-> _]]. exact I.
Qed.

Lemma rmap_numeric (col : list cell) :
  Forall numeric_cell col -> rmap numeric col = Ok (map numeric_or_zero col).
Proof.
  induction 1 as [|c col Hc _ IH]; simpl; [reflexivity|].
  rewrite IH. destruct c as [|[z|s|d]]; simpl in *; tauto.
Qed.

Lemma combine_map {A B C : Type} (f : A -> B) (g : A -> C) (l : list A) :
  combine (map f l) (map g l) = map (fun x => (f x, g x)) l.
Proof. induction l as [|x l IH]; simpl; [reflexivity | now rewrite IH]. Qed.

Lemma weight_of_rows (key target : string) (k : scalar) (rs : list Row) :
  weight_of_cells k
    (map (fun r => (get key r, numeric_or_zero (get target r))) rs)
  = total_at key target k rs.
Proof.
  unfold weight_of_cells, total_at.
  induction rs as [|r rs IH]; simpl; [reflexivity|].
  destruct (cell_eqb (get key r) (Val k)); simpl; now rewrite IH.
Qed.

(** The exact sum recorded for a date is the total of the target over
    the rows of that date. *)
Lemma exact_sum_is_total (key target : string) (rs : list Row)
    (k : scalar) (s : Z) :
  In (k, s) (exact_group_sums
               (map (fun r => (get key r, numeric_or_zero (get target r))) rs)
               []) ->
  s = total_at key target k rs.
Proof.
  intros Hin.
  assert (Hsorted : StronglySorted scalar_lt
                      (map fst (exact_group_sums
                                  (map (fun r => (get key r,
                                                  numeric_or_zero (get target r)))
                                       rs) [])))
    by (apply exact_group_sums_sorted; constructor).
  rewrite <- (sorted_weight _ Hsorted k s Hin).
  rewrite exact_group_sums_weight, weight_of_rows.
  unfold weight. simpl. reflexivity.
Qed.

(** The groups of the code are the exact groups with their sums kept in
    64 bits; so they have the same keys, in ascending order. *)
Lemma group_sums_exact (kvs : list (cell * Z)) :
  group_sums kvs [] = wrapped (exact_group_sums kvs []).
Proof. apply (group_sums_wrapped kvs []). Qed.

Lemma group_sums_sorted (kvs : list (cell * Z)) :
  StronglySorted scalar_lt (map fst (group_sums kvs [])).
Proof.
  rewrite group_sums_exact, map_fst_wrapped.
  apply exact_group_sums_sorted. constructor.
Qed.

Lemma wrapped_wrapped (sums : list (scalar * Z)) :
  wrapped (wrapped sums) = wrapped sums.
Proof.
  unfold wrapped. rewrite map_map. apply map_ext. intros [k s]. simpl.
  now rewrite wrap_int64_idem.
Qed.

Lemma aggregate_steps (self : DataFrameProcessor) (inplace : bool) :
  aggregate inplace self
  = match groupby_sum (df self) (date_column self) (target self) with
    | Raise e => (Raise e, self)
    | Ok grouped =>
        let data :=
          setitem_scalar grouped (graph self) (Val (SStr (target self))) in
        if inplace then (Ok None, with_df self data)
        else (Ok (Some data), self)
    end.
Proof.
  unfold aggregate. run.
  destruct (groupby_sum _ _ _); [|reflexivity]. now destruct inplace.
Qed.

(** The cells of the key and target columns of a table of sums that has
    been given a series column. *)
Lemma sums_of_labelled (key target series : string) (v : cell)
    (sums : list (scalar * Z)) :
  key <> target -> series <> key -> series <> target ->
  sums_of key target (setitem_scalar (frame_of_sums key target sums) series v)
  = map (fun kv => (Val (fst kv), Val (SInt (snd kv)))) sums.
Proof.
  intros Hkt Hsk Hst. unfold sums_of, setitem_scalar, frame_of_sums, relabel.
  simpl. generalize 0%nat.
  induction sums as [|[k s] sums IH]; intros i; simpl; [reflexivity|].
  rewrite IH. f_equal.
  rewrite !get_set_other by congruence.
  unfold get. simpl. rewrite !String.eqb_refl.
  apply String.eqb_neq in Hkt. now rewrite Hkt.
Qed.

(** C4 (amended): [aggregate] groups the rows that carry a date by equal
    date and sums the target within each group: the result has exactly
    one row for each date that occurs in the table, the rows are in
    ascending date order, and the value of a row is the sum of the
    target over the rows of that date, kept in 64 bits (the sum itself
    when it fits).  A row without a date belongs to no group. *)
Theorem aggregate_sums_by_date :
  forall (self : DataFrameProcessor) (inplace : bool),
    In (date_column self) (columns (df self)) ->
    In (target self) (columns (df self)) ->
    date_column self <> target self ->
    Forall int64_cell (map (get (target self)) (rows (df self))) ->
    exists sums : list (scalar * Z),
      StronglySorted scalar_lt (map fst sums)
      /\ (forall k, In k (map fst sums)
                    <-> exists r, In r (rows (df self))
                                  /\ get (date_column self) r = Val k)
      /\ (forall k s, In (k, s) sums ->
           let total := total_at (date_column self) (target self) k
                                 (rows (df self)) in
           s = wrap_int64 total
           /\ (int64_min <= total <= int64_max -> s = total))
      /\ (let data :=
            setitem_scalar
              (frame_of_sums (date_column self) (target self) sums)
              (graph self) (Val (SStr (target self))) in
          aggregate inplace self
          = (if inplace then (Ok None, with_df self data)
             else (Ok (Some data), self))
          /\ (graph self <> date_column self -> graph self <> target self ->
              sums_of (date_column self) (target self) data
              = map (fun kv => (Val (fst kv), Val (SInt (snd kv)))) sums)).
Proof.
  intros self inplace Hdate Htarget Hne Hnum.
  set (kvs := map (fun r => (get (date_column self) r,
                             numeric_or_zero (get (target self) r)))
                  (rows (df self))).
  exists (group_sums kvs []).
  assert (Hwrap : group_sums kvs [] = wrapped (exact_group_sums kvs []))
    by apply (group_sums_wrapped kvs []).
  assert (Hsorted : StronglySorted scalar_lt
                      (map fst (exact_group_sums kvs [])))
    by (apply exact_group_sums_sorted; constructor).
  rewrite Hwrap, map_fst_wrapped.
  split; [exact Hsorted|]. split; [|split; [|split]].
  - intros k. rewrite exact_group_sums_keys. simpl. unfold kvs. split.
    + intros [[]|[v Hv]]. apply in_map_iff in Hv as [r [Hr Hin]].
      injection Hr as Hk _. now exists r.
    + intros [r [Hin Hk]]. right.
      exists (numeric_or_zero (get (target self) r)).
      apply in_map_iff. exists r. now rewrite Hk.
  - intros k s Hin total. apply In_wrapped in Hin as [s' [Hin ->]].
    assert (Hs : s' = total) by now apply exact_sum_is_total.
    rewrite Hs. split; [reflexivity | apply wrap_int64_small].
  - rewrite aggregate_steps. unfold groupby_sum, getitem.
    apply mem_In in Hdate, Htarget. rewrite Hdate, Htarget. simpl.
    rewrite (rmap_numeric _ (int64_cell_numeric _ Hnum)). simpl.
    apply String.eqb_neq in Hne. rewrite Hne.
    rewrite map_map, combine_map. fold kvs. now rewrite Hwrap.
  - intros Hgd Hgt. now apply sums_of_labelled.
Qed.

Lemma aggregate_sums_by_date_witness :
  exists sums : list (scalar * Z),
    StronglySorted scalar_lt (map fst sums)
    /\ aggregate false Samples.plain
       = (Ok (Some (setitem_scalar (frame_of_sums "date" "v" sums)
                                   "series" (Val (SStr "v")))),
          Samples.plain).
Proof.
  destruct (aggregate_sums_by_date Samples.plain false)
    as [sums [Hsorted [_ [_ [Hrun _]]]]].
  - simpl. auto.
  - simpl. auto.
  - discriminate.
  - simpl. repeat apply Forall_cons; try apply Forall_nil;
      eexists; (split; [reflexivity | unfold int64_min, int64_max; lia]).
  - exists sums. split; [exact Hsorted | exact Hrun].
Defined.

(** The claim as stated fails for a row without a date: it is in no
    group, so not all rows are grouped, and the sums of the result do
    not account for its amount. *)
Lemma undated_row_is_in_no_group :
  exists out,
    aggregate false Samples.partly_dated
    = (Ok (Some out), Samples.partly_dated)
    /\ map (get "date") (rows (df Samples.partly_dated))
       = [Val (SDate 19358); NA]
    /\ map (get "date") (rows out) = [Val (SDate 19358)]
    /\ column_total "v" (rows (df Samples.partly_dated)) = 6
    /\ column_total "v" (rows out) = 4.
Proof.
  eexists. split; [reflexivity|]. split; [reflexivity|].
  split; [reflexivity|]. split; reflexivity.
Qed.

(** A sum that does not fit 64 bits wraps around. *)
Lemma aggregate_sum_wraps :
  let big := 2 ^ 62 in
  let table :=
    mkDataFrame None ["date"; "v"]
      [ Samples.row 0 [("date", Val (SDate 19358)); ("v", Val (SInt big))];
        Samples.row 1 [("date", Val (SDate 19358)); ("v", Val (SInt big))] ] in
  groupby_sum table "date" "v"
  = Ok (mkDataFrame None ["date"; "v"]
          [ Samples.row 0 [("date", Val (SDate 19358));
                           ("v", Val (SInt (- 2 ^ 63)))] ]).
Proof. reflexivity. Qed.

(** The example of the specification: the rows (d1, 5), (d1, 3) and
    (d2, 2) with d1 before d2, in any order of arrival, give (d1, 8) and
    (d2, 2) in ascending date order. *)
Lemma aggregate_example (d1 d2 : Z) :
  d1 < d2 ->
  let table :=
    mkDataFrame None ["date"; "v"]
      [ Samples.row 0 [("date", Val (SDate d2)); ("v", Val (SInt 2))];
        Samples.row 1 [("date", Val (SDate d1)); ("v", Val (SInt 5))];
        Samples.row 2 [("date", Val (SDate d1)); ("v", Val (SInt 3))] ] in
  groupby_sum table "date" "v"
  = Ok (mkDataFrame None ["date"; "v"]
          [ Samples.row 0 [("date", Val (SDate d1)); ("v", Val (SInt 8))];
            Samples.row 1 [("date", Val (SDate d2)); ("v", Val (SInt 2))] ]).
Proof.
  intros H table. unfold groupby_sum, table. simpl.
  assert (E1 : (d1 ?= d2) = Lt) by now apply Z.compare_lt_iff.
  rewrite E1. simpl. rewrite Z.compare_refl. reflexivity.
Qed.

End Aggregation.

(** ** The series column of an aggregate *)

Section SeriesOfAggregates.

Import pd pd_facts.

Lemma setitem_scalar_writes (frame : DataFrame) (c : string) (v : cell) :
  In c (columns (setitem_scalar frame c v))
  /\ Forall (fun r => get c r = v) (rows (setitem_scalar frame c v)).
Proof.
  split.
  - simpl. apply In_add_column. now left.
  - simpl. apply Forall_forall. intros r Hr.
    apply in_map_iff in Hr as [r0 [<- _]]. apply get_set_same.
Qed.

Lemma resample_with_steps (rule : string) (inplace : bool)
    (self : DataFrameProcessor) :
  resample_with rule inplace self
  = match resample_sum (df self) rule (date_column self) (target self) with
    | Raise e => (Raise e, self)
    | Ok sampled =>
        let data :=
          setitem_scalar sampled (graph self) (Val (SStr (target self))) in
        if inplace then (Ok None, with_df self data)
        else (Ok (Some data), self)
    end.
Proof.
  unfold resample_with. run.
  destruct (resample_sum _ _ _ _); [|reflexivity]. now destruct inplace.
Qed.

Lemma aggregate_by_timespan_rule (start_date end_date : Timestamp)
    (inplace : bool) (self : DataFrameProcessor) :
  exists rule,
    aggregate_by_timespan start_date end_date inplace self
    = resample_with rule inplace self.
Proof.
  unfold aggregate_by_timespan, resample_with.
  destruct (Timedelta_days _ >? 365); [now exists "M"|].
  destruct (Timedelta_days _ >? 90); [now exists "W" | now exists "D"].
Qed.

Lemma rmap_Forall2_day (col : list cell) (days : list (option Z)) :
  rmap day_of col = Ok days ->
  Forall2 (fun c o => day_of c = Ok o) col days.
Proof.
  revert days. induction col as [|c col IH]; intros days H; simpl in H.
  - injection H as <-. constructor.
  - destruct (day_of c) as [o|e] eqn:Ec; [|discriminate].
    destruct (rmap day_of col) as [os|e]; [|discriminate].
    injection H as <-. constructor; auto.
Qed.

Lemma rmap_day_of (col : list cell) :
  Forall date_or_missing col -> exists days, rmap day_of col = Ok days.
Proof.
  induction 1 as [|c col Hc _ [days IH]]; simpl; [now exists []|].
  rewrite IH. destruct Hc as [->|[d ->]]; simpl; eauto.
Qed.

(** The bucket edges exist when the table has no rows, or a row with a
    date; they do not when it has rows and none with a date. *)
Lemma range_edges_ok (col : list cell) (days : list (option Z)) :
  rmap day_of col = Ok days ->
  col = [] \/ (exists d, In (Val (SDate d)) col) ->
  range_edges days = Ok tt.
Proof.
  intros Hdays Hsome. apply rmap_Forall2_day in Hdays.
  unfold range_edges. destruct days as [|day days]; [reflexivity|].
  destruct (forallb _ (day :: days)) eqn:E; [|reflexivity].
  exfalso. destruct Hsome as [->|[d Hd]]; [inversion Hdays|].
  rewrite forallb_forall in E.
  assert (Hin : In (Some d) (day :: days)).
  { clear E. induction Hdays as [|c o cs os Hc _ IH]; [contradiction|].
    destruct Hd as [->|Hd].
    - simpl in Hc. injection Hc as <-. now left.
    - right. now apply IH. }
  specialize (E _ Hin). discriminate.
Qed.

Lemma range_edges_raises (col : list cell) (days : list (option Z)) :
  rmap day_of col = Ok days ->
  col <> [] -> (forall c, In c col -> c = NA) ->
  range_edges days = Raise AttributeError.
Proof.
  intros Hdays Hne Hall. apply rmap_Forall2_day in Hdays.
  assert (Hnone : forall o, In o days -> o = None).
  { clear Hne. induction Hdays as [|c o cs os Hc _ IH]; [contradiction|].
    intros x [<-|Hx].
    - rewrite (Hall c (or_introl eq_refl)) in Hc. simpl in Hc.
      now injection Hc as <-.
    - apply IH; [|assumption]. intros c' Hc'. apply Hall. now right. }
  unfold range_edges. destruct days as [|day days].
  - inversion Hdays. congruence.
  - replace (forallb _ (day :: days)) with true; [reflexivity|].
    symmetry. apply forallb_forall. intros x Hx. now rewrite (Hnone x Hx).
Qed.

(** Both aggregations succeed on a table whose date column holds dates,
    one of its rows at least (if it has rows), and whose target column
    is numeric. *)
Lemma aggregate_by_timespan_succeeds (start_date end_date : Timestamp)
    (self : DataFrameProcessor) :
  In (date_column self) (columns (df self)) ->
  In (target self) (columns (df self)) ->
  date_column self <> target self ->
  Forall date_or_missing (map (get (date_column self)) (rows (df self))) ->
  rows (df self) = []
  \/ (exists r d, In r (rows (df self))
                  /\ get (date_column self) r = Val (SDate d)) ->
  Forall numeric_cell (map (get (target self)) (rows (df self))) ->
  exists data,
    aggregate_by_timespan start_date end_date false self
    = (Ok (Some data), self).
Proof.
  intros Hdate Htarget Hne Hdays Hsome Hnum.
  assert (Hrule : forall rule f, to_offset rule = Ok f ->
            exists data, resample_with rule false self = (Ok (Some data), self)).
  { intros rule f Hf. rewrite resample_with_steps.
    unfold resample_sum, getitem. rewrite Hf. simpl.
    apply mem_In in Hdate, Htarget. rewrite Hdate, Htarget. simpl.
    destruct (rmap_day_of _ Hdays) as [days Hd]. rewrite Hd. simpl.
    rewrite (range_edges_ok _ _ Hd).
    - simpl. rewrite (rmap_numeric _ Hnum). simpl.
      apply String.eqb_neq in Hne. rewrite Hne. eauto.
    - destruct Hsome as [->|[r [d [Hr Hget]]]]; [now left|].
      right. exists d. rewrite <- Hget. now apply in_map. }
  unfold aggregate_by_timespan.
  destruct (Timedelta_days _ >? 365); [now apply (Hrule "M" MonthEnd)|].
  destruct (Timedelta_days _ >? 90);
    [now apply (Hrule "W" Week) | now apply (Hrule "D" Day)].
Qed.

(** The table a call hands over: the returned one, or with [inplace]
    the object's own. *)
Lemma labelled_outcome (grouped : result DataFrame) (inplace : bool)
    (self self' : DataFrameProcessor) (out : option DataFrame) :
  match grouped with
  | Raise e => (Raise e, self)
  | Ok table =>
      let data := setitem_scalar table (graph self) (Val (SStr (target self))) in
      if inplace then (Ok None, with_df self data)
      else (Ok (Some data), self)
  end = (Ok out, self') ->
  let data := match out with Some d => d | None => df self' end in
  In (graph self) (columns data)
  /\ Forall (fun r => get (graph self) r = Val (SStr (target self))) (rows data).
Proof.
  destruct grouped as [table|e]; [|discriminate].
  destruct inplace; intros H; injection H as <- <-; simpl;
    apply setitem_scalar_writes.
Qed.

(** C10: [aggregate] and [aggregate_by_timespan] write the series
    column whatever [withGraph] is: in the table a successful call hands
    over (the returned one, or with [inplace] the object's own) the
    series column exists and holds the name of the target column in
    every row. *)
Theorem aggregates_write_series_column :
  forall (self self' : DataFrameProcessor) (inplace : bool)
         (out : option DataFrame),
    (aggregate inplace self = (Ok out, self') ->
     let data := match out with Some d => d | None => df self' end in
     In (graph self) (columns data)
     /\ Forall (fun r => get (graph self) r = Val (SStr (target self)))
               (rows data))
    /\ (forall start_date end_date : Timestamp,
           aggregate_by_timespan start_date end_date inplace self
           = (Ok out, self') ->
           let data := match out with Some d => d | None => df self' end in
           In (graph self) (columns data)
           /\ Forall (fun r => get (graph self) r = Val (SStr (target self)))
                     (rows data)).
Proof.
  intros self self' inplace out. split.
  - rewrite aggregate_steps. apply labelled_outcome.
  - intros start_date end_date.
    destruct (aggregate_by_timespan_rule start_date end_date inplace self)
      as [rule ->].
    rewrite resample_with_steps. apply labelled_outcome.
Qed.

(** On an object without a series dimension both calls succeed and the
    tables they return carry the series column. *)
Lemma aggregates_write_series_column_witness :
  withGraph Samples.plain = false
  /\ (exists data,
        aggregate false Samples.plain = (Ok (Some data), Samples.plain)
        /\ nrows data = 2%nat
        /\ Forall (fun r => get "series" r = Val (SStr "v")) (rows data))
  /\ (exists data,
        aggregate_by_timespan Samples.new_year_2023 Samples.new_year_2024 false
          Samples.plain = (Ok (Some data), Samples.plain)
        /\ nrows data = 6%nat
        /\ Forall (fun r => get "series" r = Val (SStr "v")) (rows data)).
Proof.
  split; [reflexivity|]. split.
  - exists (setitem_scalar
              (frame_of_sums "date" "v" [(SDate 19358, 8); (SDate 19390, 2)])
              "series" (Val (SStr "v"))).
    split; [reflexivity|]. split; [reflexivity|].
    apply (proj1 (aggregates_write_series_column
                    Samples.plain Samples.plain false (Some _)) eq_refl).
  - pose (out := fst (aggregate_by_timespan Samples.new_year_2023
                        Samples.new_year_2024 false Samples.plain)).
    exists (match out with Ok (Some d) => d | _ => df Samples.plain end).
    split; [reflexivity|]. split; [reflexivity|].
    apply (proj2 (aggregates_write_series_column
                    Samples.plain Samples.plain false (Some _))
                 Samples.new_year_2023 Samples.new_year_2024 eq_refl).
Defined.

End SeriesOfAggregates.

(** ** [reset_df] and construction *)

Section Container.

Import pd pd_facts.

Lemma rmap_Forall2 {A B : Type} (f : A -> result B) (l : list A) (l' : list B) :
  rmap f l = Ok l' -> Forall2 (fun a b => f a = Ok b) l l'.
Proof.
  revert l'. induction l as [|a l IH]; intros l' H; simpl in H.
  - injection H as <-. constructor.
  - destruct (f a) as [b|e] eqn:Ea; [|discriminate].
    destruct (rmap f l) as [bs|e]; [|discriminate].
    injection H as <-. constructor; auto.
Qed.

Lemma rmap_error {A B : Type} (f : A -> result B) (l : list A) (e : error) :
  rmap f l = Raise e -> exists a, In a l /\ f a = Raise e.
Proof.
  induction l as [|a l IH]; simpl; [discriminate|].
  destruct (f a) as [b|e'] eqn:Ea.
  - destruct (rmap f l) as [bs|e']; [discriminate|].
    intros H. injection H as ->. destruct (IH eq_refl) as [a' [Hin Ha']].
    exists a'. auto.
  - intros H. injection H as ->. exists a. auto.
Qed.

Lemma rmap_ok {A B : Type} (f : A -> result B) (l : list A) (bs : list B) :
  rmap f l = Ok bs -> forall a, In a l -> exists b, f a = Ok b.
Proof.
  intros H a Hin. apply rmap_Forall2 in H.
  induction H as [|x y l l' Hxy _ IH]; [contradiction|].
  destruct Hin as [<-|Hin]; eauto.
Qed.

(** [rmap] raises the one error its function can raise as soon as one
    element fails. *)
Lemma rmap_raises {A B : Type} (f : A -> result B) (l : list A) (err : error)
    (a : A) :
  (forall x e, f x = Raise e -> e = err) ->
  In a l -> (forall b, f a <> Ok b) ->
  rmap f l = Raise err.
Proof.
  intros Honly Hin Hfail.
  destruct (rmap f l) as [bs|e] eqn:E.
  - destruct (rmap_ok _ _ _ E a Hin) as [b Hb]. now elim (Hfail b).
  - apply rmap_error in E as [x [_ Hx]]. now rewrite (Honly _ _ Hx).
Qed.

Lemma parse_only_ValueError (s : string) (e : error) :
  parse_yyyymmdd s = Raise e -> e = ValueError.
Proof.
  unfold parse_yyyymmdd.
  destruct (mem s nat_strings); [discriminate|].
  destruct (negb _); [congruence|].
  destruct (digits_value 0 _); [|congruence].
  destruct (_ && _); [discriminate | congruence].
Qed.

Lemma parse_yyyymmdd_kind (s : string) (c : cell) :
  parse_yyyymmdd s = Ok c -> date_or_missing c.
Proof.
  unfold parse_yyyymmdd, date_or_missing.
  destruct (mem s nat_strings); [intros H; injection H as <-; now left|].
  destruct (negb _); [discriminate|].
  destruct (digits_value 0 _) as [n|]; [|discriminate].
  destruct (_ && _); [|discriminate].
  intros H. injection H as <-. right. eauto.
Qed.

(** A column written row by row. *)
Lemma set_cells_get_same (c : string) (rs : list Row) (vs : list cell) :
  List.length vs = List.length rs ->
  map (get c) (set_cells c rs vs) = vs.
Proof.
  revert vs. induction rs as [|r rs IH]; intros [|v vs] H; simpl in *;
    try discriminate; [reflexivity|].
  rewrite get_set_same, IH; auto.
Qed.

Lemma set_cells_get_other (c c' : string) (rs : list Row) (vs : list cell) :
  c <> c' -> map (get c) (set_cells c' rs vs) = map (get c) rs.
Proof.
  intros Hne. revert vs. induction rs as [|r rs IH]; intros [|v vs]; simpl;
    try reflexivity.
  rewrite get_set_other, IH; auto.
Qed.

Lemma map_set_get_other (c c' : string) (v : cell) (rs : list Row) :
  c <> c' -> map (get c) (map (set c' v) rs) = map (get c) rs.
Proof.
  intros Hne. rewrite map_map. apply map_ext. intros r.
  now apply get_set_other.
Qed.

Lemma Forall2_length_eq {A B : Type} (R : A -> B -> Prop) (l : list A)
    (l' : list B) :
  Forall2 R l l' -> List.length l' = List.length l.
Proof. induction 1; simpl; auto. Qed.

Lemma Forall2_map_l {A B C : Type} (R : A -> C -> Prop) (f : B -> A)
    (l : list B) (l' : list C) :
  Forall2 R (map f l) l' -> Forall2 (fun b c => R (f b) c) l l'.
Proof.
  revert l'. induction l as [|b l IH]; intros l' H; simpl in H;
    inversion H; subst; constructor; auto.
Qed.

(** *** The text of a raw date *)

Lemma digit_of_digit_char (n : Z) :
  0 <= n <= 9 -> digit_of (digit_char n) = Some n.
Proof.
  intros H. unfold digit_of, digit_char.
  rewrite nat_ascii_embedding by lia.
  replace (Z.of_nat (48 + Z.to_nat n)) with (48 + n) by lia.
  replace ((48 <=? 48 + n) && (48 + n <=? 57)) with true.
  - f_equal. lia.
  - symmetry. apply andb_true_iff. split; apply Z.leb_le; lia.
Qed.

Lemma digits_of_yyyymmdd (y m d : Z) :
  1000 <= y <= 9999 -> 1 <= m <= 12 -> 1 <= d <= 31 ->
  digits_value 0 (list_ascii_of_string (yyyymmdd y m d))
  = Some (y * 10000 + m * 100 + d).
Proof.
  intros Hy Hm Hd. unfold yyyymmdd.
  cbn [list_ascii_of_string digits_value].
  rewrite digit_of_digit_char
    by (Z.to_euclidean_division_equations; lia).
  cbn [digits_value].
  rewrite digit_of_digit_char
    by (Z.to_euclidean_division_equations; lia).
  cbn [digits_value].
  rewrite digit_of_digit_char
    by (Z.to_euclidean_division_equations; lia).
  cbn [digits_value].
  rewrite digit_of_digit_char
    by (Z.to_euclidean_division_equations; lia).
  cbn [digits_value].
  rewrite digit_of_digit_char
    by (Z.to_euclidean_division_equations; lia).
  cbn [digits_value].
  rewrite digit_of_digit_char
    by (Z.to_euclidean_division_equations; lia).
  cbn [digits_value].
  rewrite digit_of_digit_char
    by (Z.to_euclidean_division_equations; lia).
  cbn [digits_value].
  rewrite digit_of_digit_char
    by (Z.to_euclidean_division_equations; lia).
  cbn [digits_value]. f_equal.
  Z.to_euclidean_division_equations. lia.
Qed.

Lemma days_in_month_le (y m : Z) : days_in_month y m <= 31.
Proof.
  unfold days_in_month.
  destruct (m =? 2); [destruct (is_leap y); lia|].
  destruct (_ || _); lia.
Qed.

(** The text [YYYYMMDD] of a day parses to that day. *)
Lemma parse_yyyymmdd_day (y m d : Z) :
  calendar_day y m d ->
  parse_yyyymmdd (yyyymmdd y m d) = Ok (Val (SDate (days_from_civil y m d))).
Proof.
  intros [Hy [Hm [Hd Hb]]].
  assert (Hd' : 1 <= d <= 31) by (pose proof (days_in_month_le y m); lia).
  unfold parse_yyyymmdd.
  replace (mem (yyyymmdd y m d) nat_strings) with false.
  - replace (String.length (yyyymmdd y m d) =? 8)%nat with true
      by reflexivity.
    cbn [negb]. rewrite (digits_of_yyyymmdd y m d Hy Hm Hd').
    replace ((y * 10000 + m * 100 + d) / 10000) with y
      by (Z.to_euclidean_division_equations; lia).
    replace ((y * 10000 + m * 100 + d) / 100 mod 100) with m
      by (Z.to_euclidean_division_equations; lia).
    replace ((y * 10000 + m * 100 + d) mod 100) with d
      by (Z.to_euclidean_division_equations; lia).
    rewrite Hb.
    replace ((1 <=? y) && (1 <=? m) && (m <=? 12) && (1 <=? d)
             && (d <=? days_in_month y m)) with true; [reflexivity|].
    symmetry. rewrite !andb_true_iff, !Z.leb_le. lia.
  - symmetry. apply mem_not_In. intros Hin.
    assert (Hlen : String.length (yyyymmdd y m d) = 8%nat) by reflexivity.
    simpl in Hin.
    repeat (destruct Hin as [Hin|Hin];
            [rewrite <- Hin in Hlen; discriminate|]).
    contradiction.
Qed.

Lemma rmap_ok_all {A B : Type} (f : A -> result B) (l : list A) :
  (forall a, In a l -> exists b, f a = Ok b) ->
  exists l', rmap f l = Ok l'.
Proof.
  induction l as [|a l IH]; intros H; simpl; [now exists []|].
  destruct (H a (or_introl eq_refl)) as [b ->].
  destruct IH as [l' ->]; [intros x Hx; apply H; now right|].
  now exists (b :: l').
Qed.

Lemma set_cells_labels (c : string) (rs : list Row) (vs : list cell) :
  map row_label (set_cells c rs vs) = map row_label rs.
Proof.
  revert vs. induction rs as [|r rs IH]; intros [|v vs]; simpl;
    try reflexivity.
  now rewrite IH.
Qed.

Lemma Forall2_map_r {A B C : Type} (R : A -> C -> Prop) (g : B -> C)
    (l : list A) (l' : list B) :
  Forall2 R l (map g l') -> Forall2 (fun a b => R a (g b)) l l'.
Proof.
  revert l. induction l' as [|b l' IH]; intros l H; simpl in H;
    inversion H; subst; constructor; auto.
Qed.

Lemma reset_df_steps (self : DataFrameProcessor) (new_df : DataFrame) :
  reset_df new_df self
  = match (raw <- getitem new_df (date_column self) ;;
           to_datetime (astype_str raw))%result with
    | Raise e => (Raise e, with_df self (copy new_df))
    | Ok dates =>
        (Ok tt,
         with_df self
           (if withGraph self
            then setitem_scalar
                   (setitem_aligned (copy new_df) (date_column self) dates)
                   (graph self) (Val (SStr (label self)))
            else setitem_aligned (copy new_df) (date_column self) dates))
    end.
Proof.
  unfold reset_df. run. unfold copy.
  destruct (getitem new_df (date_column self)) as [raw|e]; simpl;
    [|reflexivity].
  destruct (to_datetime (astype_str raw)) as [dates|e]; simpl;
    [|reflexivity].
  destruct (withGraph self); reflexivity.
Qed.



Lemma In_filter_columns (exclude cols : list string) (c : string) :
  In c (filter (fun x => negb (mem x exclude)) cols) ->
  In c cols /\ ~ In c exclude.
Proof.
  intros H. apply filter_In in H as [Hin Hex]. split; [assumption|].
  apply negb_true_iff in Hex. now apply mem_not_In.
Qed.

Lemma reset_index_labels (name : string) (rs : list Row) :
  map (get name)
      (relabel (map (fun r => mkRow (row_label r) ((name, row_label r) :: cells r))
                    rs))
  = map row_label rs.
Proof.
  unfold relabel. rewrite get_relabel_from, map_map.
  apply map_ext. intros r. unfold get. simpl. now rewrite String.eqb_refl.
Qed.

(** C9 (amended): a successful construction puts one column in front of
    the input's columns, holding the input's row labels (the index is
    reset without dropping it).  The column is named [index] when the
    input's index has no name and the input has no column [index];
    otherwise it is named after the index, or [level_0].  Its name is
    not a column of the input, so it is never a member of
    [filter_columns], which is computed from the input's columns only.
    (It holds the labels unless it is itself the date column or the
    series column, which are written afterwards.) *)
Theorem construction_adds_label_column :
  forall (input : DataFrame) (exclude : list string)
         (date_column target label graph : string) (withGraph : bool)
         (self : DataFrameProcessor),
    __init__ input exclude date_column target label graph withGraph = Ok self ->
    let name := reset_index_name input in
    (index_name input = None -> ~ In "index" (columns input) -> name = "index")
    /\ columns (df self)
       = (if withGraph then add_column graph (name :: columns input)
          else name :: columns input)
    /\ ~ In name (columns input)
    /\ filter_columns self
       = filter (fun c => negb (mem c exclude)) (columns input)
    /\ ~ In name (filter_columns self)
    /\ (name <> date_column -> (withGraph = true -> name <> graph) ->
        map (get name) (rows (df self)) = map row_label (rows input)).
Proof.
  intros input exclude date_column target label graph withGraph self H name.
  unfold __init__, reset_index, copy in H. fold name in H.
  destruct (mem name (columns input)) eqn:Hfresh; [discriminate|].
  apply mem_not_In in Hfresh.
  simpl in H.
  destruct (getitem _ date_column) as [raw|e] eqn:Hraw; [|discriminate].
  simpl in H.
  destruct (to_datetime (astype_str raw)) as [dates|e]; [|discriminate].
  simpl in H.
  destruct (getitem _ date_column) as [col|e] in H; [|discriminate].
  simpl in H. injection H as <-. simpl.
  assert (Hdate : add_column date_column (name :: columns input)
                  = name :: columns input).
  { unfold getitem in Hraw. unfold add_column.
    cbn [columns] in Hraw.
    destruct (mem date_column (name :: columns input)); [reflexivity|].
    discriminate. }
  split; [|split; [|split; [|split; [|split]]]].
  - intros Hnone Hindex. unfold name, reset_index_name.
    rewrite Hnone. apply mem_not_In in Hindex. now rewrite Hindex.
  - destruct withGraph; simpl; now rewrite Hdate.
  - exact Hfresh.
  - reflexivity.
  - intros Hin. apply In_filter_columns in Hin as [Hin _]. contradiction.
  - intros Hnd Hng.
    assert (Hkeep : map (get name)
                      (set_cells date_column
                         (relabel (map (fun r => mkRow (row_label r)
                                                   ((name, row_label r) :: cells r))
                                       (rows input))) dates)
                    = map row_label (rows input)).
    { rewrite set_cells_get_other by assumption. apply reset_index_labels. }
    destruct withGraph; simpl; [|exact Hkeep].
    rewrite map_set_get_other by auto. exact Hkeep.
Qed.

Lemma construction_adds_label_column_witness :
  exists self,
    __init__ Samples.raw [] "date" "v" "actual" "series" true = Ok self
    /\ columns (df self) = ["index"; "date"; "v"; "series"]
    /\ ~ In "index" (filter_columns self)
    /\ map (get "index") (rows (df self)) = map row_label (rows Samples.raw).
Proof.
  exists Samples.actual.
  assert (H : __init__ Samples.raw [] "date" "v" "actual" "series" true
              = Ok Samples.actual) by reflexivity.
  destruct (construction_adds_label_column _ _ _ _ _ _ _ _ H)
    as [Hname [Hcols [_ [_ [Hfilter Hlabels]]]]].
  split; [exact H|]. split; [exact Hcols|]. split; [exact Hfilter|].
  apply Hlabels; [discriminate | intros _; discriminate].
Defined.

(** The claim as stated fails: for an input that has a column [index] of
    its own the added column is named [level_0]; the column [index] of
    the object's table is the input's, it does not hold the row labels,
    and it is a member of [filter_columns]. *)
Lemma index_column_of_input_is_filterable :
  exists self,
    __init__ Samples.raw_with_index_column [] "date" "v" "actual" "series" true
    = Ok self
    /\ columns (df self) = ["level_0"; "index"; "date"; "series"]
    /\ In "index" (filter_columns self)
    /\ map (get "index") (rows (df self))
       <> map row_label (rows Samples.raw_with_index_column).
Proof.
  eexists. split; [reflexivity|]. split; [reflexivity|].
  split; [simpl; auto | discriminate].
Qed.

End Container.

(** ** Further properties *)

Section Further.

Import pd pd_facts.

Lemma rmap_date_between (start_date end_date : Timestamp) (col : list cell) :
  Forall date_or_missing col ->
  rmap (date_between start_date end_date) col
  = Ok (map (in_date_range start_date end_date) col).
Proof.
  induction 1 as [|c col Hc _ IH]; simpl; [reflexivity|].
  rewrite IH. destruct Hc as [->|[d ->]]; reflexivity.
Qed.

(** [filter_by_date] keeps exactly the rows whose date lies in the
    closed range from the start to the end, in their order. *)
Theorem filter_by_date_is_inclusive :
  forall (self : DataFrameProcessor) (start_date end_date : Timestamp)
         (inplace : bool),
    In (date_column self) (columns (df self)) ->
    Forall date_or_missing (map (get (date_column self)) (rows (df self))) ->
    let kept :=
      with_rows (df self)
        (filter (fun r => in_date_range start_date end_date
                                        (get (date_column self) r))
                (rows (df self))) in
    filter_by_date start_date end_date inplace self
    = (if inplace then (Ok None, with_df self kept)
       else (Ok (Some kept), self))
    /\ forall r, In r (rows kept)
                 <-> In r (rows (df self))
                     /\ exists d, get (date_column self) r = Val (SDate d)
                                  /\ start_date <= midnight d <= end_date.
Proof.
  intros self start_date end_date inplace Hdate Hcells kept. split.
  - unfold filter_by_date. run. unfold getitem.
    apply mem_In in Hdate. rewrite Hdate.
    rewrite (rmap_date_between _ _ _ Hcells).
    unfold getitem_mask. rewrite map_map, select_map.
    now destruct inplace.
  - intros r. unfold kept. simpl. rewrite filter_In.
    split; intros [Hin Hr]; (split; [assumption|]).
    + destruct (get (date_column self) r) as [|[z|s|d]]; try discriminate.
      exists d. split; [reflexivity|].
      simpl in Hr. apply andb_true_iff in Hr as [H1 H2].
      apply Z.leb_le in H1, H2. lia.
    + destruct Hr as [d [-> [H1 H2]]]. simpl.
      apply andb_true_iff. split; now apply Z.leb_le.
Qed.

Lemma filter_by_date_is_inclusive_witness :
  filter_by_date (midnight 19358) (midnight 19359) false Samples.plain
  = (Ok (Some (with_rows (df Samples.plain)
                 (filter (fun r => in_date_range (midnight 19358) (midnight 19359)
                                                 (get "date" r))
                         (rows (df Samples.plain))))),
     Samples.plain).
Proof.
  refine (proj1 (filter_by_date_is_inclusive Samples.plain (midnight 19358)
                   (midnight 19359) false _ _)).
  - simpl. auto.
  - simpl. repeat (apply Forall_cons; [right; eexists; reflexivity|]).
    apply Forall_nil.
Defined.

(** I3 of the specification: after construction [filter_columns] holds
    the input's columns that were not excluded, and no other. *)
Theorem filter_columns_exclude :
  forall (input : DataFrame) (exclude : list string)
         (date_column target label graph : string) (withGraph : bool)
         (self : DataFrameProcessor),
    __init__ input exclude date_column target label graph withGraph = Ok self ->
    forall c, In c (filter_columns self)
              <-> In c (columns input) /\ ~ In c exclude.
Proof.
  intros input exclude date_column target label graph withGraph self H c.
  unfold __init__ in H.
  destruct (reset_index (copy input)) as [frame|e]; [|discriminate].
  simpl in H.
  destruct (getitem frame date_column) as [raw|e]; [|discriminate].
  simpl in H.
  destruct (to_datetime (astype_str raw)) as [dates|e]; [|discriminate].
  simpl in H.
  destruct (getitem _ date_column) as [col|e] in H; [|discriminate].
  simpl in H. injection H as <-. simpl.
  rewrite filter_In, negb_true_iff, mem_not_In. reflexivity.
Qed.

Lemma filter_columns_exclude_witness :
  In "v" ["v"] <-> In "v" ["date"; "v"] /\ ~ In "v" ["date"].
Proof.
  apply (filter_columns_exclude Samples.raw ["date"] "date" "v" "actual"
           "series" true
           (mkProcessor "v" "date" "actual" "series" true
                        (df Samples.actual) ["v"]
                        (min_date Samples.actual) (max_date Samples.actual))).
  reflexivity.
Defined.

(** The scenario of the specification: two raw rows dated 20230101 and
    20230102, target [v], label [actual], series enabled, give a table
    of two rows dated 1 and 2 January 2023, both in the series
    [actual], with these two dates as bounds. *)
Theorem construction_scenario :
  __init__ Samples.raw [] "date" "v" "actual" "series" true = Ok Samples.actual
  /\ map (fun r => str_of_cell (get "date" r)) (rows (df Samples.actual))
     = ["2023-01-01"; "2023-01-02"]
  /\ map (get "series") (rows (df Samples.actual))
     = [Val (SStr "actual"); Val (SStr "actual")]
  /\ str_of_cell (min_date Samples.actual) = "2023-01-01"
  /\ str_of_cell (max_date Samples.actual) = "2023-01-02".
Proof. repeat split. Qed.

Lemma nrows_concat2 (a b : DataFrame) :
  nrows (concat [a; b]) = (nrows a + nrows b)%nat.
Proof.
  unfold nrows, concat, relabel. simpl.
  now rewrite relabel_from_length, length_map, app_nil_r, length_app.
Qed.

Lemma set_cells_length (c : string) (rs : list Row) (vs : list cell) :
  List.length (set_cells c rs vs) = List.length rs.
Proof.
  revert vs. induction rs as [|r rs IH]; intros [|v vs]; simpl; auto.
Qed.

(** A prediction of the right length: the selected rows are copied, the
    copy gets the predicted values as target and the new label as
    series, and it is appended to the whole table; the object changes
    only with [inplace]. *)
Theorem add_prediction_appends :
  forall (self : DataFrameProcessor) (new_label : string) (last_n_rows : Z)
         (predict : DataFrame -> result prediction) (inplace : bool)
         (selected : DataFrame) (vs : list cell),
    withGraph self = true ->
    selected_rows self last_n_rows = Ok selected ->
    predict selected = Ok (PredList vs) ->
    nrows selected <> 0%nat ->
    List.length vs = nrows selected ->
    let forecast :=
      setitem_scalar (setitem_aligned selected (target self) vs)
                     (graph self) (Val (SStr new_label)) in
    let data := concat [df self; forecast] in
    add_prediction new_label last_n_rows predict inplace self
    = (if inplace then (Ok None, with_df self data)
       else (Ok (Some data), self))
    /\ nrows data = (nrows (df self) + nrows selected)%nat
    /\ Forall (fun r => get (graph self) r = Val (SStr new_label))
              (rows forecast)
    /\ (graph self <> target self ->
        map (get (target self)) (rows forecast) = vs).
Proof.
  intros self new_label last_n_rows predict inplace selected vs
         Hg Hsel Hp Hrows Hlen forecast data.
  split; [|split; [|split]].
  - rewrite (add_prediction_steps _ _ _ _ _ _ Hg Hsel), Hp.
    unfold setitem. unfold nrows in *.
    destruct (rows selected) as [|r rs] eqn:E; [now elim Hrows|].
    apply Nat.eqb_eq in Hlen. rewrite Hlen.
    cbv zeta. destruct inplace; reflexivity.
  - unfold data. rewrite nrows_concat2. f_equal.
    unfold forecast, nrows. simpl. now rewrite length_map, set_cells_length.
  - unfold forecast. simpl. apply Forall_forall. intros r Hr.
    apply in_map_iff in Hr as [r0 [<- _]]. apply get_set_same.
  - intros Hne. unfold forecast. simpl.
    rewrite map_set_get_other by congruence.
    now apply set_cells_get_same.
Qed.

Lemma add_prediction_appends_witness :
  exists data,
    add_prediction "forecast" 2
      (fun _ => Ok (PredList [Val (SInt 7); Val (SInt 9)])) false Samples.totals
    = (Ok (Some data), Samples.totals)
    /\ nrows data = 4%nat.
Proof.
  destruct (add_prediction_appends Samples.totals "forecast" 2
              (fun _ => Ok (PredList [Val (SInt 7); Val (SInt 9)])) false
              (df Samples.totals) [Val (SInt 7); Val (SInt 9)])
    as [Hrun [Hrows _]]; try reflexivity.
  - vm_compute. discriminate.
  - eexists. split; [exact Hrun | exact Hrows].
Defined.

(** I1 and I2 of the specification after construction: every date cell
    is a date or a missing date, and with [withGraph] every row carries
    the label as series. *)
Theorem construction_normalizes :
  forall (input : DataFrame) (exclude : list string)
         (date_column target label graph : string) (withGraph : bool)
         (self : DataFrameProcessor),
    __init__ input exclude date_column target label graph withGraph = Ok self ->
    (withGraph = true ->
     Forall (fun r => get graph r = Val (SStr label)) (rows (df self)))
    /\ (withGraph = false \/ graph <> date_column ->
        Forall date_or_missing (map (get date_column) (rows (df self))))
    /\ nrows (df self) = nrows input.
Proof.
  intros input exclude date_column target label graph withGraph self H.
  unfold __init__, reset_index, copy in H.
  destruct (mem _ (columns input)); [discriminate|].
  simpl in H.
  destruct (getitem _ date_column) as [raw|e] eqn:Hraw; [|discriminate].
  simpl in H.
  destruct (to_datetime (astype_str raw)) as [dates|e] eqn:Hdates;
    [|discriminate].
  simpl in H.
  destruct (getitem _ date_column) as [col|e] in H; [|discriminate].
  simpl in H. injection H as <-. simpl.
  unfold to_datetime, astype_str in Hdates. apply rmap_Forall2 in Hdates.
  assert (Hlen := Forall2_length_eq _ _ _ Hdates).
  assert (Hkind : Forall date_or_missing dates).
  { clear Hlen. induction Hdates; constructor; auto.
    eapply parse_yyyymmdd_kind; eassumption. }
  unfold getitem in Hraw.
  destruct (mem date_column _) in Hraw; [|discriminate].
  injection Hraw as <-. rewrite !length_map in Hlen.
  split; [|split].
  - intros ->. simpl. apply Forall_forall. intros r Hr.
    apply in_map_iff in Hr as [r0 [<- _]]. apply get_set_same.
  - intros Hcase.
    assert (Hcol : map (get date_column)
                     (set_cells date_column
                        (relabel (map (fun r => mkRow (row_label r)
                                         ((reset_index_name input, row_label r)
                                            :: cells r))
                                      (rows input))) dates) = dates)
      by now apply set_cells_get_same.
    destruct withGraph; simpl.
    + destruct Hcase as [Hcase|Hcase]; [discriminate|].
      rewrite map_set_get_other by congruence. now rewrite Hcol.
    + now rewrite Hcol.
  - unfold nrows. destruct withGraph; simpl;
      rewrite ?length_map, set_cells_length;
      unfold relabel; now rewrite relabel_from_length, length_map.
Qed.

Lemma construction_normalizes_witness :
  Forall (fun r => get "series" r = Val (SStr "actual"))
         (rows (df Samples.actual))
  /\ Forall date_or_missing (map (get "date") (rows (df Samples.actual))).
Proof.
  destruct (construction_normalizes Samples.raw [] "date" "v" "actual"
              "series" true Samples.actual eq_refl) as [Hseries [Hdates _]].
  split; [now apply Hseries | apply Hdates; right; discriminate].
Defined.

End Further.

(** ** Outcome and composition of filters *)

Section FilterAlgebra.

Import pd pd_facts.

Lemma with_df_same (self : DataFrameProcessor) : with_df self (df self) = self.
Proof. now destruct self. Qed.

Lemma with_df_with_df (self : DataFrameProcessor) (a b : DataFrame) :
  with_df (with_df self a) b = with_df self b.
Proof. reflexivity. Qed.

Lemma entries_definedb_spec (frame : DataFrame)
    (filters : list (string * filter_value)) :
  entries_definedb frame filters = true <-> entries_defined frame filters.
Proof.
  unfold entries_definedb, entries_defined. rewrite forallb_forall. split.
  - intros H col val Hin Hne. specialize (H _ Hin). simpl in H.
    apply orb_true_iff in H as [H|H]; [|now apply mem_In].
    elim Hne. now apply is_blank_empty_entry.
  - intros H [col val] Hin. simpl.
    destruct (is_blank val) eqn:Hb; [reflexivity|]. simpl.
    apply mem_In, (H col val Hin). rewrite <- is_blank_empty_entry. congruence.
Qed.

(** The loop raises [KeyError] as soon as a non-empty entry names a
    column the table has not. *)
Lemma filter_loop_raises (frame : DataFrame) :
  forall (filters : list (string * filter_value)) (mask : list bool),
    entries_definedb frame filters = false ->
    filter_loop frame filters mask = Raise KeyError.
Proof.
  induction filters as [|[col val] filters IH]; intros mask H; simpl in *.
  - discriminate.
  - destruct (is_blank val) eqn:Hb; simpl in *; [now apply IH|].
    unfold getitem.
    destruct (mem col (columns frame)) eqn:Hc; simpl in *.
    + destruct val; simpl; now apply IH.
    + now destruct val.
Qed.

(** What a call of [filter_by_specified_columns] does, in one
    equation. *)
Lemma filter_by_specified_columns_outcome (self : DataFrameProcessor)
    (filters : list (string * filter_value)) (inplace : bool) :
  filter_by_specified_columns filters inplace self
  = if entries_definedb (df self) filters
    then let kept := with_rows (df self) (kept_rows filters (rows (df self))) in
         if inplace then (Ok None, with_df self kept)
         else (Ok (Some kept), self)
    else (Raise KeyError, self).
Proof.
  rewrite filter_by_specified_columns_steps.
  destruct (entries_definedb (df self) filters) eqn:Hdef.
  - apply entries_definedb_spec in Hdef.
    destruct (filter_loop_defined (df self) filters
                (repeat true (nrows (df self))) Hdef) as [mask Hmask].
    rewrite Hmask. unfold getitem_mask.
    now rewrite (filter_loop_rows _ _ _ Hmask).
  - now rewrite filter_loop_raises.
Qed.

Lemma missing_column_raises (self : DataFrameProcessor)
    (filters : list (string * filter_value)) (inplace : bool)
    (col : string) (val : filter_value) :
  In (col, val) filters -> ~ empty_entry val -> ~ In col (columns (df self)) ->
  filter_by_specified_columns filters inplace self = (Raise KeyError, self).
Proof.
  intros Hin Hne Hcol. rewrite filter_by_specified_columns_outcome.
  destruct (entries_definedb (df self) filters) eqn:Hdef; [|reflexivity].
  apply entries_definedb_spec in Hdef. elim Hcol. now apply (Hdef col val).
Qed.

(** A non-empty entry that names a column the table has not makes the
    call raise [KeyError], wherever the entry stands and whatever
    [inplace] is, and the object is left as it was; an empty entry may
    name any column.  In all other cases the call returns. *)
Theorem filter_raises_on_missing_column :
  forall (self : DataFrameProcessor) (filters : list (string * filter_value))
         (inplace : bool),
    ((exists col val, In (col, val) filters /\ ~ empty_entry val
                      /\ ~ In col (columns (df self))) ->
     filter_by_specified_columns filters inplace self = (Raise KeyError, self))
    /\ (entries_defined (df self) filters ->
        exists out, fst (filter_by_specified_columns filters inplace self)
                    = Ok out).
Proof.
  intros self filters inplace.
  rewrite filter_by_specified_columns_outcome. split.
  - intros [col [val [Hin [Hne Hcol]]]].
    destruct (entries_definedb (df self) filters) eqn:Hdef; [|reflexivity].
    apply entries_definedb_spec in Hdef. elim Hcol. now apply (Hdef col val).
  - intros Hdef. apply entries_definedb_spec in Hdef. rewrite Hdef.
    destruct inplace; simpl; eauto.
Qed.

Lemma filter_raises_on_missing_column_witness :
  filter_by_specified_columns
    [("date", PyScalar (SDate 19358)); ("region", PyScalar (SStr "north"))]
    true Samples.plain
  = (Raise KeyError, Samples.plain).
Proof.
  apply (filter_raises_on_missing_column Samples.plain).
  exists "region", (PyScalar (SStr "north")). split; [simpl; auto|].
  split.
  - unfold empty_entry. intros [H|[H|H]]; discriminate.
  - simpl. intros [H|[H|[H|[]]]]; discriminate.
Defined.

Lemma kept_rows_app (filters1 filters2 : list (string * filter_value))
    (rs : list Row) :
  kept_rows filters2 (kept_rows filters1 rs) = kept_rows (filters1 ++ filters2) rs.
Proof.
  unfold kept_rows. induction rs as [|r rs IH]; simpl; [reflexivity|].
  rewrite forallb_app.
  destruct (forallb (entry_passes r) filters1); simpl; [|exact IH].
  destruct (forallb (entry_passes r) filters2); now rewrite IH.
Qed.

Lemma forallb_same_elements {A : Type} (p : A -> bool) (l1 l2 : list A) :
  (forall x, In x l1 <-> In x l2) -> forallb p l1 = forallb p l2.
Proof.
  intros H.
  destruct (forallb p l1) eqn:E1; destruct (forallb p l2) eqn:E2;
    try reflexivity.
  - rewrite forallb_forall in E1.
    assert (E : forallb p l2 = true)
      by (apply forallb_forall; intros x Hx; now apply E1, H).
    congruence.
  - rewrite forallb_forall in E2.
    assert (E : forallb p l1 = true)
      by (apply forallb_forall; intros x Hx; now apply E2, H).
    congruence.
Qed.

(** Filters compose: after filtering in place with one map, a call
    with a second map has the outcome of one call with both maps on the
    original object (the returned table, or the [KeyError]); when it
    succeeds in place the two objects are equal.  In particular
    filtering a second time with the same map changes nothing. *)
Theorem filters_compose :
  forall (self self1 : DataFrameProcessor)
         (filters1 filters2 : list (string * filter_value)) (inplace : bool),
    filter_by_specified_columns filters1 true self = (Ok None, self1) ->
    fst (filter_by_specified_columns filters2 inplace self1)
    = fst (filter_by_specified_columns (filters1 ++ filters2) inplace self)
    /\ (entries_defined (df self) filters2 ->
        filter_by_specified_columns filters2 true self1
        = filter_by_specified_columns (filters1 ++ filters2) true self)
    /\ filter_by_specified_columns filters1 true self1 = (Ok None, self1).
Proof.
  intros self self1 filters1 filters2 inplace H.
  rewrite filter_by_specified_columns_outcome in H.
  destruct (entries_definedb (df self) filters1) eqn:Hdef1; [|discriminate].
  simpl in H. injection H as <-.
  assert (Hdef : forall fs,
             entries_definedb (df self) (filters1 ++ fs)
             = entries_definedb (df self) fs).
  { intros fs. unfold entries_definedb in *. now rewrite forallb_app, Hdef1. }
  rewrite !filter_by_specified_columns_outcome. simpl.
  change (entries_definedb (with_rows (df self) _) ?fs)
    with (entries_definedb (df self) fs).
  rewrite Hdef, Hdef1. unfold with_rows. simpl. rewrite !kept_rows_app.
  split; [|split].
  - destruct (entries_definedb (df self) filters2); [|reflexivity].
    now destruct inplace.
  - intros Hdef2. apply entries_definedb_spec in Hdef2. now rewrite Hdef2.
  - unfold with_df. simpl. do 3 f_equal.
    unfold kept_rows. apply filter_ext. intros r.
    apply forallb_same_elements. intros x. rewrite in_app_iff. tauto.
Qed.

Lemma filters_compose_witness :
  filter_by_specified_columns [Samples.five_or_two] true
    (snd (filter_by_specified_columns Samples.first_day true Samples.plain))
  = filter_by_specified_columns (Samples.first_day ++ [Samples.five_or_two])
      true Samples.plain.
Proof.
  refine (proj1 (proj2 (filters_compose Samples.plain _ Samples.first_day
                          [Samples.five_or_two] true eq_refl)) _).
  intros col val [H|[]] _. injection H as <- _. simpl. auto.
Defined.

(** The outcome of a call depends only on which entries the map holds,
    not on their order or on repetitions. *)
Theorem filter_order_is_irrelevant :
  forall (self : DataFrameProcessor)
         (filters1 filters2 : list (string * filter_value)) (inplace : bool),
    (forall entry, In entry filters1 <-> In entry filters2) ->
    filter_by_specified_columns filters1 inplace self
    = filter_by_specified_columns filters2 inplace self.
Proof.
  intros self filters1 filters2 inplace H.
  rewrite !filter_by_specified_columns_outcome.
  assert (Hdef : entries_definedb (df self) filters1
                 = entries_definedb (df self) filters2)
    by now apply forallb_same_elements.
  assert (Hrows : kept_rows filters1 (rows (df self))
                  = kept_rows filters2 (rows (df self))).
  { unfold kept_rows. apply filter_ext. intros r.
    now apply forallb_same_elements. }
  now rewrite Hdef, Hrows.
Qed.

Lemma filter_order_is_irrelevant_witness :
  filter_by_specified_columns (Samples.first_day ++ [Samples.five_or_two])
    false Samples.plain
  = filter_by_specified_columns (Samples.five_or_two :: Samples.first_day)
      false Samples.plain.
Proof.
  apply (filter_order_is_irrelevant Samples.plain).
  intros entry. simpl. tauto.
Defined.

End FilterAlgebra.

(** ** What a call may change *)

Section Frame.

Import pd pd_facts.

(** The common ending of the transforming methods: raise, or hand over
    a table, in place or as the returned value. *)
Lemma hand_over_all_or_nothing {A : Type} (computed : result A)
    (finish : A -> DataFrame) (self : DataFrameProcessor) (inplace : bool) :
  let out :=
    match computed with
    | Raise e => (Raise e, self)
    | Ok a => if inplace then (Ok None, with_df self (finish a))
              else (Ok (Some (finish a)), self)
    end in
  (exists frame, snd out = with_df self frame)
  /\ (forall e, fst out = Raise e -> snd out = self)
  /\ (inplace = false -> snd out = self).
Proof.
  destruct computed as [a|e]; simpl.
  - destruct inplace; simpl.
    + split; [eauto|]. split; [discriminate | discriminate].
    + split; [exists (df self); now rewrite with_df_same|]. auto.
  - split; [exists (df self); now rewrite with_df_same|]. auto.
Qed.

Lemma filter_by_date_steps (start_date end_date : Timestamp) (inplace : bool)
    (self : DataFrameProcessor) :
  filter_by_date start_date end_date inplace self
  = match (series <- getitem (df self) (date_column self) ;;
           rmap (date_between start_date end_date) series)%result with
    | Raise e => (Raise e, self)
    | Ok mask =>
        if inplace then (Ok None, with_df self (getitem_mask (df self) mask))
        else (Ok (Some (getitem_mask (df self) mask)), self)
    end.
Proof.
  unfold filter_by_date. run.
  destruct (getitem _ _) as [series|e]; simpl; [|reflexivity].
  destruct (rmap _ series); [|reflexivity]. now destruct inplace.
Qed.

Lemma add_prediction_outcome (label : string) (last_n_rows : Z)
    (predict : DataFrame -> result prediction) (inplace : bool)
    (self : DataFrameProcessor) :
  withGraph self = true ->
  add_prediction label last_n_rows predict inplace self
  = match (selected <- selected_rows self last_n_rows ;;
           value <- predict selected ;;
           setitem selected (target self) value)%result with
    | Raise e => (Raise e, self)
    | Ok written =>
        let data :=
          concat [df self;
                  setitem_scalar written (graph self) (Val (SStr label))] in
        if inplace then (Ok None, with_df self data)
        else (Ok (Some data), self)
    end.
Proof.
  intros Hg. unfold add_prediction, selected_rows. run. rewrite Hg. simpl.
  destruct (getitem _ _) as [series|e]; simpl; [|reflexivity].
  unfold copy.
  destruct (predict _) as [value|e]; simpl; [|reflexivity].
  destruct (setitem _ _ value) as [written|e]; [|reflexivity].
  now destruct inplace.
Qed.

(** The five transforming methods are all-or-nothing: a call changes at
    most the table of the object, never its configuration or bounds;
    when it raises, and whenever [inplace] is false, the object is
    exactly as before.  ([reset_df] is not: it stores the copy before
    it parses it.) *)
Theorem transformations_are_all_or_nothing :
  forall (self : DataFrameProcessor)
         (filters : list (string * filter_value))
         (start_date end_date : Timestamp)
         (label : string) (last_n_rows : Z)
         (predict : DataFrame -> result prediction),
    all_or_nothing (filter_by_specified_columns filters) self
    /\ all_or_nothing aggregate self
    /\ all_or_nothing (aggregate_by_timespan start_date end_date) self
    /\ all_or_nothing (add_prediction label last_n_rows predict) self
    /\ all_or_nothing (filter_by_date start_date end_date) self.
Proof.
  intros self filters start_date end_date label last_n_rows predict.
  split; [|split; [|split; [|split]]]; intros inplace.
  - rewrite filter_by_specified_columns_steps.
    apply (hand_over_all_or_nothing _ (getitem_mask (df self))).
  - rewrite aggregate_steps.
    apply (hand_over_all_or_nothing _
             (fun grouped => setitem_scalar grouped (graph self)
                                            (Val (SStr (target self))))).
  - destruct (aggregate_by_timespan_rule start_date end_date inplace self)
      as [rule ->].
    rewrite resample_with_steps.
    apply (hand_over_all_or_nothing _
             (fun sampled => setitem_scalar sampled (graph self)
                                            (Val (SStr (target self))))).
  - destruct (withGraph self) eqn:Hg.
    + rewrite (add_prediction_outcome _ _ _ _ _ Hg).
      apply (hand_over_all_or_nothing _
               (fun written =>
                  concat [df self;
                          setitem_scalar written (graph self)
                                         (Val (SStr label))])).
    + unfold add_prediction. run. rewrite Hg. simpl.
      split; [exists (df self); now rewrite with_df_same|].
      split; [discriminate | reflexivity].
  - rewrite filter_by_date_steps.
    apply (hand_over_all_or_nothing _ (getitem_mask (df self))).
Qed.

End Frame.

(** ** More on [aggregate] *)

Section AggregateAlgebra.

Import pd pd_facts.

Lemma numeric_only_TypeError (c : cell) (e : error) :
  numeric c = Raise e -> e = TypeError.
Proof. destruct c as [|[z|s|d]]; simpl; congruence. Qed.

Lemma numeric_fails (c : cell) : ~ numeric_cell c -> forall z, numeric c <> Ok z.
Proof. destruct c as [|[z|s|d]]; simpl; intros H z0; tauto || discriminate. Qed.

Lemma rmap_numeric_inv (col : list cell) (vals : list Z) :
  rmap numeric col = Ok vals ->
  Forall numeric_cell col /\ vals = map numeric_or_zero col.
Proof.
  intros H.
  assert (Hall : Forall numeric_cell col).
  { apply Forall_forall. intros c Hc.
    destruct (rmap_ok _ _ _ H c Hc) as [z Hz].
    destruct c as [|[z0|s|d]]; simpl in *; auto; discriminate. }
  split; [exact Hall|].
  rewrite (rmap_numeric _ Hall) in H. congruence.
Qed.

(** What a successful [groupby] sum tells. *)
Lemma groupby_sum_ok (frame grouped : DataFrame) (key target : string) :
  groupby_sum frame key target = Ok grouped ->
  In key (columns frame) /\ In target (columns frame) /\ key <> target
  /\ Forall numeric_cell (map (get target) (rows frame))
  /\ grouped
     = frame_of_sums key target
         (group_sums (map (fun r => (get key r, numeric_or_zero (get target r)))
                          (rows frame)) []).
Proof.
  unfold groupby_sum, getitem. intros H.
  destruct (mem key (columns frame)) eqn:Hk; [|discriminate].
  destruct (mem target (columns frame)) eqn:Ht; [|discriminate].
  simpl in H.
  destruct (rmap numeric _) as [vals|e] eqn:Hvals; [|discriminate].
  simpl in H.
  destruct (String.eqb key target) eqn:Hkt; [discriminate|].
  apply rmap_numeric_inv in Hvals as [Hnum ->].
  injection H as <-. rewrite map_map, combine_map.
  repeat split; try (now apply mem_In); try assumption.
  now apply String.eqb_neq.
Qed.

Lemma aggregate_ok (self self' : DataFrameProcessor) (inplace : bool)
    (out : option DataFrame) :
  aggregate inplace self = (Ok out, self') ->
  exists grouped,
    groupby_sum (df self) (date_column self) (target self) = Ok grouped
    /\ match out with Some d => d | None => df self' end
       = setitem_scalar grouped (graph self) (Val (SStr (target self)))
    /\ self' = (if inplace
                then with_df self (setitem_scalar grouped (graph self)
                                                   (Val (SStr (target self))))
                else self)
    /\ out = (if inplace then None
              else Some (setitem_scalar grouped (graph self)
                                        (Val (SStr (target self))))).
Proof.
  rewrite aggregate_steps.
  destruct (groupby_sum _ _ _) as [grouped|e]; [|discriminate].
  intros H. exists grouped. split; [reflexivity|].
  destruct inplace; injection H as <- <-; auto.
Qed.

(** Columns of a table of sums, read back. *)
Lemma frame_of_sums_keys (key target : string) (sums : list (scalar * Z)) :
  map (get key) (rows (frame_of_sums key target sums))
  = map (fun kv => Val (fst kv)) sums.
Proof.
  unfold frame_of_sums, relabel. simpl. rewrite get_relabel_from, map_map.
  apply map_ext. intros kv. unfold get. simpl. now rewrite String.eqb_refl.
Qed.

Lemma frame_of_sums_values (key target : string) (sums : list (scalar * Z)) :
  key <> target ->
  map (get target) (rows (frame_of_sums key target sums))
  = map (fun kv => Val (SInt (snd kv))) sums.
Proof.
  intros Hne. unfold frame_of_sums, relabel. simpl.
  rewrite get_relabel_from, map_map.
  apply map_ext. intros kv. unfold get. simpl.
  apply String.eqb_neq in Hne. now rewrite Hne, String.eqb_refl.
Qed.

Lemma column_total_map (c : string) (rs : list Row) :
  column_total c rs = fold_right Z.add 0 (map numeric_or_zero (map (get c) rs)).
Proof. unfold column_total. now rewrite map_map. Qed.

Lemma exact_add_group_total (k : scalar) (v : Z) (acc : list (scalar * Z)) :
  sums_total (exact_add_group k v acc) = sums_total acc + v.
Proof.
  unfold sums_total. induction acc as [|[k' s] acc IH]; simpl; [lia|].
  destruct (scalar_compare k k'); simpl; lia.
Qed.

Lemma exact_group_sums_total (key : string) (f : Row -> Z) (rs : list Row) :
  forall acc : list (scalar * Z),
    sums_total (exact_group_sums (map (fun r => (get key r, f r)) rs) acc)
    = sums_total acc
      + fold_right Z.add 0 (map f (dated_rows key rs)).
Proof.
  unfold dated_rows.
  induction rs as [|r rs IH]; intros acc; simpl; [lia|].
  destruct (get key r) as [|k]; simpl.
  - apply IH.
  - rewrite IH, exact_add_group_total. lia.
Qed.

Lemma wrap_int64_add_r (a b : Z) :
  wrap_int64 (a + wrap_int64 b) = wrap_int64 (a + b).
Proof. rewrite Z.add_comm, wrap_int64_add_l. f_equal. lia. Qed.

(** The total of sums kept in 64 bits is the exact total, up to
    wrap-around; it is the exact total when every sum fits. *)
Lemma sums_total_wrapped (sums : list (scalar * Z)) :
  wrap_int64 (sums_total (wrapped sums)) = wrap_int64 (sums_total sums).
Proof.
  unfold sums_total, wrapped.
  induction sums as [|[k s] sums IH]; simpl; [reflexivity|].
  rewrite wrap_int64_add_l.
  rewrite <- wrap_int64_add_r, IH, wrap_int64_add_r. reflexivity.
Qed.

Lemma sums_total_fit (sums : list (scalar * Z)) :
  (forall k s, In (k, s) sums -> int64_min <= s <= int64_max) ->
  sums_total (wrapped sums) = sums_total sums.
Proof.
  unfold sums_total, wrapped.
  induction sums as [|[k s] sums IH]; intros H; simpl; [reflexivity|].
  rewrite wrap_int64_small by (apply (H k); now left).
  rewrite IH; [reflexivity|]. intros k' s' Hin. apply (H k'). now right.
Qed.



(** Recording a key above all keys met so far appends it. *)
Lemma add_group_last (k : scalar) (v : Z) (acc : list (scalar * Z)) :
  Forall (fun k' => scalar_lt k' k) (map fst acc) ->
  add_group k v acc = (acc ++ [(k, wrap_int64 v)])%list.
Proof.
  induction acc as [|[k' s] acc IH]; intros H; simpl; [reflexivity|].
  inversion H as [|? ? Hlt Hrest]; subst. simpl in Hlt.
  rewrite scalar_compare_antisym. unfold scalar_lt in Hlt. rewrite Hlt. simpl.
  now rewrite IH.
Qed.

Lemma sorted_before {A : Type} (R : A -> A -> Prop) (a b : list A) (x : A) :
  StronglySorted R (a ++ x :: b) -> Forall (fun y => R y x) a.
Proof.
  induction a as [|y a IH]; intros H; simpl in *; [constructor|].
  inversion H as [|? ? Hs Hall]; subst. constructor.
  - rewrite Forall_forall in Hall. apply Hall, in_or_app. right. now left.
  - now apply IH.
Qed.

(** Grouping groups that are sorted already gives them back, their
    sums kept in 64 bits. *)
Lemma group_sums_of_sorted (l2 : list (scalar * Z)) :
  forall l1 : list (scalar * Z),
    StronglySorted scalar_lt (map fst (l1 ++ l2)) ->
    group_sums (map (fun kv => (Val (fst kv), snd kv)) l2) l1
    = (l1 ++ wrapped l2)%list.
Proof.
  induction l2 as [|[k v] l2 IH]; intros l1 H; simpl.
  - now rewrite app_nil_r.
  - rewrite add_group_last.
    + rewrite IH; rewrite <- app_assoc; [reflexivity|].
      rewrite !map_app in *. exact H.
    + rewrite map_app in H. simpl in H. now apply sorted_before in H.
Qed.

(** [aggregate] is idempotent: on a table that [aggregate] has
    produced (series column distinct from the date and target
    columns), a second call gives the same table again. *)
Theorem aggregate_twice_is_aggregate_once :
  forall (self self1 : DataFrameProcessor),
    aggregate true self = (Ok None, self1) ->
    graph self <> date_column self ->
    graph self <> target self ->
    aggregate true self1 = (Ok None, self1)
    /\ aggregate false self1 = (Ok (Some (df self1)), self1).
Proof.
  intros self self1 H Hgd Hgt.
  destruct (aggregate_ok _ _ _ _ H) as [grouped [Hgrouped [_ [-> _]]]].
  apply groupby_sum_ok in Hgrouped as [_ [_ [Hne [_ ->]]]].
  set (sums := group_sums _ []).
  assert (Hsorted : StronglySorted scalar_lt (map fst sums))
    by apply group_sums_sorted.
  assert (Hkept : wrapped sums = sums)
    by (unfold sums; rewrite group_sums_exact; apply wrapped_wrapped).
  assert (Hpairs := sums_of_labelled (date_column self) (target self)
                      (graph self) (Val (SStr (target self))) sums
                      Hne Hgd Hgt).
  set (data := setitem_scalar _ (graph self) _) in *.
  assert (Hagain : groupby_sum data (date_column self) (target self)
                   = Ok (frame_of_sums (date_column self) (target self) sums)).
  { unfold groupby_sum, getitem.
    assert (Hcols : columns data
                    = [date_column self; target self; graph self]).
    { unfold data. simpl. unfold add_column. simpl.
      apply String.eqb_neq in Hgd, Hgt.
      now rewrite Hgd, Hgt. }
    assert (Hmd : mem (date_column self)
                    [date_column self; target self; graph self] = true)
      by (apply mem_In; simpl; auto).
    assert (Hmt : mem (target self)
                    [date_column self; target self; graph self] = true)
      by (apply mem_In; simpl; auto).
    assert (Hkeys : map (get (date_column self)) (rows data)
                    = map (fun kv => Val (fst kv)) sums).
    { transitivity (map fst (sums_of (date_column self) (target self) data)).
      - unfold sums_of. now rewrite map_map.
      - rewrite Hpairs. now rewrite map_map. }
    assert (Hvals : map (get (target self)) (rows data)
                    = map (fun kv => Val (SInt (snd kv))) sums).
    { transitivity (map snd (sums_of (date_column self) (target self) data)).
      - unfold sums_of. now rewrite map_map.
      - rewrite Hpairs. now rewrite map_map. }
    rewrite Hcols, Hmd, Hmt. cbn [rbind]. rewrite Hkeys, Hvals.
    rewrite rmap_numeric
      by (apply Forall_forall; intros c Hc;
          apply in_map_iff in Hc as [kv [<- _]]; exact I).
    cbn [rbind]. apply String.eqb_neq in Hne. rewrite Hne.
    rewrite map_map. cbn [numeric_or_zero].
    rewrite combine_map.
    now rewrite (group_sums_of_sorted sums []), Hkept. }
  rewrite !aggregate_steps. simpl. rewrite Hagain. simpl.
  fold data. split; reflexivity.
Qed.

Lemma aggregate_twice_is_aggregate_once_witness :
  aggregate true (snd (aggregate true Samples.actual))
  = (Ok None, snd (aggregate true Samples.actual)).
Proof.
  refine (proj1 (aggregate_twice_is_aggregate_once Samples.actual _
                   eq_refl _ _)); discriminate.
Defined.

Lemma aggregate_missing_target (self : DataFrameProcessor) (inplace : bool) :
  ~ In (target self) (columns (df self)) ->
  aggregate inplace self = (Raise KeyError, self).
Proof.
  intros H. apply mem_not_In in H.
  rewrite aggregate_steps. unfold groupby_sum, getitem. rewrite H.
  now destruct (mem (date_column self) (columns (df self))).
Qed.



Lemma aggregate_by_timespan_offset (start_date end_date : Timestamp)
    (inplace : bool) (self : DataFrameProcessor) :
  exists rule f,
    to_offset rule = Ok f
    /\ aggregate_by_timespan start_date end_date inplace self
       = resample_with rule inplace self.
Proof.
  unfold aggregate_by_timespan, resample_with.
  destruct (Timedelta_days _ >? 365); [now exists "M", MonthEnd|].
  destruct (Timedelta_days _ >? 90);
    [now exists "W", Week | now exists "D", Day].
Qed.



End AggregateAlgebra.

(** ** More on [aggregate_by_timespan] *)

Section ResampleAlgebra.

Import pd pd_facts.

Lemma dated_of_rows (key : string) (f : Row -> Z) (rs : list Row) :
  forall days : list (option Z),
    rmap day_of (map (get key) rs) = Ok days ->
    dated days (map f rs)
    = flat_map (fun r => match get key r with
                         | Val (SDate d) => [(d, f r)]
                         | _ => []
                         end) rs.
Proof.
  induction rs as [|r rs IH]; intros days H; simpl in *.
  - injection H as <-. reflexivity.
  - destruct (day_of (get key r)) as [od|e] eqn:Hd; [|discriminate].
    destruct (rmap day_of _) as [ds|e]; [|discriminate].
    injection H as <-.
    destruct (get key r) as [|[z|s|d]]; simpl in Hd; try discriminate;
      injection Hd as <-; simpl; now rewrite (IH ds).
Qed.

Lemma rmap_day_of_inv (col : list cell) (days : list (option Z)) :
  rmap day_of col = Ok days -> Forall date_or_missing col.
Proof.
  intros H. apply Forall_forall. intros c Hc.
  destruct (rmap_ok _ _ _ H c Hc) as [d Hd].
  destruct c as [|[z|s|d0]]; simpl in Hd; try discriminate;
    [now left | right; eauto].
Qed.

(** What a successful resampling tells. *)
Lemma resample_sum_ok (frame sampled : DataFrame) (rule key target : string) :
  resample_sum frame rule key target = Ok sampled ->
  exists f,
    to_offset rule = Ok f
    /\ In key (columns frame) /\ In target (columns frame) /\ key <> target
    /\ Forall date_or_missing (map (get key) (rows frame))
    /\ sampled
       = frame_of_sums key target
           (bucket_sums f (dated_values key target (rows frame))).
Proof.
  unfold resample_sum, getitem. intros H.
  destruct (to_offset rule) as [f|e]; [|discriminate]. simpl in H.
  destruct (mem key (columns frame)) eqn:Hk; [|discriminate]. simpl in H.
  destruct (rmap day_of _) as [days|e] eqn:Hdays; [|discriminate].
  simpl in H.
  destruct (range_edges days) as [edges|e]; [|discriminate].
  cbn [rbind] in H.
  destruct (mem target (columns frame)) eqn:Ht; [|discriminate]. simpl in H.
  destruct (rmap numeric _) as [vals|e] eqn:Hvals; [|discriminate].
  simpl in H.
  destruct (String.eqb key target) eqn:Hkt; [discriminate|].
  apply rmap_numeric_inv in Hvals as [_ ->].
  injection H as <-. exists f.
  rewrite map_map, (dated_of_rows _ _ _ _ Hdays).
  repeat split; try (now apply mem_In).
  - now apply String.eqb_neq.
  - now apply rmap_day_of_inv in Hdays.
Qed.

(** Whether some row of a list carries a date can be decided. *)
Lemma classic_dated (key : string) (rs : list Row) :
  (exists r d, In r rs /\ get key r = Val (SDate d))
  \/ ~ (exists r d, In r rs /\ get key r = Val (SDate d)).
Proof.
  induction rs as [|r rs [IH|IH]].
  - right. intros [r [d [[] _]]].
  - left. destruct IH as [r' [d [Hr Hd]]]. exists r', d. split; [now right|].
    assumption.
  - destruct (get key r) as [|[z|s|d]] eqn:E.
    + right. intros [r' [d' [[<-|Hr] Hd]]]; [congruence|].
      apply IH. now exists r', d'.
    + right. intros [r' [d' [[<-|Hr] Hd]]]; [congruence|].
      apply IH. now exists r', d'.
    + right. intros [r' [d' [[<-|Hr] Hd]]]; [congruence|].
      apply IH. now exists r', d'.
    + left. exists r, d. split; [now left | assumption].
Qed.

Lemma aggregate_by_timespan_ok (start_date end_date : Timestamp)
    (self self' : DataFrameProcessor) (inplace : bool)
    (out : option DataFrame) :
  aggregate_by_timespan start_date end_date inplace self = (Ok out, self') ->
  In (date_column self) (columns (df self))
  /\ In (target self) (columns (df self))
  /\ date_column self <> target self
  /\ Forall date_or_missing (map (get (date_column self)) (rows (df self)))
  /\ (rows (df self) = []
      \/ exists r d, In r (rows (df self))
                     /\ get (date_column self) r = Val (SDate d))
  /\ match out with Some d => d | None => df self' end
     = setitem_scalar
         (frame_of_sums (date_column self) (target self)
            (bucket_sums (chosen_offset start_date end_date)
               (dated_values (date_column self) (target self)
                             (rows (df self)))))
         (graph self) (Val (SStr (target self))).
Proof.
  intros H.
  assert (Hrun : exists rule,
             to_offset rule = Ok (chosen_offset start_date end_date)
             /\ aggregate_by_timespan start_date end_date inplace self
                = resample_with rule inplace self).
  { unfold aggregate_by_timespan, resample_with, chosen_offset.
    destruct (Timedelta_days _ >? 365); [now exists "M"|].
    destruct (Timedelta_days _ >? 90); [now exists "W" | now exists "D"]. }
  destruct Hrun as [rule [Hoff Hrun]].
  rewrite Hrun, resample_with_steps in H.
  destruct (resample_sum _ _ _ _) as [sampled|e] eqn:Hs; [|discriminate].
  assert (Hsome : rows (df self) = []
                  \/ exists r d, In r (rows (df self))
                                 /\ get (date_column self) r = Val (SDate d)).
  { destruct (rows (df self)) as [|r0 rs] eqn:Hrows; [now left|]. right.
    destruct (in_dec String.string_dec (date_column self) (columns (df self)))
      as [Hc|Hc].
    - destruct (classic_dated (date_column self) (r0 :: rs))
        as [Hex|Hnone]; [exact Hex|].
      exfalso. unfold resample_sum, getitem in Hs.
      destruct (to_offset rule); [|discriminate]. cbn [rbind] in Hs.
      apply mem_In in Hc. rewrite Hc, Hrows in Hs. cbn [rbind] in Hs.
      destruct (rmap day_of (map (get (date_column self)) (r0 :: rs)))
        as [days|e] eqn:Hdays; [|discriminate].
      cbn [rbind] in Hs.
      rewrite (range_edges_raises _ _ Hdays) in Hs; [discriminate
                                                    |discriminate|].
      intros c Hc'. apply in_map_iff in Hc' as [r [<- Hr]].
      destruct (rmap_ok _ _ _ Hdays (get (date_column self) r)
                        (in_map _ _ _ Hr)) as [o Ho].
      destruct (get (date_column self) r) as [|[z|s|d]] eqn:E;
        try discriminate; [reflexivity|].
      elim Hnone. now exists r, d.
    - exfalso. unfold resample_sum, getitem in Hs.
      destruct (to_offset rule); [|discriminate]. cbn [rbind] in Hs.
      apply mem_not_In in Hc. now rewrite Hc in Hs. }
  apply resample_sum_ok in Hs as [f [Hf [Hd [Ht [Hne [Hdays ->]]]]]].
  assert (f = chosen_offset start_date end_date) as -> by congruence.
  repeat split; try assumption.
  destruct inplace; injection H as <- <-; reflexivity.
Qed.

(** Sums over buckets: the sum the code keeps is the exact sum, kept
    in 64 bits. *)
Lemma sum_bin_fold (f : freq) (k : Z) (dvs : list (Z * Z)) :
  sum_bin f k dvs = wrap_int64 (exact_sum_bin f k dvs).
Proof.
  unfold sum_bin, exact_sum_bin.
  assert (H : forall acc,
             wrap_int64 acc = acc ->
             fold_left (fun a dv => if bin_of f (fst dv) =? k
                                    then int64_add a (snd dv) else a) dvs acc
             = wrap_int64
                 (acc + fold_right Z.add 0
                          (map (fun dv => if bin_of f (fst dv) =? k
                                          then snd dv else 0) dvs))).
  { induction dvs as [|dv dvs IH]; intros acc Hacc; simpl.
    - now rewrite Z.add_0_r.
    - destruct (bin_of f (fst dv) =? k).
      + rewrite IH by apply wrap_int64_idem.
        unfold int64_add. rewrite wrap_int64_add_l. f_equal. lia.
      + rewrite IH by assumption. f_equal. }
  now rewrite H.
Qed.

Lemma bucket_sums_exact (f : freq) (dvs : list (Z * Z)) :
  bucket_sums f dvs = wrapped (exact_bucket_sums f dvs).
Proof.
  unfold bucket_sums, exact_bucket_sums, wrapped.
  destruct (min_list _); [|reflexivity].
  destruct (max_list _); [|reflexivity].
  rewrite map_map. apply map_ext. intros k. simpl.
  now rewrite sum_bin_fold.
Qed.

Lemma fold_min_spec (l : list Z) :
  forall x, let m := fold_left Z.min l x in
            (m = x \/ In m l) /\ m <= x /\ Forall (fun y => m <= y) l.
Proof.
  induction l as [|y l IH]; intros x; simpl.
  - split; [now left|]. split; [lia | constructor].
  - destruct (IH (Z.min x y)) as [Hin [Hle Hall]].
    split; [|split].
    + destruct Hin as [Hin|Hin]; [|now right; right].
      rewrite Hin. destruct (Z.min_spec x y) as [[_ ->]|[_ ->]]; auto.
    + lia.
    + constructor; [lia | exact Hall].
Qed.

Lemma fold_max_spec (l : list Z) :
  forall x, let m := fold_left Z.max l x in
            (m = x \/ In m l) /\ x <= m /\ Forall (fun y => y <= m) l.
Proof.
  induction l as [|y l IH]; intros x; simpl.
  - split; [now left|]. split; [lia | constructor].
  - destruct (IH (Z.max x y)) as [Hin [Hle Hall]].
    split; [|split].
    + destruct Hin as [Hin|Hin]; [|now right; right].
      rewrite Hin. destruct (Z.max_spec x y) as [[_ ->]|[_ ->]]; auto.
    + lia.
    + constructor; [lia | exact Hall].
Qed.

Lemma min_list_spec (l : list Z) (m : Z) :
  min_list l = Some m <-> In m l /\ Forall (fun y => m <= y) l.
Proof.
  destruct l as [|x l]; simpl.
  - split; [discriminate | tauto].
  - destruct (fold_min_spec l x) as [Hin [Hle Hall]]. split.
    + intros H. injection H as <-.
      split; [|now constructor].
      destruct Hin as [Hin|Hin]; [left; now rewrite Hin | now right].
    + intros [Hm Hall']. f_equal.
      assert (H1 : m <= fold_left Z.min l x).
      { rewrite Forall_forall in Hall'. apply Hall'. simpl.
        destruct Hin as [Hin|Hin]; [left; now rewrite Hin | now right]. }
      assert (H2 : fold_left Z.min l x <= m).
      { destruct Hm as [<-|Hm]; [exact Hle|].
        rewrite Forall_forall in Hall. now apply Hall. }
      lia.
Qed.

Lemma max_list_spec (l : list Z) (m : Z) :
  max_list l = Some m <-> In m l /\ Forall (fun y => y <= m) l.
Proof.
  destruct l as [|x l]; simpl.
  - split; [discriminate | tauto].
  - destruct (fold_max_spec l x) as [Hin [Hle Hall]]. split.
    + intros H. injection H as <-.
      split; [|now constructor].
      destruct Hin as [Hin|Hin]; [left; now rewrite Hin | now right].
    + intros [Hm Hall']. f_equal.
      assert (H1 : fold_left Z.max l x <= m).
      { rewrite Forall_forall in Hall'. apply Hall'. simpl.
        destruct Hin as [Hin|Hin]; [left; now rewrite Hin | now right]. }
      assert (H2 : m <= fold_left Z.max l x).
      { destruct Hm as [<-|Hm]; [exact Hle|].
        rewrite Forall_forall in Hall. now apply Hall. }
      lia.
Qed.

Lemma sum_app (l1 l2 : list Z) :
  fold_right Z.add 0 (l1 ++ l2)
  = fold_right Z.add 0 l1 + fold_right Z.add 0 l2.
Proof. induction l1 as [|x l1 IH]; simpl; lia. Qed.

(** A bucket between the first and the last is met exactly once. *)
Lemma bins_between_once (lo hi b v : Z) :
  lo <= b <= hi ->
  fold_right Z.add 0
    (map (fun k => if b =? k then v else 0) (bins_between lo hi)) = v.
Proof.
  intros Hb. unfold bins_between. rewrite map_map.
  assert (H : forall n : nat,
             fold_right Z.add 0
               (map (fun i => if b =? lo + Z.of_nat i then v else 0) (seq 0 n))
             = if b <? lo + Z.of_nat n then v else 0).
  { induction n as [|n IH].
    - simpl. destruct (b <? lo + 0) eqn:E; [apply Z.ltb_lt in E; lia|].
      reflexivity.
    - rewrite seq_S, map_app, sum_app, IH, Nat.add_0_l.
      cbn [map fold_right]. rewrite Nat2Z.inj_succ.
      destruct (Z.ltb_spec b (lo + Z.of_nat n));
        destruct (Z.eqb_spec b (lo + Z.of_nat n));
        destruct (Z.ltb_spec b (lo + Z.succ (Z.of_nat n))); lia. }
  rewrite H.
  destruct (b <? lo + Z.of_nat (Z.to_nat (hi - lo + 1))) eqn:E;
    [reflexivity|]. apply Z.ltb_ge in E. lia.
Qed.

Lemma sum_of_sums (ks : list Z) (a b : Z -> Z) :
  fold_right Z.add 0 (map (fun k => a k + b k) ks)
  = fold_right Z.add 0 (map a ks) + fold_right Z.add 0 (map b ks).
Proof. induction ks as [|k ks IH]; simpl; lia. Qed.

(** The exact sums of the buckets add up to the total of the values. *)
Lemma exact_bucket_sums_total (f : freq) (dvs : list (Z * Z)) :
  sums_total (exact_bucket_sums f dvs) = fold_right Z.add 0 (map snd dvs).
Proof.
  unfold exact_bucket_sums.
  destruct (min_list _) as [lo|] eqn:Hlo.
  - destruct (max_list _) as [hi|] eqn:Hhi.
    + apply min_list_spec in Hlo as [_ Hlo].
      apply max_list_spec in Hhi as [_ Hhi].
      unfold sums_total. rewrite map_map. simpl.
      rewrite Forall_forall in Hlo, Hhi.
      assert (Hin : forall dv, In dv dvs -> lo <= bin_of f (fst dv) <= hi).
      { intros dv Hdv. split; [apply Hlo | apply Hhi];
          now apply (in_map (fun dv => bin_of f (fst dv))). }
      clear Hlo Hhi.
      induction dvs as [|dv dvs IH].
      * simpl. induction (bins_between lo hi); simpl; [reflexivity | lia].
      * simpl.
        rewrite (map_ext (fun k => exact_sum_bin f k (dv :: dvs))
                         (fun k => (if bin_of f (fst dv) =? k
                                    then snd dv else 0)
                                   + exact_sum_bin f k dvs)).
        -- rewrite sum_of_sums, bins_between_once by (apply Hin; now left).
           rewrite IH; [reflexivity|]. intros x Hx. apply Hin. now right.
        -- intros k. reflexivity.
    + destruct dvs; [reflexivity | discriminate].
  - destruct dvs; [reflexivity | discriminate].
Qed.

Lemma dated_values_total (date target : string) (rs : list Row) :
  Forall date_or_missing (map (get date) rs) ->
  fold_right Z.add 0 (map snd (dated_values date target rs))
  = column_total target (dated_rows date rs).
Proof.
  unfold dated_values, dated_rows, column_total.
  induction rs as [|r rs IH]; intros H; simpl in *; [reflexivity|].
  inversion H as [|? ? Hr Hrest]; subst.
  destruct Hr as [->|[d ->]]; simpl; rewrite IH; auto.
Qed.

(** No bucket holds more than all the amounts together. *)
Lemma exact_sum_bin_bound (f : freq) (k : Z) (dvs : list (Z * Z)) :
  Z.abs (exact_sum_bin f k dvs)
  <= fold_right Z.add 0 (map (fun dv => Z.abs (snd dv)) dvs).
Proof.
  unfold exact_sum_bin.
  induction dvs as [|dv dvs IH]; simpl; [lia|].
  destruct (bin_of f (fst dv) =? k); lia.
Qed.

Lemma dated_values_magnitude (date target : string) (rs : list Row) :
  fold_right Z.add 0
    (map (fun dv => Z.abs (snd dv)) (dated_values date target rs))
  <= magnitude target rs.
Proof.
  unfold dated_values, magnitude.
  induction rs as [|r rs IH]; simpl; [lia|].
  rewrite map_app, sum_app.
  destruct (get date r) as [|[z|s|d]]; simpl; lia.
Qed.

Lemma exact_bucket_sums_fit (f : freq) (dvs : list (Z * Z)) (k : scalar)
    (s : Z) :
  fold_right Z.add 0 (map (fun dv => Z.abs (snd dv)) dvs) <= int64_max ->
  In (k, s) (exact_bucket_sums f dvs) -> int64_min <= s <= int64_max.
Proof.
  intros Hsmall Hin. unfold exact_bucket_sums in Hin.
  destruct (min_list _); [|contradiction].
  destruct (max_list _); [|contradiction].
  apply in_map_iff in Hin as [b [Heq _]]. injection Heq as _ <-.
  pose proof (exact_sum_bin_bound f b dvs).
  unfold int64_min, int64_max in *. lia.
Qed.

(** [aggregate_by_timespan] neither loses nor invents amounts, whatever
    bucket size it chooses: on an [int64] target the target column of
    the result adds up to the total of the target over the rows that
    carry a date, up to the wrap-around of 64 bits, and to that very
    total when the amounts of the table, added up without their signs,
    fit 64 bits. *)
Theorem resampling_conserves_total :
  forall (start_date end_date : Timestamp)
         (self self' : DataFrameProcessor) (inplace : bool)
         (out : option DataFrame),
    aggregate_by_timespan start_date end_date inplace self = (Ok out, self') ->
    graph self <> target self ->
    Forall int64_cell (map (get (target self)) (rows (df self))) ->
    let data := match out with Some d => d | None => df self' end in
    let dated := dated_rows (date_column self) (rows (df self)) in
    wrap_int64 (column_total (target self) (rows data))
    = wrap_int64 (column_total (target self) dated)
    /\ (magnitude (target self) (rows (df self)) <= int64_max ->
        column_total (target self) (rows data)
        = column_total (target self) dated).
Proof.
  intros start_date end_date self self' inplace out H Hgt _ data dated.
  apply aggregate_by_timespan_ok in H as [_ [_ [Hne [Hdays [_ Hdata]]]]].
  set (dvs := dated_values (date_column self) (target self) (rows (df self)))
    in *.
  assert (Hout : column_total (target self) (rows data)
                 = sums_total
                     (wrapped (exact_bucket_sums
                                 (chosen_offset start_date end_date) dvs))).
  { unfold data. rewrite Hdata, column_total_map.
    unfold setitem_scalar. cbn [rows].
    rewrite map_set_get_other by congruence.
    rewrite (frame_of_sums_values _ _ _ Hne), map_map. cbn [numeric_or_zero].
    rewrite bucket_sums_exact. reflexivity. }
  assert (Hin : column_total (target self) dated
                = sums_total (exact_bucket_sums
                                (chosen_offset start_date end_date) dvs)).
  { rewrite exact_bucket_sums_total. symmetry.
    now apply dated_values_total. }
  rewrite Hout, Hin. split.
  - apply sums_total_wrapped.
  - intros Hfit. apply sums_total_fit. intros k s Hks.
    apply (exact_bucket_sums_fit _ _ _ _ (Z.le_trans _ _ _
             (dated_values_magnitude _ _ _) Hfit) Hks).
Qed.

Lemma resampling_conserves_total_witness :
  column_total "v"
    (rows (setitem_scalar
             (frame_of_sums "date" "v"
                (bucket_sums (chosen_offset Samples.new_year_2023
                                            Samples.new_year_2024)
                   (dated_values "date" "v" (rows (df Samples.plain)))))
             "series" (Val (SStr "v"))))
  = column_total "v" (dated_rows "date" (rows (df Samples.plain))).
Proof.
  refine (proj2 (resampling_conserves_total Samples.new_year_2023
                   Samples.new_year_2024 Samples.plain Samples.plain false
                   (Some _) eq_refl _ _) _).
  - discriminate.
  - simpl. repeat apply Forall_cons; try apply Forall_nil;
      eexists; (split; [reflexivity | unfold int64_min, int64_max; lia]).
  - apply Z.leb_le. reflexivity.
Defined.

Lemma in_dated_values (date target : string) (rs : list Row) (d : Z) :
  In d (map fst (dated_values date target rs))
  <-> exists r, In r rs /\ get date r = Val (SDate d).
Proof.
  unfold dated_values. rewrite in_map_iff. split.
  - intros [[d' v] [Hd Hin]]. simpl in Hd. subst d'.
    apply in_flat_map in Hin as [r [Hr Hin]]. exists r. split; [assumption|].
    destruct (get date r) as [|[z|s|d0]]; simpl in Hin; try contradiction.
    destruct Hin as [Hin|[]]. now injection Hin as ->.
  - intros [r [Hr Hd]]. exists (d, numeric_or_zero (get target r)).
    split; [reflexivity|]. apply in_flat_map. exists r. split; [assumption|].
    rewrite Hd. now left.
Qed.

Lemma sum_bin_day_total (date target : string) (k : Z) (rs : list Row) :
  sum_bin Day k (dated_values date target rs)
  = wrap_int64 (total_at date target (SDate k) rs).
Proof.
  rewrite sum_bin_fold. f_equal.
  unfold exact_sum_bin, dated_values, total_at. cbn [bin_of].
  induction rs as [|r rs IH]; [reflexivity|].
  cbn [flat_map filter]. rewrite map_app, sum_app, IH.
  destruct (get date r) as [|[z|s|d]]; simpl; try lia.
  destruct (d =? k); simpl; lia.
Qed.

Lemma chosen_offset_day (start_date end_date : Timestamp) :
  Timedelta_days (end_date - start_date) <= 90 ->
  chosen_offset start_date end_date = Day.
Proof.
  intros H. unfold chosen_offset, to_datetime_scalar.
  destruct (Z.gtb_spec (Timedelta_days (end_date - start_date)) 365); [lia|].
  destruct (Z.gtb_spec (Timedelta_days (end_date - start_date)) 90); [lia|].
  reflexivity.
Qed.

(** With daily buckets (a day difference of at most 90)
    [aggregate_by_timespan] returns one row for every calendar day
    from the earliest date of the table to the latest, in order, also
    for the days on which the table has no row: each row holds the
    [int64] sum of the target over the rows of its day (their total,
    kept in 64 bits), 0 when there is none. *)
Theorem daily_buckets_cover_every_day :
  forall (start_date end_date : Timestamp)
         (self self' : DataFrameProcessor) (inplace : bool)
         (out : option DataFrame) (first last : Z),
    Timedelta_days (end_date - start_date) <= 90 ->
    aggregate_by_timespan start_date end_date inplace self = (Ok out, self') ->
    graph self <> date_column self ->
    graph self <> target self ->
    Forall int64_cell (map (get (target self)) (rows (df self))) ->
    (exists r, In r (rows (df self))
               /\ get (date_column self) r = Val (SDate first)) ->
    (exists r, In r (rows (df self))
               /\ get (date_column self) r = Val (SDate last)) ->
    (forall r d, In r (rows (df self)) ->
                 get (date_column self) r = Val (SDate d) ->
                 first <= d <= last) ->
    let data := match out with Some d => d | None => df self' end in
    let n := Z.to_nat (last - first + 1) in
    map (get (date_column self)) (rows data) = consecutive_days first n
    /\ map (get (target self)) (rows data)
       = map (fun i => Val (SInt (wrap_int64
                                    (total_at (date_column self) (target self)
                                              (SDate (first + Z.of_nat i))
                                              (rows (df self))))))
             (seq 0 n).
Proof.
  intros start_date end_date self self' inplace out first last
         Hdays H Hgd Hgt _ Hfirst Hlast Hall data n.
  apply aggregate_by_timespan_ok in H as [_ [_ [Hne [_ [_ Hdata]]]]].
  rewrite (chosen_offset_day _ _ Hdays) in Hdata.
  set (dvs := dated_values (date_column self) (target self) (rows (df self)))
    in *.
  assert (Hbins : bucket_sums Day dvs
                  = map (fun k => (SDate k, sum_bin Day k dvs))
                        (bins_between first last)).
  { unfold bucket_sums. simpl.
    assert (Hbounds : forall d, In d (map (fun dv => fst dv) dvs) ->
                                first <= d <= last).
    { intros d Hd. apply in_dated_values in Hd as [r [Hr Hd]]. eauto. }
    assert (Hlo : min_list (map (fun dv => fst dv) dvs) = Some first).
    { apply min_list_spec. split; [now apply in_dated_values|].
      apply Forall_forall. intros d Hd. now apply Hbounds. }
    assert (Hhi : max_list (map (fun dv => fst dv) dvs) = Some last).
    { apply max_list_spec. split; [now apply in_dated_values|].
      apply Forall_forall. intros d Hd. now apply Hbounds. }
    now rewrite Hlo, Hhi. }
  unfold data. rewrite Hdata, Hbins.
  unfold setitem_scalar. cbn [rows].
  rewrite !map_set_get_other by congruence.
  rewrite frame_of_sums_keys, (frame_of_sums_values _ _ _ Hne).
  unfold bins_between, consecutive_days. rewrite !map_map. cbn [fst snd].
  fold n. split; [reflexivity|].
  apply map_ext. intros i. unfold dvs. now rewrite sum_bin_day_total.
Qed.

Lemma daily_buckets_cover_every_day_witness :
  map (get "date")
      (rows (setitem_scalar
               (frame_of_sums "date" "v"
                  (bucket_sums (chosen_offset (midnight 19358) (midnight 19390))
                     (dated_values "date" "v" (rows (df Samples.plain)))))
               "series" (Val (SStr "v"))))
  = consecutive_days 19358 33.
Proof.
  refine (proj1 (daily_buckets_cover_every_day (midnight 19358) (midnight 19390)
                   Samples.plain Samples.plain false (Some _) 19358 19390
                   _ eq_refl _ _ _ _ _ _)).
  - vm_compute. discriminate.
  - discriminate.
  - discriminate.
  - simpl. repeat apply Forall_cons; try apply Forall_nil;
      eexists; (split; [reflexivity | unfold int64_min, int64_max; lia]).
  - eexists. split; [left; reflexivity | reflexivity].
  - eexists. split; [right; right; left; reflexivity | reflexivity].
  - intros r d [<-|[<-|[<-|[]]]] Hd; injection Hd as <-; lia.
Defined.

Lemma group_sums_undated (key : string) (f : Row -> Z) (rs : list Row) :
  (forall r, In r rs -> get key r = NA) ->
  forall acc, group_sums (map (fun r => (get key r, f r)) rs) acc = acc.
Proof.
  induction rs as [|r rs IH]; intros Hna acc; simpl; [reflexivity|].
  rewrite (Hna r) by now left. apply IH.
  intros r' Hr'. apply Hna. now right.
Qed.

Lemma dated_values_undated (date target : string) (rs : list Row) :
  (forall r, In r rs -> get date r = NA) -> dated_values date target rs = [].
Proof.
  unfold dated_values.
  induction rs as [|r rs IH]; intros Hna; simpl; [reflexivity|].
  rewrite (Hna r) by now left. apply IH.
  intros r' Hr'. apply Hna. now right.
Qed.



End ResampleAlgebra.

(** ** Which rows a prediction is made from *)

Section Selection.

Import pd pd_facts.

Lemma with_rows_same (frame : DataFrame) : with_rows frame (rows frame) = frame.
Proof. now destruct frame. Qed.

Lemma select_none (rs : list Row) (mask : list bool) :
  Forall (fun b => b = false) mask -> select mask rs = [].
Proof.
  revert rs. induction mask as [|b mask IH]; intros rs H; [reflexivity|].
  inversion H as [|? ? Hb Hrest]; subst.
  destruct rs as [|r rs]; simpl; auto.
Qed.

Lemma select_all (rs : list Row) :
  select (map (fun _ => true) rs) rs = rs.
Proof. induction rs as [|r rs IH]; simpl; [reflexivity | now rewrite IH]. Qed.

Lemma tail_of_empty (n : Z) (frame : DataFrame) :
  tail n (with_rows frame []) = with_rows frame [].
Proof.
  unfold tail, iloc_from, with_rows. simpl.
  destruct (n =? 0); [reflexivity|]. now rewrite skipn_nil.
Qed.

(** The selection when every row carries one and the same series
    value. *)
Lemma selected_rows_uniform (self : DataFrameProcessor) (n : Z) (s : string) :
  In (graph self) (columns (df self)) ->
  Forall (fun r => get (graph self) r = Val (SStr s)) (rows (df self)) ->
  selected_rows self n
  = Ok (if String.eqb s (target self) then tail n (df self)
        else with_rows (df self) []).
Proof.
  intros Hcol Hall. unfold selected_rows, getitem.
  apply mem_In in Hcol. rewrite Hcol. simpl. f_equal.
  unfold series_eq. rewrite map_map.
  destruct (String.eqb s (target self)) eqn:E.
  - rewrite (map_ext_in _ (fun _ => true)).
    + unfold getitem_mask. now rewrite select_all, with_rows_same.
    + intros r Hr. rewrite Forall_forall in Hall. rewrite (Hall r Hr).
      simpl. exact E.
  - unfold getitem_mask. rewrite select_none.
    + apply tail_of_empty.
    + apply Forall_forall. intros b Hb.
      apply in_map_iff in Hb as [r [<- Hr]].
      rewrite Forall_forall in Hall. rewrite (Hall r Hr). simpl. exact E.
Qed.

Lemma init_series (input : DataFrame) (exclude : list string)
    (date_col tgt lbl series : string) (self : DataFrameProcessor) :
  __init__ input exclude date_col tgt lbl series true = Ok self ->
  In series (columns (df self))
  /\ Forall (fun r => get series r = Val (SStr lbl)) (rows (df self))
  /\ graph self = series /\ target self = tgt /\ withGraph self = true.
Proof.
  unfold __init__. intros H.
  destruct (reset_index (copy input)) as [frame|e]; [|discriminate].
  simpl in H.
  destruct (getitem frame date_col) as [raw|e]; [|discriminate].
  simpl in H.
  destruct (to_datetime (astype_str raw)) as [dates|e]; [|discriminate].
  simpl in H.
  destruct (getitem _ date_col) as [col|e] in H; [|discriminate].
  simpl in H. injection H as <-. simpl.
  destruct (setitem_scalar_writes (setitem_aligned frame date_col dates)
              series (Val (SStr lbl))) as [Hcol Hall].
  repeat split; assumption.
Qed.

(** Right after construction no row can be predicted from: the rows
    carry the label, not the name of the target, so (unless the two are
    the same string) [add_prediction] selects no row, whatever
    [last_n_rows] is, and the prediction function only ever sees a table
    without rows. *)
Theorem nothing_selected_after_construction :
  forall (input : DataFrame) (exclude : list string)
         (date_col tgt lbl series : string) (self : DataFrameProcessor)
         (new_label : string) (last_n_rows : Z)
         (predict : DataFrame -> result prediction) (inplace : bool),
    __init__ input exclude date_col tgt lbl series true = Ok self ->
    lbl <> tgt ->
    selected_rows self last_n_rows = Ok (with_rows (df self) [])
    /\ add_prediction new_label last_n_rows predict inplace self
       = add_prediction new_label last_n_rows
           (fun _ => predict (with_rows (df self) [])) inplace self.
Proof.
  intros input exclude date_col tgt lbl series self new_label last_n_rows
         predict inplace H Hne.
  destruct (init_series _ _ _ _ _ _ _ H) as [Hcol [Hall [Hg [Ht Hw]]]].
  assert (Hsel : selected_rows self last_n_rows = Ok (with_rows (df self) [])).
  { rewrite (selected_rows_uniform self last_n_rows lbl).
    - rewrite Ht. apply String.eqb_neq in Hne. now rewrite Hne.
    - now rewrite Hg.
    - now rewrite Hg. }
  split; [exact Hsel|].
  now rewrite !(add_prediction_steps _ _ _ _ _ _ Hw Hsel).
Qed.

Lemma nothing_selected_after_construction_witness :
  selected_rows Samples.actual 5 = Ok (with_rows (df Samples.actual) []).
Proof.
  refine (proj1 (nothing_selected_after_construction Samples.raw [] "date" "v"
                   "actual" "series" Samples.actual "forecast" 5
                   (fun _ => Ok (PredList [])) false eq_refl _)).
  discriminate.
Defined.

(** After an in-place [aggregate] every row carries the name of the
    target, so [add_prediction] selects the last [last_n_rows] rows of
    the whole table.  The rows keep that name when the target is
    changed afterwards: [add_prediction] then looks for the new name
    and selects no row. *)
Theorem selection_follows_aggregation :
  forall (self self1 : DataFrameProcessor) (last_n_rows : Z)
         (other : string),
    aggregate true self = (Ok None, self1) ->
    selected_rows self1 last_n_rows = Ok (tail last_n_rows (df self1))
    /\ (other <> target self ->
        selected_rows (snd (change_target other self1)) last_n_rows
        = Ok (with_rows (df self1) [])).
Proof.
  intros self self1 last_n_rows other H.
  destruct (aggregate_ok _ _ _ _ H) as [grouped [_ [_ [-> _]]]].
  destruct (setitem_scalar_writes grouped (graph self)
              (Val (SStr (target self)))) as [Hcol Hall].
  split.
  - rewrite (selected_rows_uniform _ last_n_rows (target self)); try assumption.
    simpl. now rewrite String.eqb_refl.
  - intros Hne.
    rewrite (selected_rows_uniform _ last_n_rows (target self));
      try assumption.
    simpl. apply not_eq_sym in Hne. apply String.eqb_neq in Hne.
    now rewrite Hne.
Qed.

Lemma selection_follows_aggregation_witness :
  selected_rows (snd (change_target "index" (snd (aggregate true Samples.actual))))
                3
  = Ok (with_rows (df (snd (aggregate true Samples.actual))) []).
Proof.
  refine (proj2 (selection_follows_aggregation Samples.actual _ 3 "index"
                   eq_refl) _).
  discriminate.
Defined.

Lemma setitem_series_unique (frame : DataFrame) (c : string)
    (s : list (cell * cell)) :
  unique_labels s = true ->
  exists written,
    setitem frame c (PredSeries s) = Ok written
    /\ (rows frame <> [] -> nrows written = nrows frame).
Proof.
  intros Hu. unfold setitem.
  destruct (rows frame) as [|r rs] eqn:Hrows.
  - destruct s as [|kv s].
    + simpl. eexists. split; [reflexivity|]. intros Hne. now elim Hne.
    + eexists. split; [reflexivity|]. intros Hne. now elim Hne.
  - destruct s as [|kv s]; rewrite ?Hu;
      destruct (labels_eqb _ _); eexists; (split; [reflexivity|]);
      intros _; unfold nrows, setitem_aligned; simpl rows;
      rewrite Hrows; rewrite set_cells_length; reflexivity.
Qed.



End Selection.

(** ** Outcomes of construction and of [reset_df] *)

Section Construction.

Import pd pd_facts.

(** The date column read after the index has been reset. *)
Lemma reset_index_keeps_column (c name : string) (rs : list Row) :
  c <> name ->
  map (get c)
      (relabel (map (fun r => mkRow (row_label r) ((name, row_label r) :: cells r))
                    rs))
  = map (get c) rs.
Proof.
  intros Hne. unfold relabel. rewrite get_relabel_from, map_map.
  apply map_ext. intros r. unfold get. simpl.
  assert (E : String.eqb name c = false) by (apply String.eqb_neq; congruence).
  now rewrite E.
Qed.

(** The outcomes of construction.  A column that has the name the
    index reset needs is a [ValueError]; a date column the table has
    not is a [KeyError]; a date cell of eight digits that name no day
    of the calendar (or none a timestamp can hold) is a [ValueError];
    when every date cell is present and its text is a day in the form
    [%Y%m%d] (or a marker of a missing date) the object is
    constructed. *)
Theorem construction_outcomes :
  forall (input : DataFrame) (exclude : list string)
         (date_col tgt lbl series : string) (wg : bool),
    let name := reset_index_name input in
    (In name (columns input) ->
     __init__ input exclude date_col tgt lbl series wg = Raise ValueError)
    /\ (~ In name (columns input) -> date_col <> name ->
        ~ In date_col (columns input) ->
        __init__ input exclude date_col tgt lbl series wg = Raise KeyError)
    /\ (~ In name (columns input) -> In date_col (columns input) ->
        (exists r, In r (rows input)
                   /\ eight_digits (str_of_cell (get date_col r))
                   /\ ~ parses (get date_col r)) ->
        __init__ input exclude date_col tgt lbl series wg = Raise ValueError)
    /\ (~ In name (columns input) -> In date_col (columns input) ->
        (forall r, In r (rows input) ->
                   get date_col r <> NA /\ parses (get date_col r)) ->
        exists self,
          __init__ input exclude date_col tgt lbl series wg = Ok self).
Proof.
  intros input exclude date_col tgt lbl series wg name.
  unfold __init__, reset_index, copy. fold name.
  split; [|split; [|split]].
  - intros H. apply mem_In in H. now rewrite H.
  - intros Hname Hne Hcol. apply mem_not_In in Hname. rewrite Hname.
    cbn [rbind]. unfold getitem. cbn [columns mem existsb].
    apply String.eqb_neq in Hne. apply mem_not_In in Hcol.
    unfold mem in Hcol. now rewrite Hne, Hcol.
  - intros Hname Hcol [r [Hr [_ Hbad]]].
    assert (Hne : date_col <> name) by congruence.
    apply mem_not_In in Hname. rewrite Hname.
    cbn [rbind]. unfold getitem at 1. cbn [columns mem existsb rows].
    apply mem_In in Hcol. unfold mem in Hcol. rewrite Hcol, orb_true_r.
    cbn [rbind]. rewrite (reset_index_keeps_column _ _ _ Hne).
    unfold to_datetime, astype_str.
    rewrite (rmap_raises parse_yyyymmdd _ ValueError
               (str_of_cell (get date_col r))).
    + reflexivity.
    + exact parse_only_ValueError.
    + now apply in_map, in_map.
    + intros d Hd. apply Hbad. now exists d.
  - intros Hname Hcol Hall.
    assert (Hne : date_col <> name) by congruence.
    apply mem_not_In in Hname. rewrite Hname.
    cbn [rbind]. unfold getitem at 1. cbn [columns mem existsb rows].
    apply mem_In in Hcol. unfold mem in Hcol. rewrite Hcol, orb_true_r.
    cbn [rbind]. rewrite (reset_index_keeps_column _ _ _ Hne).
    unfold to_datetime, astype_str.
    destruct (rmap_ok_all parse_yyyymmdd
                (map str_of_cell (map (get date_col) (rows input))))
      as [dates ->].
    { intros s Hs. apply in_map_iff in Hs as [c [<- Hc]].
      apply in_map_iff in Hc as [r [<- Hr]]. exact (proj2 (Hall r Hr)). }
    cbn [rbind]. unfold getitem.
    assert (Hin : forall frame,
               In date_col (columns frame) ->
               mem date_col
                   (columns (if wg
                             then setitem_scalar frame series (Val (SStr lbl))
                             else frame)) = true).
    { intros frame Hf. apply mem_In. destruct wg; [|assumption].
      simpl. apply In_add_column. now right. }
    rewrite Hin.
    + cbn [rbind]. eauto.
    + simpl. apply In_add_column. now left.
Qed.

Lemma construction_outcomes_witness :
  __init__ Samples.raw [] "day" "v" "actual" "series" true = Raise KeyError
  /\ __init__ (mkDataFrame None ["date"; "v"]
                 [Samples.row 0 [("date", Val (SInt 20230230));
                                 ("v", Val (SInt 10))]])
              [] "date" "v" "actual" "series" true
     = Raise ValueError.
Proof.
  split.
  - refine (proj1 (proj2 (construction_outcomes Samples.raw [] "day" "v"
                            "actual" "series" true)) _ _ _).
    + simpl. intros [H|[H|[]]]; discriminate.
    + discriminate.
    + simpl. intros [H|[H|[]]]; discriminate.
  - refine (proj1 (proj2 (proj2 (construction_outcomes
                                   (mkDataFrame None ["date"; "v"]
                                      [Samples.row 0
                                         [("date", Val (SInt 20230230));
                                          ("v", Val (SInt 10))]])
                                   [] "date" "v" "actual" "series" true)))
                  _ _ _).
    + simpl. intros [H|[H|[]]]; discriminate.
    + simpl. now left.
    + exists (Samples.row 0 [("date", Val (SInt 20230230));
                             ("v", Val (SInt 10))]).
      split; [now left|]. split.
      * split; [reflexivity | discriminate].
      * intros [d Hd]. vm_compute in Hd. discriminate.
Defined.

Lemma list_ascii_of_app (a b : string) :
  list_ascii_of_string (a ++ b)
  = (list_ascii_of_string a ++ list_ascii_of_string b)%list.
Proof. induction a as [|c a IH]; simpl; [reflexivity | now rewrite IH]. Qed.

Lemma digits_value_none (l : list ascii) (c : ascii) :
  In c l -> digit_of c = None -> forall acc, digits_value acc l = None.
Proof.
  induction l as [|x l IH]; intros Hin Hc acc; [contradiction|].
  simpl. destruct Hin as [->|Hin].
  - now rewrite Hc.
  - destruct (digit_of x); [now apply IH | reflexivity].
Qed.

(** The text of a date cell has dashes in it: it is not of the form
    [%Y%m%d], and it is no marker of a missing date. *)
Lemma date_does_not_parse (d : Z) : ~ parses (Val (SDate d)).
Proof.
  intros [c Hc]. simpl in Hc. unfold iso_of_day in Hc.
  destruct (civil_from_days d) as [[y m] dd].
  set (s := (pad_left 4 (str_of_Z y) ++ "-" ++ pad_left 2 (str_of_Z m) ++ "-"
             ++ pad_left 2 (str_of_Z dd))%string) in *.
  assert (Hdash : In "-"%char (list_ascii_of_string s)).
  { unfold s. rewrite list_ascii_of_app. apply in_or_app. right.
    simpl. now left. }
  unfold parse_yyyymmdd in Hc.
  destruct (mem s nat_strings) eqn:Hnat.
  - apply mem_In in Hnat. unfold nat_strings in Hnat. simpl in Hnat.
    destruct Hnat as [E|[E|[E|[E|[E|[E|[E|[]]]]]]]];
      rewrite <- E in Hdash; simpl in Hdash;
      repeat match goal with
        | H : _ \/ _ |- _ => destruct H as [H|H]; [discriminate|]
        end; contradiction.
  - destruct (negb _); [discriminate|].
    rewrite (digits_value_none _ "-"%char Hdash) in Hc by reflexivity.
    discriminate.
Qed.

(** [reset_df] and the constructor take raw tables only: a table whose
    date column already holds a date (as the object's own table does)
    is refused with a [ValueError], since the text of a parsed date is
    not of the form [%Y%m%d].  After such a [reset_df] the object's
    table is the table that was passed, dates unparsed and series
    unwritten. *)
Theorem parsed_dates_are_refused :
  forall (self : DataFrameProcessor) (new_df : DataFrame)
         (exclude : list string) (tgt lbl series : string) (wg : bool),
    In (date_column self) (columns new_df) ->
    (exists r d, In r (rows new_df)
                 /\ get (date_column self) r = Val (SDate d)) ->
    reset_df new_df self = (Raise ValueError, with_df self new_df)
    /\ (~ In (reset_index_name new_df) (columns new_df) ->
        __init__ new_df exclude (date_column self) tgt lbl series wg
        = Raise ValueError).
Proof.
  intros self new_df exclude tgt lbl series wg Hcol [r [d [Hr Hd]]].
  assert (Hfail : to_datetime
                    (astype_str (map (get (date_column self)) (rows new_df)))
                  = Raise ValueError).
  { unfold to_datetime, astype_str.
    apply (rmap_raises parse_yyyymmdd _ ValueError
             (str_of_cell (get (date_column self) r))).
    - exact parse_only_ValueError.
    - now apply in_map, in_map.
    - intros c Hc. apply (date_does_not_parse d). rewrite <- Hd. now exists c. }
  split.
  - unfold reset_df. run. unfold copy, getitem.
    apply mem_In in Hcol. rewrite Hcol. simpl. now rewrite Hfail.
  - intros Hname.
    assert (Hne : date_column self <> reset_index_name new_df) by congruence.
    unfold __init__, reset_index, copy.
    apply mem_not_In in Hname. rewrite Hname.
    cbn [rbind]. unfold getitem at 1. cbn [columns mem existsb rows].
    apply mem_In in Hcol. unfold mem in Hcol. rewrite Hcol, orb_true_r.
    cbn [rbind]. rewrite (reset_index_keeps_column _ _ _ Hne).
    now rewrite Hfail.
Qed.

Lemma parsed_dates_are_refused_witness :
  reset_df (df Samples.actual) Samples.actual
  = (Raise ValueError, with_df Samples.actual (df Samples.actual)).
Proof.
  refine (proj1 (parsed_dates_are_refused Samples.actual (df Samples.actual)
                   [] "v" "actual" "series" true _ _)).
  - simpl. auto.
  - eexists. exists 19358. split; [left; reflexivity | reflexivity].
Defined.

Lemma scalar_min_dates (a b : Z) :
  scalar_min (SDate a) (SDate b) = SDate (Z.min a b).
Proof.
  unfold scalar_min, scalar_ltb. simpl.
  destruct (Z.compare_spec b a); f_equal; lia.
Qed.

Lemma scalar_max_dates (a b : Z) :
  scalar_max (SDate a) (SDate b) = SDate (Z.max a b).
Proof.
  unfold scalar_max, scalar_ltb. simpl.
  destruct (Z.compare_spec a b); f_equal; lia.
Qed.

(** The least date of a column of dates, by [Series.min]. *)
Lemma series_min_dates (col : list cell) :
  Forall date_or_missing col ->
  date_or_missing (series_min col)
  /\ (forall d, In (Val (SDate d)) col ->
                exists lo, series_min col = Val (SDate lo) /\ lo <= d)
  /\ (forall lo, series_min col = Val (SDate lo) -> In (Val (SDate lo)) col).
Proof.
  unfold series_min, reduce.
  assert (H : forall (l : list cell) (acc : cell),
             Forall date_or_missing l -> date_or_missing acc ->
             let r := fold_left
                        (fun acc c => match acc, c with
                                      | _, NA => acc
                                      | NA, Val a => Val a
                                      | Val b, Val a => Val (scalar_min b a)
                                      end) l acc in
             date_or_missing r
             /\ (forall d, acc = Val (SDate d) \/ In (Val (SDate d)) l ->
                           exists lo, r = Val (SDate lo) /\ lo <= d)
             /\ (forall lo, r = Val (SDate lo) ->
                            acc = Val (SDate lo) \/ In (Val (SDate lo)) l)).
  { induction l as [|c l IH]; intros acc Hl Hacc; simpl.
    - split; [assumption|]. split.
      + intros d [->|[]]. exists d. split; [reflexivity | lia].
      + auto.
    - inversion Hl as [|? ? Hc Hrest]; subst.
      destruct Hc as [->|[x ->]].
      + destruct (IH acc Hrest Hacc) as [H1 [H2 H3]].
        split; [destruct acc; exact H1|]. split.
        * intros d [Hd|[Hd|Hd]]; [|discriminate|];
            destruct acc; apply H2; auto.
        * intros lo Hlo. destruct acc; apply H3 in Hlo; tauto.
      + destruct Hacc as [->|[a ->]].
        * destruct (IH (Val (SDate x)) Hrest) as [H1 [H2 H3]];
            [right; eauto|].
          split; [exact H1|]. split.
          -- intros d [Hd|[Hd|Hd]]; [discriminate| |]; apply H2; auto.
          -- intros lo Hlo. apply H3 in Hlo. tauto.
        * rewrite scalar_min_dates.
          destruct (IH (Val (SDate (Z.min a x))) Hrest) as [H1 [H2 H3]];
            [right; eauto|].
          split; [exact H1|]. split.
          -- intros d [Hd|[Hd|Hd]].
             ++ injection Hd as ->.
                destruct (H2 (Z.min d x) (or_introl eq_refl)) as [lo [E Hle]].
                exists lo. split; [exact E | lia].
             ++ injection Hd as ->.
                destruct (H2 (Z.min a d) (or_introl eq_refl)) as [lo [E Hle]].
                exists lo. split; [exact E | lia].
             ++ apply H2. now right.
          -- intros lo Hlo. apply H3 in Hlo as [Hlo|Hlo]; [|tauto].
             injection Hlo as <-.
             destruct (Z.min_spec a x) as [[_ ->]|[_ ->]]; auto. }
  intros Hcol. destruct (H col NA Hcol (or_introl eq_refl)) as [H1 [H2 H3]].
  split; [exact H1|]. split.
  - intros d Hd. apply H2. now right.
  - intros lo Hlo. apply H3 in Hlo as [Hlo|Hlo]; [discriminate | assumption].
Qed.

(** The greatest date of a column of dates, by [Series.max]. *)
Lemma series_max_dates (col : list cell) :
  Forall date_or_missing col ->
  date_or_missing (series_max col)
  /\ (forall d, In (Val (SDate d)) col ->
                exists hi, series_max col = Val (SDate hi) /\ d <= hi)
  /\ (forall hi, series_max col = Val (SDate hi) -> In (Val (SDate hi)) col).
Proof.
  unfold series_max, reduce.
  assert (H : forall (l : list cell) (acc : cell),
             Forall date_or_missing l -> date_or_missing acc ->
             let r := fold_left
                        (fun acc c => match acc, c with
                                      | _, NA => acc
                                      | NA, Val a => Val a
                                      | Val b, Val a => Val (scalar_max b a)
                                      end) l acc in
             date_or_missing r
             /\ (forall d, acc = Val (SDate d) \/ In (Val (SDate d)) l ->
                           exists hi, r = Val (SDate hi) /\ d <= hi)
             /\ (forall hi, r = Val (SDate hi) ->
                            acc = Val (SDate hi) \/ In (Val (SDate hi)) l)).
  { induction l as [|c l IH]; intros acc Hl Hacc; simpl.
    - split; [assumption|]. split.
      + intros d [->|[]]. exists d. split; [reflexivity | lia].
      + auto.
    - inversion Hl as [|? ? Hc Hrest]; subst.
      destruct Hc as [->|[x ->]].
      + destruct (IH acc Hrest Hacc) as [H1 [H2 H3]].
        split; [destruct acc; exact H1|]. split.
        * intros d [Hd|[Hd|Hd]]; [|discriminate|];
            destruct acc; apply H2; auto.
        * intros hi Hhi. destruct acc; apply H3 in Hhi; tauto.
      + destruct Hacc as [->|[a ->]].
        * destruct (IH (Val (SDate x)) Hrest) as [H1 [H2 H3]];
            [right; eauto|].
          split; [exact H1|]. split.
          -- intros d [Hd|[Hd|Hd]]; [discriminate| |]; apply H2; auto.
          -- intros hi Hhi. apply H3 in Hhi. tauto.
        * rewrite scalar_max_dates.
          destruct (IH (Val (SDate (Z.max a x))) Hrest) as [H1 [H2 H3]];
            [right; eauto|].
          split; [exact H1|]. split.
          -- intros d [Hd|[Hd|Hd]].
             ++ injection Hd as ->.
                destruct (H2 (Z.max d x) (or_introl eq_refl)) as [hi [E Hle]].
                exists hi. split; [exact E | lia].
             ++ injection Hd as ->.
                destruct (H2 (Z.max a d) (or_introl eq_refl)) as [hi [E Hle]].
                exists hi. split; [exact E | lia].
             ++ apply H2. now right.
          -- intros hi Hhi. apply H3 in Hhi as [Hhi|Hhi]; [|tauto].
             injection Hhi as <-.
             destruct (Z.max_spec a x) as [[_ ->]|[_ ->]]; auto. }
  intros Hcol. destruct (H col NA Hcol (or_introl eq_refl)) as [H1 [H2 H3]].
  split; [exact H1|]. split.
  - intros d Hd. apply H2. now right.
  - intros hi Hhi. apply H3 in Hhi as [Hhi|Hhi]; [discriminate | assumption].
Qed.

(** What a successful construction stores as date column and bounds. *)
Lemma init_bounds (input : DataFrame) (exclude : list string)
    (date_col tgt lbl series : string) (wg : bool)
    (self : DataFrameProcessor) :
  __init__ input exclude date_col tgt lbl series wg = Ok self ->
  wg = false \/ series <> date_col ->
  date_column self = date_col
  /\ Forall date_or_missing (map (get date_col) (rows (df self)))
  /\ min_date self = series_min (map (get date_col) (rows (df self)))
  /\ max_date self = series_max (map (get date_col) (rows (df self))).
Proof.
  intros H Hcase. unfold __init__, reset_index, copy in H.
  destruct (mem _ (columns input)); [discriminate|].
  simpl in H.
  destruct (getitem _ date_col) as [raw|e] eqn:Hraw; [|discriminate].
  simpl in H.
  destruct (to_datetime (astype_str raw)) as [dates|e] eqn:Hdates;
    [|discriminate].
  simpl in H.
  destruct (getitem _ date_col) as [col|e] eqn:Hcol in H; [|discriminate].
  simpl in H. injection H as <-. simpl.
  unfold getitem in Hcol.
  destruct (mem date_col _) in Hcol; [|discriminate].
  injection Hcol as <-.
  unfold to_datetime, astype_str in Hdates. apply rmap_Forall2 in Hdates.
  assert (Hlen := Forall2_length_eq _ _ _ Hdates).
  assert (Hkind : Forall date_or_missing dates).
  { clear Hlen. induction Hdates; constructor; auto.
    eapply parse_yyyymmdd_kind; eassumption. }
  unfold getitem in Hraw.
  destruct (mem date_col _) in Hraw; [|discriminate].
  injection Hraw as <-. rewrite !length_map in Hlen.
  split; [reflexivity|]. split; [|split; reflexivity].
  assert (Hset : map (get date_col)
                   (set_cells date_col
                      (relabel (map (fun r => mkRow (row_label r)
                                       ((reset_index_name input, row_label r)
                                          :: cells r))
                                    (rows input))) dates) = dates)
    by now apply set_cells_get_same.
  destruct wg; simpl.
  - destruct Hcase as [Hcase|Hcase]; [discriminate|].
    rewrite map_set_get_other by congruence. now rewrite Hset.
  - now rewrite Hset.
Qed.

(** The bounds stored at construction are real bounds: every date of
    the table lies between [min_date] and [max_date], both are dates of
    rows of the table, and they are missing only when no row has a
    date.  (The series column must not be the date column itself.) *)
Theorem construction_bounds :
  forall (input : DataFrame) (exclude : list string)
         (date_col tgt lbl series : string) (wg : bool)
         (self : DataFrameProcessor),
    __init__ input exclude date_col tgt lbl series wg = Ok self ->
    wg = false \/ series <> date_col ->
    (forall r d, In r (rows (df self)) -> get date_col r = Val (SDate d) ->
                 exists lo hi, min_date self = Val (SDate lo)
                               /\ max_date self = Val (SDate hi)
                               /\ lo <= d <= hi)
    /\ (forall lo, min_date self = Val (SDate lo) ->
                   exists r, In r (rows (df self))
                             /\ get date_col r = Val (SDate lo))
    /\ (forall hi, max_date self = Val (SDate hi) ->
                   exists r, In r (rows (df self))
                             /\ get date_col r = Val (SDate hi))
    /\ date_or_missing (min_date self)
    /\ date_or_missing (max_date self).
Proof.
  intros input exclude date_col tgt lbl series wg self H Hcase.
  destruct (init_bounds _ _ _ _ _ _ _ _ H Hcase) as [_ [Hcol [Hmin Hmax]]].
  destruct (series_min_dates _ Hcol) as [Hk1 [Hlo1 Hlo2]].
  destruct (series_max_dates _ Hcol) as [Hk2 [Hhi1 Hhi2]].
  rewrite Hmin, Hmax.
  split; [|split; [|split; [|split]]]; try assumption.
  - intros r d Hr Hd.
    assert (Hin : In (Val (SDate d)) (map (get date_col) (rows (df self))))
      by (rewrite <- Hd; now apply in_map).
    destruct (Hlo1 d Hin) as [lo [-> Hle1]].
    destruct (Hhi1 d Hin) as [hi [-> Hle2]].
    exists lo, hi. repeat split; assumption.
  - intros lo Hlo. apply Hlo2 in Hlo.
    apply in_map_iff in Hlo as [r [Hd Hr]]. now exists r.
  - intros hi Hhi. apply Hhi2 in Hhi.
    apply in_map_iff in Hhi as [r [Hd Hr]]. now exists r.
Qed.

Lemma construction_bounds_witness :
  exists lo hi,
    min_date Samples.actual = Val (SDate lo)
    /\ max_date Samples.actual = Val (SDate hi)
    /\ lo <= 19359 <= hi.
Proof.
  refine (proj1 (construction_bounds Samples.raw [] "date" "v" "actual"
                   "series" true Samples.actual eq_refl _)
                (Samples.row 1 [("index", Val (SInt 1));
                                ("date", Val (SDate 19359));
                                ("v", Val (SInt 20));
                                ("series", Val (SStr "actual"))])
                19359 _ eq_refl).
  - right. discriminate.
  - right. left. reflexivity.
Defined.

End Construction.

(** ** Filters by date and by column together *)

Section DateAndColumnFilters.

Import pd pd_facts.

Lemma filter_by_date_outcome (self : DataFrameProcessor)
    (start_date end_date : Timestamp) (inplace : bool) :
  In (date_column self) (columns (df self)) ->
  Forall date_or_missing (map (get (date_column self)) (rows (df self))) ->
  filter_by_date start_date end_date inplace self
  = let kept := with_rows (df self)
                  (rows_between start_date end_date (date_column self)
                                (rows (df self))) in
    if inplace then (Ok None, with_df self kept) else (Ok (Some kept), self).
Proof.
  intros Hdate Hcells. unfold filter_by_date. run. unfold getitem.
  apply mem_In in Hdate. rewrite Hdate.
  rewrite (rmap_date_between _ _ _ Hcells).
  unfold getitem_mask, rows_between. rewrite map_map, select_map.
  now destruct inplace.
Qed.

Lemma filter_comm {A : Type} (p q : A -> bool) (l : list A) :
  filter p (filter q l) = filter q (filter p l).
Proof.
  induction l as [|a l IH]; simpl; [reflexivity|].
  destruct (p a) eqn:Hp, (q a) eqn:Hq; simpl; rewrite ?Hp, ?Hq, IH; reflexivity.
Qed.

Lemma filter_filter {A : Type} (p q : A -> bool) (l : list A) :
  filter q (filter p l) = filter (fun a => p a && q a) l.
Proof.
  induction l as [|a l IH]; simpl; [reflexivity|].
  destruct (p a) eqn:Hp; simpl; [|exact IH].
  destruct (q a); now rewrite IH.
Qed.

Lemma Forall_map_filter {A B : Type} (P : B -> Prop) (f : A -> B)
    (p : A -> bool) (l : list A) :
  Forall P (map f l) -> Forall P (map f (filter p l)).
Proof.
  rewrite !Forall_forall. intros H b Hb.
  apply in_map_iff in Hb as [a [<- Ha]]. apply filter_In in Ha as [Ha _].
  apply H. now apply in_map.
Qed.

Lemma in_date_range_both (s e s' e' : Timestamp) (c : cell) :
  in_date_range s e c && in_date_range s' e' c
  = in_date_range (Z.max s s') (Z.min e e') c.
Proof.
  destruct c as [|[z|str|d]]; try reflexivity. simpl.
  destruct (Z.leb_spec s (midnight d)), (Z.leb_spec (midnight d) e),
           (Z.leb_spec s' (midnight d)), (Z.leb_spec (midnight d) e'),
           (Z.leb_spec (Z.max s s') (midnight d)),
           (Z.leb_spec (midnight d) (Z.min e e')); simpl; try reflexivity; lia.
Qed.

(** On a table whose date column holds dates, the filter by date and
    the filter by columns commute: applied in place in either order
    they hand over the same table and leave the same object.  Two
    filters by date in a row are one filter by the intersection of the
    two ranges. *)
Theorem date_and_column_filters_commute :
  forall (self : DataFrameProcessor) (filters : list (string * filter_value))
         (start_date end_date start_date' end_date' : Timestamp)
         (inplace : bool),
    In (date_column self) (columns (df self)) ->
    Forall date_or_missing (map (get (date_column self)) (rows (df self))) ->
    let by_date := snd (filter_by_date start_date end_date true self) in
    let by_columns := snd (filter_by_specified_columns filters true self) in
    (entries_defined (df self) filters ->
     fst (filter_by_specified_columns filters inplace by_date)
     = fst (filter_by_date start_date end_date inplace by_columns)
     /\ snd (filter_by_specified_columns filters true by_date)
        = snd (filter_by_date start_date end_date true by_columns))
    /\ fst (filter_by_date start_date' end_date' inplace by_date)
       = fst (filter_by_date (Z.max start_date start_date')
                             (Z.min end_date end_date') inplace self)
    /\ filter_by_date start_date' end_date' true by_date
       = filter_by_date (Z.max start_date start_date')
                        (Z.min end_date end_date') true self.
Proof.
  intros self filters s e s' e' inplace Hdate Hcells by_date by_columns.
  assert (Hby : by_date
                = with_df self
                    (with_rows (df self)
                       (rows_between s e (date_column self) (rows (df self))))).
  { unfold by_date. now rewrite filter_by_date_outcome. }
  assert (Hcells' : Forall date_or_missing
                      (map (get (date_column by_date)) (rows (df by_date)))).
  { rewrite Hby. simpl. unfold rows_between. now apply Forall_map_filter. }
  assert (Hdate' : In (date_column by_date) (columns (df by_date)))
    by (rewrite Hby; exact Hdate).
  assert (Hboth : rows_between s' e' (date_column self)
                    (rows_between s e (date_column self) (rows (df self)))
                  = rows_between (Z.max s s') (Z.min e e') (date_column self)
                      (rows (df self))).
  { unfold rows_between. rewrite filter_filter. apply filter_ext.
    intros r. apply in_date_range_both. }
  split; [|split].
  - intros Hdef.
    assert (Hcols : by_columns
                    = with_df self
                        (with_rows (df self)
                           (kept_rows filters (rows (df self))))).
    { unfold by_columns. rewrite filter_by_specified_columns_outcome.
      apply entries_definedb_spec in Hdef. now rewrite Hdef. }
    assert (Hdefb : entries_definedb (df by_date) filters = true).
    { apply entries_definedb_spec. rewrite Hby. exact Hdef. }
    assert (Hcells2 : Forall date_or_missing
                        (map (get (date_column by_columns))
                             (rows (df by_columns)))).
    { rewrite Hcols. simpl. unfold kept_rows. now apply Forall_map_filter. }
    assert (Hdate2 : In (date_column by_columns) (columns (df by_columns)))
      by (rewrite Hcols; exact Hdate).
    assert (Hsame : kept_rows filters
                      (rows_between s e (date_column self) (rows (df self)))
                    = rows_between s e (date_column self)
                        (kept_rows filters (rows (df self))))
      by apply filter_comm.
    rewrite !filter_by_specified_columns_outcome, Hdefb.
    rewrite !(filter_by_date_outcome by_columns) by assumption.
    rewrite Hby, Hcols. cbn [df date_column with_df with_rows rows columns
                             index_name fst snd].
    rewrite Hsame. split; [now destruct inplace | reflexivity].
  - rewrite (filter_by_date_outcome by_date) by assumption.
    rewrite (filter_by_date_outcome self) by assumption.
    rewrite Hby. cbn [df date_column with_df with_rows rows columns
                      index_name]. rewrite Hboth.
    now destruct inplace.
  - rewrite (filter_by_date_outcome by_date) by assumption.
    rewrite (filter_by_date_outcome self) by assumption.
    rewrite Hby. cbn [df date_column with_df with_rows rows columns
                      index_name]. now rewrite Hboth.
Qed.

Lemma date_and_column_filters_commute_witness :
  fst (filter_by_specified_columns [Samples.five_or_two] false
         (snd (filter_by_date Samples.new_year_2023 Samples.new_year_2023
                 true Samples.plain)))
  = fst (filter_by_date Samples.new_year_2023 Samples.new_year_2023 false
           (snd (filter_by_specified_columns [Samples.five_or_two] true
                   Samples.plain)))
  /\ snd (filter_by_specified_columns [Samples.five_or_two] true
            (snd (filter_by_date Samples.new_year_2023 Samples.new_year_2023
                    true Samples.plain)))
     = snd (filter_by_date Samples.new_year_2023 Samples.new_year_2023 true
              (snd (filter_by_specified_columns [Samples.five_or_two] true
                      Samples.plain))).
Proof.
  refine (proj1 (date_and_column_filters_commute Samples.plain
                   [Samples.five_or_two]
                   Samples.new_year_2023 Samples.new_year_2023
                   Samples.new_year_2023 Samples.new_year_2023 false _ _) _).
  - simpl. tauto.
  - simpl. repeat apply Forall_cons; try apply Forall_nil;
      right; eexists; reflexivity.
  - intros col val [H|[]] _. injection H as <- _. simpl. tauto.
Defined.

End DateAndColumnFilters.
